(** * Package Scripts Hover: the documentation store and the hover resolver

    A shallow embedding of the TypeScript sources of the extension
    ([src/extension.ts], [src/providers/hoverProvider.ts] and the earlier
    provider variants) together with the properties stated for them.

    Conventions of the embedding.
    - A JavaScript string is a [string] that holds the UTF-8 form of the
      text, as the files hold it: one [ascii] for a code unit below 0080,
      two or three for the other code units, four for the two surrogates
      of a code point beyond FFFF.  A surrogate without its partner is
      written like any other code unit of its range, in three bytes.  The
      texts that the code reads, files and documents, are well-formed
      UTF-8.
    - A JSON number keeps its decimal literal exactly (sign, mantissa,
      power of ten); the code only ever asks whether it is zero and prints
      it, and printing is left to the engine (see [Engine]).
    - Object members are kept in insertion order with unique keys.  The
      engine enumerates integer-like keys first; that changes the order in
      which members are enumerated and written, and nothing else.  The
      properties below speak of the members of an object, not of their
      order.
    - Property reads on plain objects look at own members and then at the
      members of [Object.prototype]; reads that leave a non-plain receiver
      (array, string, number, boolean, built-in) empty-handed are answered
      by the engine. *)

From Stdlib Require Import Strings.String Strings.Ascii Lists.List.
From Stdlib Require Import ZArith NArith Arith Bool Lia.
From Stdlib Require Import DecimalString Decimal DecimalNat.
Import ListNotations.

Set Warnings "-register-all".

Local Open Scope list_scope.
Local Open Scope char_scope.

Infix "+++" := String.append (right associativity, at level 60).

(** ** Characters and strings *)

Module Chars.

Definition quote : ascii := "034".
Definition backslash : ascii := "092".
Definition slash : ascii := "047".

Definition code (c : ascii) : N := N_of_ascii c.

Definition in_range (lo hi : N) (c : ascii) : bool :=
  ((lo <=? code c) && (code c <=? hi))%N.

Definition is_digit (c : ascii) : bool := in_range 48 57 c.
Definition is_lower (c : ascii) : bool := in_range 97 122 c.
Definition is_upper (c : ascii) : bool := in_range 65 90 c.

(** Whitespace of the JSON grammar: space, tab, line feed, carriage return. *)
Definition is_json_ws (c : ascii) : bool :=
  (c =? " ") || (c =? "009") || (c =? "010") || (c =? "013").

(** The class [\s] of a regular expression.  Below 0080 it holds tab,
    line feed, vertical tab, form feed, carriage return and space. *)
Definition is_regex_space (c : ascii) : bool :=
  in_range 9 13 c || (c =? " ").

(** In two bytes it holds the no-break space U+00A0. *)
Definition is_regex_space2 (a b : ascii) : bool :=
  (a =? "194") && (b =? "160").

(** In three bytes it holds U+1680, U+2000 to U+200A, U+2028, U+2029,
    U+202F, U+205F, U+3000 and U+FEFF. *)
Definition is_regex_space3 (a b c : ascii) : bool :=
  ((a =? "225") && (b =? "154") && (c =? "128")) ||
  ((a =? "226") && (b =? "128") &&
   (in_range 128 138 c || in_range 168 169 c || (c =? "175"))) ||
  ((a =? "226") && (b =? "129") && (c =? "159")) ||
  ((a =? "227") && (b =? "128") && (c =? "128")) ||
  ((a =? "239") && (b =? "187") && (c =? "191")).

(** [\s*] at the head of [s]: the text after the longest run of white
    space. *)
Fixpoint skip_space (s : string) : string :=
  match s with
  | String a r =>
      if is_regex_space a then skip_space r
      else
        match r with
        | String b r2 =>
            if is_regex_space2 a b then skip_space r2
            else
              match r2 with
              | String c r3 =>
                  if is_regex_space3 a b c then skip_space r3 else s
              | EmptyString => s
              end
        | EmptyString => s
        end
  | EmptyString => EmptyString
  end.

(** The class [[a-zA-Z0-9_:-]]. *)
Definition is_script_char (c : ascii) : bool :=
  is_lower c || is_upper c || is_digit c ||
  (c =? "_") || (c =? ":") || (c =? "-").

Definition digit_value (c : ascii) : N := (code c - 48)%N.

Definition hex_value (c : ascii) : option N :=
  if is_digit c then Some (code c - 48)%N
  else if in_range 97 102 c then Some (code c - 87)%N
  else if in_range 65 70 c then Some (code c - 55)%N
  else None.

(** The UTF-8 form of the code point [n]; a surrogate is written like
    the other code points of its range, in three bytes. *)
Definition utf8 (n : N) : string :=
  if (n <? 128)%N then String (ascii_of_N n) EmptyString
  else if (n <? 2048)%N then
    String (ascii_of_N (192 + n / 64))
      (String (ascii_of_N (128 + n mod 64)) EmptyString)
  else if (n <? 65536)%N then
    String (ascii_of_N (224 + n / 4096))
      (String (ascii_of_N (128 + (n / 64) mod 64))
         (String (ascii_of_N (128 + n mod 64)) EmptyString))
  else
    String (ascii_of_N (240 + n / 262144))
      (String (ascii_of_N (128 + (n / 4096) mod 64))
         (String (ascii_of_N (128 + (n / 64) mod 64))
            (String (ascii_of_N (128 + n mod 64)) EmptyString))).

(** The surrogates: D800 to DBFF come first in a pair, DC00 to DFFF
    second. *)
Definition is_high_surrogate (n : N) : bool :=
  ((55296 <=? n) && (n <=? 56319))%N.

Definition is_low_surrogate (n : N) : bool :=
  ((56320 <=? n) && (n <=? 57343))%N.

(** The code point that a pair of surrogates stands for. *)
Definition pair_value (high low : N) : N :=
  (65536 + (high - 55296) * 1024 + (low - 56320))%N.

(** The surrogate that three bytes hold, if they hold one: [ED], a
    byte from [A0] to [BF], and a byte from [80] to [BF]. *)
Definition surrogate (a b c : ascii) : option N :=
  if (a =? "237") && in_range 160 191 b && in_range 128 191 c
  then Some (53248 + (code b - 128) * 64 + (code c - 128))%N
  else None.

(** The code units of a string, each as a string of its own: what
    indexing the string gives.  A code point beyond FFFF, in four
    bytes, is two surrogates. *)
Fixpoint code_units (s : string) : list string :=
  match s with
  | EmptyString => []
  | String a r =>
      let single := String a EmptyString :: code_units r in
      if in_range 192 223 a then
        match r with
        | String b r2 => String a (String b EmptyString) :: code_units r2
        | EmptyString => single
        end
      else if in_range 224 239 a then
        match r with
        | String b (String c r3) =>
            String a (String b (String c EmptyString)) :: code_units r3
        | _ => single
        end
      else if in_range 240 247 a then
        match r with
        | String b (String c (String d r4)) =>
            let point :=
              ((code a - 240) * 262144 + (code b - 128) * 4096 +
               (code c - 128) * 64 + (code d - 128))%N in
            utf8 (55296 + (point - 65536) / 1024) ::
            utf8 (56320 + (point - 65536) mod 1024) :: code_units r4
        | _ => single
        end
      else single
  end.

Fixpoint skip (p : ascii -> bool) (s : string) : string :=
  match s with
  | String c r => if p c then skip p r else s
  | EmptyString => EmptyString
  end.

(** [span p s] splits [s] into its longest prefix of [p]-characters and
    the rest. *)
Fixpoint span (p : ascii -> bool) (s : string) : string * string :=
  match s with
  | String c r =>
      if p c then let (run, rest) := span p r in (String c run, rest)
      else (EmptyString, s)
  | EmptyString => (EmptyString, EmptyString)
  end.

Fixpoint forallb_string (p : ascii -> bool) (s : string) : bool :=
  match s with
  | String c r => p c && forallb_string p r
  | EmptyString => true
  end.

Fixpoint existsb_string (p : ascii -> bool) (s : string) : bool :=
  match s with
  | String c r => p c || existsb_string p r
  | EmptyString => false
  end.

(** [String.prototype.includes] for a one-character needle. *)
Definition includes_char (s : string) (c : ascii) : bool :=
  existsb_string (Ascii.eqb c) s.

Definition is_empty (s : string) : bool :=
  match s with EmptyString => true | String _ _ => false end.

(** A text that is white space throughout. *)
Definition white_space (s : string) : bool := is_empty (skip_space s).

(** [String.prototype.endsWith]. *)
Definition endsWith (s suffix : string) : bool :=
  let n := String.length s in
  let m := String.length suffix in
  (m <=? n)%nat && String.eqb (substring (n - m) m s) suffix.

Fixpoint digits_value (acc : N) (s : string) : N :=
  match s with
  | String c r => digits_value (acc * 10 + digit_value c)%N r
  | EmptyString => acc
  end.

Definition string_of_nat (n : nat) : string :=
  NilEmpty.string_of_uint (Nat.to_uint n).

(** Test texts are written with apostrophes where the JSON has double
    quotes; [dq] puts the double quotes back. *)
Fixpoint dq (s : string) : string :=
  match s with
  | String c r => String (if c =? "'" then quote else c) (dq r)
  | EmptyString => EmptyString
  end.

End Chars.
Import Chars.

(** ** JavaScript values *)

Module Js.

(** The decimal literal [[-]mant * 10^exp10] of a JSON number. *)
Record number := mkNumber { num_neg : bool; num_mant : N; num_exp10 : Z }.

Definition number_of_nat (n : nat) : number := mkNumber false (N.of_nat n) 0.

(** Values that [JSON.parse] builds, and [VBuiltin]: a function or object
    of the engine that a property read found on a prototype, named by the
    property that led to it. *)
Inductive value : Type :=
| VNull
| VBool (b : bool)
| VNum (n : number)
| VStr (s : string)
| VArr (elements : list value)
| VObj (members : list (string * value))
| VBuiltin (name : string).

(** Errors that travel as exceptions. *)
Inductive exn : Type :=
| FileNotFound                 (* vscode.FileSystemError, code FileNotFound *)
| FileSystemFailure (message : string)
| SyntaxError (text : string)  (* thrown by JSON.parse *)
| TypeError (property : string)(* property read on null or undefined *)
| NotPrimitive                 (* TypeError of a conversion to a primitive *)
| IllegalLine                  (* thrown by TextDocument.lineAt *)
| Error (message : string).

Inductive outcome (A : Type) : Type :=
| Returns (a : A)
| Throws (e : exn).
Arguments Returns {A} a.
Arguments Throws {A} e.

Definition bind {A B} (m : outcome A) (k : A -> outcome B) : outcome B :=
  match m with
  | Returns a => k a
  | Throws e => Throws e
  end.

(** [try { m } catch (e) { ... }] with a handler that cannot throw. *)
Definition recover {A} (m : outcome A) (handler : exn -> A) : A :=
  match m with
  | Returns a => a
  | Throws e => handler e
  end.

(** What the code takes from the JavaScript engine without this repository
    defining it. *)
Record Engine := {
  (** the value of [receiver[key]] when [receiver] is not a plain object
      and has no own member [key] *)
  inherited_get : value -> string -> option value;
  (** [Number.prototype.toString] *)
  Number_toString : number -> string;
  (** the text a built-in converts to *)
  Builtin_toString : string -> string;
  (** [ToString] of an object whose member [toString] or [valueOf] is a
      built-in *)
  Builtin_conversion : value -> outcome string;
  (** [error.message] of an error the engine or the host raised *)
  engine_message : exn -> string
}.

(** A double is zero when its literal is, and also when the literal is so
    small that it rounds to zero: at most [2^-1075], half the least
    positive double. *)
Definition number_is_zero (n : number) : bool :=
  (num_mant n =? 0)%N ||
  ((num_exp10 n <? 0)%Z &&
   (Z.of_N (num_mant n) * 2 ^ 1075 <=? 10 ^ (- num_exp10 n))%Z).

(** [ToBoolean]. *)
Definition truthy (v : value) : bool :=
  match v with
  | VNull => false
  | VBool b => b
  | VNum n => negb (number_is_zero n)
  | VStr s => negb (is_empty s)
  | VArr _ | VObj _ | VBuiltin _ => true
  end.

Definition truthy_opt (v : option value) : bool :=
  match v with
  | Some v => truthy v
  | None => false
  end.

(** [a || b] on possibly undefined values. *)
Definition or_else (a : option value) (b : value) : value :=
  match a with
  | Some v => if truthy v then v else b
  | None => b
  end.

(** [a || b] where evaluating [b] may throw: [b] is evaluated only when
    [a] is falsy. *)
Definition or_else_try (a : option value) (b : outcome value) : outcome value :=
  match a with
  | Some v => if truthy v then Returns v else b
  | None => b
  end.

(** *** Objects as association lists *)

Fixpoint lookup (k : string) (kvs : list (string * value)) : option value :=
  match kvs with
  | [] => None
  | (k', v) :: rest => if String.eqb k k' then Some v else lookup k rest
  end.

(** [CreateDataProperty]: an existing member keeps its place and takes the
    new value, a new member goes to the end.  (The engine enumerates the
    members whose keys are array indices before the others, in ascending
    order; the list keeps the order of insertion for all keys, and no
    property below depends on the place of a member.) *)
Fixpoint define (kvs : list (string * value)) (k : string) (v : value)
  : list (string * value) :=
  match kvs with
  | [] => [(k, v)]
  | (k', v') :: rest =>
      if String.eqb k k' then (k', v) :: rest
      else (k', v') :: define rest k v
  end.

Definition keys (kvs : list (string * value)) : list string := map fst kvs.

Fixpoint index_from (i : nat) (vs : list value) : list (string * value) :=
  match vs with
  | [] => []
  | v :: rest => (string_of_nat i, v) :: index_from (S i) rest
  end.

Definition chars_of (s : string) : list value := map VStr (code_units s).

(** The own enumerable members of a value: what [Object.keys], [for-in]
    and object spread see. *)
Definition own_entries (v : value) : list (string * value) :=
  match v with
  | VObj kvs => kvs
  | VArr vs => index_from 0 vs
  | VStr s => index_from 0 (chars_of s)
  | VNull | VBool _ | VNum _ | VBuiltin _ => []
  end.

Definition Object_keys (v : value) : list string := keys (own_entries v).

(** The methods of [Object.prototype]. *)
Definition Object_prototype_methods : list string :=
  [ "constructor"; "hasOwnProperty"; "isPrototypeOf";
    "propertyIsEnumerable"; "toLocaleString"; "toString"; "valueOf";
    "__defineGetter__"; "__defineSetter__";
    "__lookupGetter__"; "__lookupSetter__" ]%string.

(** What a plain object inherits under the name [k]: one of the methods,
    or under [__proto__] the prototype itself, an object without
    enumerable members. *)
Definition inherited (k : string) : option value :=
  if String.eqb k "__proto__" then Some (VObj [])
  else if existsb (String.eqb k) Object_prototype_methods
  then Some (VBuiltin k)
  else None.

Section WithEngine.
Context (E : Engine).

(** [receiver[key]] for a receiver that is neither null nor undefined. *)
Definition get (receiver : value) (k : string) : option value :=
  match lookup k (own_entries receiver) with
  | Some v => Some v
  | None =>
      match receiver with
      | VObj _ => inherited k
      | VArr vs =>
          if String.eqb k "length" then Some (VNum (number_of_nat (length vs)))
          else inherited_get E receiver k
      | VStr s =>
          if String.eqb k "length"
          then Some (VNum (number_of_nat (length (code_units s))))
          else inherited_get E receiver k
      | _ => inherited_get E receiver k
      end
  end.

(** [receiver.key] and [receiver[key]]: a [TypeError] on null and
    undefined. *)
Definition member (receiver : option value) (k : string)
  : outcome (option value) :=
  match receiver with
  | None | Some VNull => Throws (TypeError k)
  | Some r => Returns (get r k)
  end.

(** [receiver?.[key]]: undefined on null and undefined. *)
Definition member_opt (receiver : option value) (k : string) : option value :=
  match receiver with
  | None | Some VNull => None
  | Some r => get r k
  end.

(** [target[key] = v] on a plain object.  Writing [__proto__] runs the
    setter of [Object.prototype], which creates no own member; the
    prototype it may install is never read by the code modelled here.
    The callers below only assign into plain objects (see [Nested.migrate]
    and [Extension.scan_file]); other targets are left as they are. *)
Definition assign (target : value) (k : string) (v : value) : value :=
  match target with
  | VObj kvs =>
      if String.eqb k "__proto__" then
        match lookup k kvs with
        | Some _ => VObj (define kvs k v)
        | None => target
        end
      else VObj (define kvs k v)
  | _ => target
  end.

(** Object spread [{...a, ...b}] onto the members [kvs]. *)
Definition spread (kvs : list (string * value)) (source : value)
  : list (string * value) :=
  fold_left (fun acc kv => define acc (fst kv) (snd kv))
            (own_entries source) kvs.

(** [ToString], as template literals apply it.  An array prints its
    elements between commas, [null] as nothing.  A plain object is
    converted by [OrdinaryToPrimitive], which calls its method
    [toString] and then its method [valueOf].  An object without a
    member [toString] of its own has the method of [Object.prototype]
    and prints as [[object Object]].  A member [toString] of its own
    that came from JSON is no function: it hides the method and is not
    called; [valueOf], when it is a function, is the inherited one and
    returns the object; so no primitive value is found and the
    conversion throws a [TypeError].  Where [toString] or [valueOf] is
    a built-in that the object holds as a member of its own, the
    engine answers. *)
Fixpoint ToString (v : value) : outcome string :=
  match v with
  | VNull => Returns "null"%string
  | VBool true => Returns "true"%string
  | VBool false => Returns "false"%string
  | VNum n => Returns (Number_toString E n)
  | VStr s => Returns s
  | VArr vs =>
      (fix join (l : list value) : outcome string :=
         match l with
         | [] => Returns EmptyString
         | x :: rest =>
             bind (match x with
                   | VNull => Returns EmptyString
                   | _ => ToString x
                   end)
               (fun first =>
                  match rest with
                  | [] => Returns first
                  | _ =>
                      bind (join rest)
                        (fun others => Returns (first +++ "," +++ others))
                  end)
         end) vs
  | VObj kvs =>
      match lookup "toString" kvs with
      | None => Returns "[object Object]"%string
      | Some (VBuiltin _) => Builtin_conversion E v
      | Some _ =>
          match lookup "valueOf" kvs with
          | Some (VBuiltin _) => Builtin_conversion E v
          | _ => Throws NotPrimitive
          end
      end
  | VBuiltin name => Returns (Builtin_toString E name)
  end.

Definition message (e : exn) : string :=
  match e with
  | Error m => m
  | _ => engine_message E e
  end.

End WithEngine.

End Js.
Import Js.

(** ** JSON text *)

Module Json.

Fixpoint strip_prefix (p s : string) : option string :=
  match p, s with
  | EmptyString, _ => Some s
  | String a p', String b s' => if a =? b then strip_prefix p' s' else None
  | String _ _, EmptyString => None
  end.

Definition skip_ws : string -> string := skip is_json_ws.

(** The character an escape letter stands for. *)
Definition unescape (c : ascii) : option ascii :=
  if c =? quote then Some quote
  else if c =? backslash then Some backslash
  else if c =? slash then Some slash
  else if c =? "b" then Some "008"
  else if c =? "f" then Some "012"
  else if c =? "n" then Some "010"
  else if c =? "r" then Some "013"
  else if c =? "t" then Some "009"
  else None.

(** The code unit of the escape [\uXXXX]. *)
Definition hex4 (a b c d : ascii) : option N :=
  match hex_value a, hex_value b, hex_value c, hex_value d with
  | Some x, Some y, Some z, Some w =>
      Some (((x * 16 + y) * 16 + z) * 16 + w)%N
  | _, _, _, _ => None
  end.

(** The characters of a string literal, from just after its opening quote
    to its closing quote.  An escaped high surrogate and the escaped low
    surrogate that follows it are one code point. *)
Fixpoint parse_chars (s : string) : option (string * string) :=
  match s with
  | EmptyString => None
  | String c r =>
      if c =? quote then Some (EmptyString, r)
      else if c =? backslash then
        match r with
        | EmptyString => None
        | String e r1 =>
            if e =? "u" then
              match r1 with
              | String h1 (String h2 (String h3 (String h4 r2))) =>
                  match hex4 h1 h2 h3 h4 with
                  | Some n =>
                      let alone :=
                        match parse_chars r2 with
                        | Some (body, rest) => Some (utf8 n +++ body, rest)
                        | None => None
                        end in
                      match r2 with
                      | String b (String u (String k1 (String k2
                          (String k3 (String k4 r3))))) =>
                          match
                            (if is_high_surrogate n && (b =? backslash) &&
                                (u =? "u")
                             then hex4 k1 k2 k3 k4 else None)
                          with
                          | Some m =>
                              if is_low_surrogate m then
                                match parse_chars r3 with
                                | Some (body, rest) =>
                                    Some (utf8 (pair_value n m) +++ body, rest)
                                | None => None
                                end
                              else alone
                          | None => alone
                          end
                      | _ => alone
                      end
                  | None => None
                  end
              | _ => None
              end
            else
              match unescape e with
              | Some c' =>
                  match parse_chars r1 with
                  | Some (body, rest) => Some (String c' body, rest)
                  | None => None
                  end
              | None => None
              end
        end
      else if (code c <? 32)%N then None
      else
        match parse_chars r with
        | Some (body, rest) => Some (String c body, rest)
        | None => None
        end
  end.

(** [frac = "." digit+], absent when the text does not go on with a dot. *)
Definition parse_frac (s : string) : option (string * string) :=
  match s with
  | String c r =>
      if c =? "." then
        let (digits, rest) := span is_digit r in
        if is_empty digits then None else Some (digits, rest)
      else Some (EmptyString, s)
  | EmptyString => Some (EmptyString, s)
  end.

(** [exp = ("e" | "E") ("+" | "-")? digit+], zero when absent. *)
Definition parse_exp (s : string) : option (Z * string) :=
  match s with
  | String c r =>
      if (c =? "e") || (c =? "E") then
        let (negative, r1) :=
          match r with
          | String sign r' =>
              if sign =? "-" then (true, r')
              else if sign =? "+" then (false, r')
              else (false, r)
          | EmptyString => (false, r)
          end in
        let (digits, rest) := span is_digit r1 in
        if is_empty digits then None
        else
          let e := Z.of_N (digits_value 0 digits) in
          Some (if negative then (- e)%Z else e, rest)
      else Some (0%Z, s)
  | EmptyString => Some (0%Z, s)
  end.

(** [number = "-"? int frac? exp?] with [int = "0" | [1-9] digit*]. *)
Definition parse_number (s : string) : option (number * string) :=
  let (neg, s1) :=
    match s with
    | String c r => if c =? "-" then (true, r) else (false, s)
    | EmptyString => (false, s)
    end in
  match s1 with
  | String c r =>
      if is_digit c then
        let (int_digits, s2) :=
          if c =? "0" then (String c EmptyString, r) else span is_digit s1 in
        match parse_frac s2 with
        | Some (frac_digits, s3) =>
            match parse_exp s3 with
            | Some (e, s4) =>
                Some (mkNumber neg
                        (digits_value 0 (int_digits +++ frac_digits))
                        (e - Z.of_nat (String.length frac_digits)),
                      s4)
            | None => None
            end
        | None => None
        end
      else None
  | EmptyString => None
  end.

Definition parse_literal (s : string) : option (value * string) :=
  match strip_prefix "true" s with
  | Some r => Some (VBool true, r)
  | None =>
      match strip_prefix "false" s with
      | Some r => Some (VBool false, r)
      | None =>
          match strip_prefix "null" s with
          | Some r => Some (VNull, r)
          | None =>
              match parse_number s with
              | Some (n, r) => Some (VNum n, r)
              | None => None
              end
          end
      end
  end.

(** Recursive descent over the grammar of ECMA-404.  The fuel bounds the
    depth of the calls; two units for each character of the text are
    enough, and more fuel changes nothing (see
    [JsonFacts.parse_fuel_enough]).  A repeated key keeps its first place
    and its last value. *)
Fixpoint parse_value (fuel : nat) (s : string) : option (value * string) :=
  match fuel with
  | O => None
  | S fuel' =>
      match skip_ws s with
      | EmptyString => None
      | String c r =>
          if c =? "{" then
            match skip_ws r with
            | String c' r' =>
                if c' =? "}" then Some (VObj [], r')
                else parse_members fuel' r []
            | EmptyString => None
            end
          else if c =? "[" then
            match skip_ws r with
            | String c' r' =>
                if c' =? "]" then Some (VArr [], r')
                else parse_elements fuel' r []
            | EmptyString => None
            end
          else if c =? quote then
            match parse_chars r with
            | Some (str, rest) => Some (VStr str, rest)
            | None => None
            end
          else parse_literal (String c r)
      end
  end

with parse_elements (fuel : nat) (s : string) (acc : list value)
  : option (value * string) :=
  match fuel with
  | O => None
  | S fuel' =>
      match parse_value fuel' s with
      | Some (v, r) =>
          match skip_ws r with
          | String c r' =>
              if c =? "," then parse_elements fuel' r' (acc ++ [v])
              else if c =? "]" then Some (VArr (acc ++ [v]), r')
              else None
          | EmptyString => None
          end
      | None => None
      end
  end

with parse_members (fuel : nat) (s : string) (acc : list (string * value))
  : option (value * string) :=
  match fuel with
  | O => None
  | S fuel' =>
      match skip_ws s with
      | String q r =>
          if q =? quote then
            match parse_chars r with
            | Some (k, r1) =>
                match skip_ws r1 with
                | String c r2 =>
                    if c =? ":" then
                      match parse_value fuel' r2 with
                      | Some (v, r3) =>
                          match skip_ws r3 with
                          | String c' r4 =>
                              if c' =? "," then
                                parse_members fuel' r4 (define acc k v)
                              else if c' =? "}" then
                                Some (VObj (define acc k v), r4)
                              else None
                          | EmptyString => None
                          end
                      | None => None
                      end
                    else None
                | EmptyString => None
                end
            | None => None
            end
          else None
      | EmptyString => None
      end
  end.

(** [JSON.parse]: [None] stands for the [SyntaxError] it throws. *)
Definition JSON_parse (text : string) : option value :=
  match parse_value (S (2 * String.length text)) text with
  | Some (v, rest) => if is_empty (skip_ws rest) then Some v else None
  | None => None
  end.

Definition JSON_parse_outcome (text : string) : outcome value :=
  match JSON_parse text with
  | Some v => Returns v
  | None => Throws (SyntaxError text)
  end.

End Json.
Import Json.

(** ** Writing JSON text: [JSON.stringify(value, null, 2)] *)

Module JsonWrite.

Definition newline : string := String "010" EmptyString.

Definition hex_digit (n : N) : ascii :=
  if (n <? 10)%N then ascii_of_N (48 + n) else ascii_of_N (87 + n).

Definition escape_char (c : ascii) : string :=
  if c =? quote then String backslash (String quote EmptyString)
  else if c =? backslash then String backslash (String backslash EmptyString)
  else if c =? "008" then "\b"
  else if c =? "012" then "\f"
  else if c =? "010" then "\n"
  else if c =? "013" then "\r"
  else if c =? "009" then "\t"
  else if (code c <? 32)%N then
    "\u00" +++ String (hex_digit (code c / 16)) (String (hex_digit (code c mod 16)) EmptyString)
  else String c EmptyString.

(** The escape of a surrogate that stands alone: [\udxxx], in lower
    case. *)
Definition escape_unit (n : N) : string :=
  "\u" +++
  String (hex_digit (n / 4096))
    (String (hex_digit ((n / 256) mod 16))
       (String (hex_digit ((n / 16) mod 16))
          (String (hex_digit (n mod 16)) EmptyString))).

(** [QuoteJSONString] without the quotes.  A surrogate is escaped
    unless it is the first or the second of a pair (a pair in four
    bytes holds no surrogate bytes and is written as it is, like a high
    surrogate followed by a low one, were they to come in three bytes
    each). *)
Fixpoint escape (s : string) : string :=
  match s with
  | EmptyString => EmptyString
  | String a r =>
      let plain := escape_char a +++ escape r in
      match r with
      | String b (String c r3) =>
          match surrogate a b c with
          | Some n =>
              let alone := escape_unit n +++ escape r3 in
              if is_high_surrogate n then
                match r3 with
                | String a' (String b' (String c' r6)) =>
                    match surrogate a' b' c' with
                    | Some m =>
                        if is_low_surrogate m then
                          String a (String b (String c
                            (String a' (String b' (String c' (escape r6))))))
                        else alone
                    | None => alone
                    end
                | _ => alone
                end
              else alone
          | None => plain
          end
      | _ => plain
      end
  end.

Definition quoted (s : string) : string :=
  String quote (escape s +++ String quote EmptyString).

(** A literal at or above [2^1024 - 2^970] reads as [Infinity], which
    [JSON.stringify] writes as [null]. *)
Definition number_is_finite (n : number) : bool :=
  if (num_exp10 n <? 0)%Z
  then (Z.of_N (num_mant n) <? (2 ^ 1024 - 2 ^ 970) * 10 ^ (- num_exp10 n))%Z
  else (Z.of_N (num_mant n) * 10 ^ num_exp10 n <? 2 ^ 1024 - 2 ^ 970)%Z.

Fixpoint join (separator : string) (parts : list string) : string :=
  match parts with
  | [] => EmptyString
  | [x] => x
  | x :: rest => x +++ separator +++ join separator rest
  end.

Section WithEngine.
Context (E : Engine).

(** [None] is the [undefined] that a function serialises to: such a
    member is left out of an object and written [null] in an array. *)
Fixpoint stringify_at (indent : string) (v : value) : option string :=
  let inner := (indent +++ "  ")%string in
  match v with
  | VNull => Some "null"%string
  | VBool true => Some "true"%string
  | VBool false => Some "false"%string
  | VNum n =>
      Some (if number_is_finite n then Number_toString E n else "null"%string)
  | VStr s => Some (quoted s)
  | VBuiltin _ => None
  | VArr vs =>
      let items :=
        map (fun x =>
               match stringify_at inner x with
               | Some t => t
               | None => "null"%string
               end) vs in
      match items with
      | [] => Some "[]"%string
      | _ =>
          Some ("[" +++ newline +++ inner +++
                join ("," +++ newline +++ inner) items +++
                newline +++ indent +++ "]")
      end
  | VObj kvs =>
      let members :=
        flat_map (fun kv =>
                    match stringify_at inner (snd kv) with
                    | Some t => [quoted (fst kv) +++ ": " +++ t]
                    | None => []
                    end) kvs in
      match members with
      | [] => Some "{}"%string
      | _ =>
          Some ("{" +++ newline +++ inner +++
                join ("," +++ newline +++ inner) members +++
                newline +++ indent +++ "}")
      end
  end.

Definition JSON_stringify (v : value) : option string :=
  stringify_at EmptyString v.

End WithEngine.

End JsonWrite.
Import JsonWrite.

(** ** The text document of the editor *)

Module Document.

Inductive EndOfLine := LF | CRLF.

Definition eol_text (e : EndOfLine) : string :=
  match e with
  | LF => String "010" EmptyString
  | CRLF => String "013" (String "010" EmptyString)
  end.

(** [vscode.TextDocument]: the host keeps the lines and the line ending;
    [relativePath] is what [vscode.workspace.asRelativePath(document.uri)]
    answers. *)
Record TextDocument := {
  fileName : string;
  relativePath : string;
  lines : list string;
  eol : EndOfLine
}.

Definition getText (d : TextDocument) : string :=
  String.concat (eol_text (eol d)) (lines d).

(** [document.lineAt(line).text]; the host throws on a line that the
    document does not have. *)
Definition lineAt (d : TextDocument) (line : nat) : outcome string :=
  match nth_error (lines d) line with
  | Some text => Returns text
  | None => Throws IllegalLine
  end.

End Document.
Import Document.

(** ** The patterns that find a key on the hovered line *)

Module LineMatch.

Definition not_quote (c : ascii) : bool := negb (c =? quote).

(** [line.match(/"([^"]+)":/)], the first capture of the leftmost match.
    From an opening quote the class [[^"]+] can only stop at the next
    quote, so each start has one way to match. *)
Fixpoint match_any_key (line : string) : option string :=
  match line with
  | EmptyString => None
  | String c r =>
      if c =? quote then
        match span not_quote r with
        | (String k ks, String _ (String c' _)) =>
            if c' =? ":" then Some (String k ks) else match_any_key r
        | _ => match_any_key r
        end
      else match_any_key r
  end.

(** [line.match(/^\s*"([a-zA-Z0-9_:-]+)"\s*:/)], the first capture. *)
Definition match_script_key (line : string) : option string :=
  match skip_space line with
  | String c r =>
      if c =? quote then
        match span is_script_char r with
        | (String k ks, String c' r') =>
            if c' =? quote then
              match skip_space r' with
              | String c'' _ => if c'' =? ":" then Some (String k ks) else None
              | EmptyString => None
              end
            else None
        | _ => None
        end
      else None
  | EmptyString => None
  end.

End LineMatch.
Import LineMatch.

(** ** What the host shows and stores *)

Module Host.

(** A file as [vscode.workspace.fs.readFile] finds it. *)
Inductive file_state :=
| Missing
| Unreadable (message : string)
| Content (text : string).

Definition readFile (f : file_state) : outcome string :=
  match f with
  | Missing => Throws FileNotFound
  | Unreadable m => Throws (FileSystemFailure m)
  | Content text => Returns text
  end.

(** Messages of [vscode.window]. *)
Inductive notice :=
| Information (text : string)
| ErrorMessage (text : string).

(** [vscode.Hover] around a [MarkdownString]. *)
Record Hover := mkHover { contents : string }.

(** The text of the four [appendMarkdown] calls of [provideHover], for
    a description and a command that are text. *)
Definition hover_text (scriptName description command : string) : string :=
  ("### `" +++ scriptName +++ "`" +++ newline +++ newline) +++
  ("**Description:** " +++ description +++ newline +++ newline) +++
  ("**Command:** `" +++ command +++ "`" +++ newline +++ newline) +++
  ("Usage: `npm run " +++ scriptName +++ "`").

Section WithEngine.
Context (E : Engine).

Definition ToString_opt (v : option value) : outcome string :=
  match v with
  | Some v => ToString E v
  | None => Returns "undefined"%string
  end.

(** The four [appendMarkdown] calls of [provideHover]: the template
    literals convert the description and then the command. *)
Definition hover_markdown (scriptName : string) (description : value)
    (command : option value) : outcome string :=
  bind (ToString E description) (fun description =>
  bind (ToString_opt command) (fun command =>
  Returns (hover_text scriptName description command))).

End WithEngine.

Definition no_description : value := VStr "No description available.".

End Host.
Import Host.

(** ** The provider with built-in descriptions
    ([src/providers/hoverProvider.ts]; the first provider has the same
    code without comments) *)

Module Legacy.

Definition defaultDocs : value :=
  VObj [ ("dev", VStr "Runs development server (default port: 5173)");
         ("build", VStr "Creates a production build");
         ("preview", VStr "Previews the built version locally");
         ("test", VStr "Runs tests");
         ("lint", VStr "Runs code linting");
         ("format", VStr "Formats the codebase") ]%string.

Record Provider := { cachedDocs : option value }.

Definition initial : Provider := {| cachedDocs := None |}.

Definition clearCache (p : Provider) : Provider := {| cachedDocs := None |}.

(** [{ ...defaults, ...customDocs }] *)
Definition merge (defaults customDocs : value) : value :=
  VObj (spread (spread [] defaults) customDocs).

(** The [try]/[catch] of [loadCustomDocs]: the value that becomes the
    cache.  [docsFile] is the file that
    [findFiles(customDocsPath, null, 1)] finds, [Missing] when it finds
    none. *)
Definition load (docsFile : file_state) : value :=
  recover
    (match docsFile with
     | Missing => Returns defaultDocs
     | _ =>
         bind (readFile docsFile) (fun content =>
         bind (JSON_parse_outcome content) (fun customDocs =>
         Returns (merge defaultDocs customDocs)))
     end)
    (fun _ => defaultDocs).

(** [loadCustomDocs(force)]: the documentation and the provider with its
    cache filled. *)
Definition loadCustomDocs (force : bool) (p : Provider) (docsFile : file_state)
  : value * Provider :=
  let reload := (load docsFile, {| cachedDocs := Some (load docsFile) |}) in
  match cachedDocs p with
  | Some cached => if truthy cached && negb force then (cached, p) else reload
  | None => reload
  end.

Section WithEngine.
Context (E : Engine).

(** [provideHover(document, position, token)]; only the line of the
    position is used. *)
Definition provideHover (p : Provider) (docsFile : file_state)
    (document : TextDocument) (line : nat)
  : outcome (option Hover) * Provider :=
  match JSON_parse (getText document) with
  | None => (Returns None, p)
  | Some packageJson =>
      match lineAt document line with
      | Throws e => (Throws e, p)
      | Returns text =>
          match match_any_key text with
          | None => (Returns None, p)
          | Some scriptName =>
              match member E (Some packageJson) "scripts" with
              | Throws e => (Throws e, p)
              | Returns scripts =>
                  if negb (truthy_opt (member_opt E scripts scriptName))
                  then (Returns None, p)
                  else
                    let (docs, p') := loadCustomDocs false p docsFile in
                    match member E scripts scriptName with
                    | Throws e => (Throws e, p')
                    | Returns command =>
                        let description :=
                          or_else (get E docs scriptName) no_description in
                        (bind (hover_markdown E scriptName description command)
                           (fun content => Returns (Some (mkHover content))),
                         p')
                    end
              end
          end
      end
  end.

End WithEngine.

(** *** The free-standing loader of the first release *)

Definition defaultDocs0 : value :=
  VObj [ ("dev", VStr "Runs development server (default port: 5173)");
         ("build", VStr "Creates a production build");
         ("preview", VStr "Previews the built version locally");
         ("test", VStr "Runs tests");
         ("lint", VStr "Runs code linting");
         ("format", VStr "Formats code using prettier") ]%string.

(** [getScriptDocs()].  [workspaceRoot] tells whether a workspace folder
    is open; [docsFile] is [.vscode/script-docs.json] under it, which
    [fs.existsSync] and [fs.readFileSync] look at. *)
Definition getScriptDocs (workspaceRoot : bool) (docsFile : file_state)
  : value :=
  if negb workspaceRoot then defaultDocs0
  else
    match
      recover
        (match docsFile with
         | Missing => Returns None
         | _ =>
             bind (readFile docsFile) (fun content =>
             bind (JSON_parse_outcome content) (fun customDocs =>
             Returns (Some (merge defaultDocs0 customDocs))))
         end)
        (fun _ => None)
    with
    | Some docs => docs
    | None => defaultDocs0
    end.

End Legacy.

(** ** State and exceptions *)

Module Run.

(** A computation over a state [S] that returns or throws; the state
    reached so far survives a throw. *)
Definition M (S A : Type) : Type := S -> outcome A * S.

Definition ret {S A} (a : A) : M S A := fun s => (Returns a, s).

Definition throw {S A} (e : exn) : M S A := fun s => (Throws e, s).

Definition lift {S A} (m : outcome A) : M S A := fun s => (m, s).

Definition seq {S A B} (m : M S A) (k : A -> M S B) : M S B :=
  fun s =>
    match m s with
    | (Returns a, s') => k a s'
    | (Throws e, s') => (Throws e, s')
    end.

Definition catch {S A} (m : M S A) (handler : exn -> M S A) : M S A :=
  fun s =>
    match m s with
    | (Returns a, s') => (Returns a, s')
    | (Throws e, s') => handler e s'
    end.

Definition read {S} : M S S := fun s => (Returns s, s).

Definition update {S} (f : S -> S) : M S unit := fun s => (Returns tt, f s).

(** A loop [for (const x of xs) body]. *)
Fixpoint for_each {S A} (xs : list A) (body : A -> M S unit) : M S unit :=
  match xs with
  | [] => ret tt
  | x :: rest => seq (body x) (fun _ => for_each rest body)
  end.

End Run.
Import Run.

Declare Scope run_scope.
Delimit Scope run_scope with run.
Notation "x <- m ;; k" := (seq m (fun x => k))
  (at level 61, m at next level, right associativity) : run_scope.
Notation "m ;;; k" := (seq m (fun _ => k))
  (at level 61, right associativity) : run_scope.

(** ** The workspace *)

Module Workspace.

(** A file that [findFiles("**/package.json", "**/node_modules/**")]
    returns, by the folder it lies in: the empty string for the root of
    the workspace, [packages/app/] for a package below it. *)
Record PackageFile := {
  folder : string;
  file : file_state
}.

(** [vscode.workspace.asRelativePath(fileUri)] *)
Definition asRelativePath (f : PackageFile) : string :=
  (folder f +++ "package.json")%string.

Record World := {
  (** whether [vscode.workspace.workspaceFolders] has an entry *)
  workspaceFolders : bool;
  (** [.vscode/script-docs.json] in the first workspace folder *)
  docsFile : file_state;
  (** the error that [writeFile] raises on that file, if it fails *)
  writeFailure : option exn;
  packageJsonFiles : list PackageFile;
  (** the messages shown, latest last *)
  shown : list notice
}.

Definition show (n : notice) (w : World) : World :=
  {| workspaceFolders := workspaceFolders w;
     docsFile := docsFile w;
     writeFailure := writeFailure w;
     packageJsonFiles := packageJsonFiles w;
     shown := shown w ++ [n] |}.

Definition store (text : string) (w : World) : World :=
  {| workspaceFolders := workspaceFolders w;
     docsFile := Content text;
     writeFailure := writeFailure w;
     packageJsonFiles := packageJsonFiles w;
     shown := shown w |}.

(** [vscode.workspace.fs.writeFile(scriptDocsUri, Buffer.from(text))];
    [Buffer.from(undefined)] throws. *)
Definition writeDocs (text : option string) : M World unit :=
  fun w =>
    match text with
    | None => (Throws (TypeError "from"), w)
    | Some text =>
        match writeFailure w with
        | Some e => (Throws e, w)
        | None => (Returns tt, store text w)
        end
    end.

Definition readDocs : M World string :=
  fun w => (readFile (docsFile w), w).

End Workspace.
Import Workspace.

(** ** The provider for the nested documentation file
    (the provider variant with [ScriptDocs = Record<string, Record<string, string>>]) *)

Module Nested.

Record Provider := { cachedDocs : option value }.

Definition initial : Provider := {| cachedDocs := None |}.

Definition clearCache (p : Provider) : Provider := {| cachedDocs := None |}.

Definition State : Type := Provider * World.

Definition in_world {A} (m : M World A) : M State A :=
  fun s => let (r, w) := m (snd s) in (r, (fst s, w)).

Definition notify (n : notice) : M State unit :=
  in_world (update (show n)).

Definition set_cache (docs : option value) : M State unit :=
  update (fun s : State => ({| cachedDocs := docs |}, snd s)).

(** [typeof v === "object"] *)
Definition typeof_object (v : value) : bool :=
  match v with
  | VNull | VArr _ | VObj _ => true
  | VBool _ | VNum _ | VStr _ | VBuiltin _ => false
  end.

Definition isArray (v : value) : bool :=
  match v with
  | VArr _ => true
  | _ => false
  end.

(** The test under [Object.keys(rawDocs).some]. *)
Definition path_like (key : string) : bool :=
  includes_char key slash || includes_char key backslash ||
  String.eqb key "package.json".

Definition looksLikeOldStructure (rawDocs : value) : bool :=
  truthy rawDocs &&
  typeof_object rawDocs &&
  negb (isArray rawDocs) &&
  (0 <? length (Object_keys rawDocs))%nat &&
  negb (existsb path_like (Object_keys rawDocs)).

Section WithEngine.
Context (E : Engine).

(** The nested structure that replaces a flat file: the flat object
    under [package.json] and an empty object for every other package
    file found. *)
Definition migrate (rawDocs : value) (files : list PackageFile) : value :=
  fold_left
    (fun newStructure fileUri =>
       let relativePath := asRelativePath fileUri in
       if negb (String.eqb relativePath "package.json") &&
          negb (truthy_opt (get E newStructure relativePath))
       then assign newStructure relativePath (VObj [])
       else newStructure)
    files
    (VObj [("package.json"%string, rawDocs)]).

(** The inner [try] block of [loadCustomDocs]: the documentation to
    cache. *)
Definition read_docs : M State value :=
  (content <- in_world readDocs ;;
   rawDocs <- lift (JSON_parse_outcome content) ;;
   if looksLikeOldStructure rawDocs then
     notify (Information
       "Detected old script-docs.json structure. Converting to nested format.") ;;;
     s <- read ;;
     let newStructure := migrate rawDocs (packageJsonFiles (snd s)) in
     in_world (writeDocs (JSON_stringify E newStructure)) ;;;
     notify (Information
       "script-docs.json successfully converted to nested format.") ;;;
     ret newStructure
   else if truthy rawDocs && typeof_object rawDocs && negb (isArray rawDocs)
   then ret rawDocs
   else throw (Error "script-docs.json has an invalid format."))%run.

(** [loadCustomDocs(force)]; [None] is the [null] it returns. *)
Definition loadCustomDocs (force : bool) : M State (option value) :=
  (s <- read ;;
   if truthy_opt (cachedDocs (fst s)) && negb force then
     ret (cachedDocs (fst s))
   else if negb (workspaceFolders (snd s)) then ret None
   else
     loaded <-
       catch (rawDocs <- read_docs ;; ret (Some rawDocs))
             (fun readFileError =>
                match readFileError with
                | FileNotFound => set_cache None ;;; ret None
                | _ =>
                    notify (ErrorMessage
                      "Failed to read script-docs.json. Please check file format.") ;;;
                    set_cache None ;;;
                    ret None
                end) ;;
     match loaded with
     | Some rawDocs => set_cache (Some rawDocs) ;;; ret (Some rawDocs)
     | None => ret None
     end)%run.

(** [provideHover(document, position, token)]; only the line of the
    position is used. *)
Definition provideHover (document : TextDocument) (line : nat)
  : M State (option Hover) :=
  (if endsWith (fileName document) "package.json" then
     match JSON_parse (getText document) with
     | None => ret None
     | Some packageJson =>
         text <- lift (lineAt document line) ;;
         match match_script_key text with
         | None => ret None
         | Some scriptName =>
             scripts <- lift (member E (Some packageJson) "scripts") ;;
             if negb (truthy_opt (member_opt E scripts scriptName)) then ret None
             else
               let relativePath := relativePath document in
               scriptDocs <- loadCustomDocs false ;;
               let packageDocs := member_opt E scriptDocs relativePath in
               let description :=
                 or_else (member_opt E packageDocs scriptName) no_description in
               command <- lift (member E scripts scriptName) ;;
               content <-
                 lift (hover_markdown E scriptName description command) ;;
               ret (Some (mkHover content))
         end
     end
   else ret None)%run.

End WithEngine.

End Nested.

(** ** The extension: commands and the watcher ([src/extension.ts]) *)

Module Extension.

(** *** [debounce(func, wait)]

    The timers of the host are kept with the time at which they are due;
    [A] is the type of the arguments of [func] and [U] the state [func]
    acts on. *)
Section Debounce.
Context {A U : Type} (func : A -> U -> U) (wait : Z).

Record Timer := { timer_id : nat; due : Z; arguments : A }.

Record Debounced := {
  (** the variable [timeout] of the closure *)
  timeout : option nat;
  next_id : nat;
  pending : list Timer;
  user : U
}.

Definition fresh (s : U) : Debounced :=
  {| timeout := None; next_id := 0; pending := []; user := s |}.

(** [clearTimeout(id)] *)
Definition clearTimeout (id : nat) (d : Debounced) : Debounced :=
  {| timeout := timeout d;
     next_id := next_id d;
     pending := filter (fun t => negb (timer_id t =? id)%nat) (pending d);
     user := user d |}.

(** [timeout = setTimeout(later, wait)] at time [now] *)
Definition setTimeout (now : Z) (args : A) (d : Debounced) : Debounced :=
  {| timeout := Some (next_id d);
     next_id := S (next_id d);
     pending := pending d ++
                [ {| timer_id := next_id d; due := now + wait;
                     arguments := args |} ];
     user := user d |}.

(** The function that [debounce] returns, called with [args] at time
    [now]. *)
Definition call (now : Z) (args : A) (d : Debounced) : Debounced :=
  setTimeout now args
    (match timeout d with
     | Some id => clearTimeout id d
     | None => d
     end).

(** [later]: the callback of the timer. *)
Definition later (args : A) (d : Debounced) : Debounced :=
  {| timeout := None;
     next_id := next_id d;
     pending := pending d;
     user := func args (user d) |}.

(** The host runs the timers that are due at [now], oldest first, and
    forgets them.  A timer that is due at the very instant [now] is
    taken to have run; the host itself promises no order there, and the
    properties that depend on the order are stated for instants other
    than those at which a timer is due. *)
Definition run_due (now : Z) (d : Debounced) : Debounced :=
  fold_left (fun d t => later (arguments t) d)
    (filter (fun t => (due t <=? now)%Z) (pending d))
    {| timeout := timeout d;
       next_id := next_id d;
       pending := filter (fun t => negb (due t <=? now)%Z) (pending d);
       user := user d |}.

(** Calls at the given times, the timers running in between.  The
    time of a call is the instant at which the task that makes it was
    taken up, so that calls made by one task have the same time. *)
Fixpoint calls (events : list (Z * A)) (d : Debounced) : Debounced :=
  match events with
  | [] => d
  | (now, args) :: rest => calls rest (call now args (run_due now d))
  end.

End Debounce.

Arguments Timer : clear implicits.
Arguments Debounced : clear implicits.

(** *** The watcher and the reload command of [activate]

    [P] is the provider, with its [clearCache]. *)
Section Activate.
Context {P : Type} (clearCache : P -> P).

Definition Session : Type := P * list notice.

(** The function handed to [debounce] *)
Definition clear_and_tell (_ : unit) (s : Session) : Session :=
  (clearCache (fst s),
   snd s ++ [Information "Package Scripts documentation cache reloaded."]).

(** [onDidChange], [onDidCreate] and [onDidDelete] of the watcher all
    call [debouncedClearCache(provider)]. *)
Definition onDocsFileEvent (now : Z) (d : Debounced unit Session)
  : Debounced unit Session :=
  call 500 now tt (run_due clear_and_tell now d).

Definition watch (times : list Z) (d : Debounced unit Session)
  : Debounced unit Session :=
  calls clear_and_tell 500 (map (fun t => (t, tt)) times) d.

(** [package-scripts-hover.reload] *)
Definition reloadCommand (s : Session) : Session :=
  (clearCache (fst s),
   snd s ++ [Information "Package Scripts documentation has been reloaded"]).

End Activate.

Arguments Session : clear implicits.

(** *** [updateScriptDocsForWorkspace] *)
Section Update.
Context (E : Engine).

(** The text of the template literal, for a command that is text. *)
Definition template_text (scriptName relativePath command : string) : string :=
  "Description for '" +++ scriptName +++ "' script in " +++
  relativePath +++ ": " +++ command.

Definition template (scriptName relativePath : string)
    (command : option value) : outcome value :=
  bind (ToString_opt E command) (fun command =>
  Returns (VStr (template_text scriptName relativePath command))).

(** [newDocs[relativePath][scriptName] = v]: the object under
    [relativePath] is changed in place.  The search gives every file
    once, so the paths of a scan are pairwise different and that object
    is the one the scan of the file has just created; it is shared with
    nothing else.  (Were a path scanned twice, the object could be one
    of [existingDocs], which this function does not follow; the
    properties of the scan are stated for pairwise different paths.) *)
Definition set_in (newDocs : value) (relativePath scriptName : string)
    (v : value) : value :=
  match lookup relativePath (own_entries newDocs) with
  | Some target => assign newDocs relativePath (assign target scriptName v)
  | None => newDocs
  end.

(** The body of the loop over [packageJsonFiles]; the state is
    [newDocs]. *)
Definition scan_file (existingDocs : value) (fileUri : PackageFile)
  : M value unit :=
  (let relativePath := asRelativePath fileUri in
   catch
     (packageJsonContent <- lift (readFile (file fileUri)) ;;
      packageJson <- lift (JSON_parse_outcome packageJsonContent) ;;
      update (fun newDocs =>
                assign newDocs relativePath
                  (or_else (get E newDocs relativePath) (VObj []))) ;;;
      scripts <- lift (member E (Some packageJson) "scripts") ;;
      if truthy_opt scripts then
        for_each (match scripts with
                  | Some o => Object_keys o
                  | None => []
                  end)
          (fun scriptName =>
             existing <- lift (member E (Some existingDocs) relativePath) ;;
             let existingDescription := member_opt E existing scriptName in
             description <-
               lift (or_else_try existingDescription
                       (bind (member E scripts scriptName)
                          (template scriptName relativePath))) ;;
             update (fun newDocs =>
                       set_in newDocs relativePath scriptName description))
      else
        existing <- lift (member E (Some existingDocs) relativePath) ;;
        update (fun newDocs =>
                  assign newDocs relativePath
                    (if truthy_opt existing then
                       match existing with Some e => e | None => VObj [] end
                     else VObj [])))
     (fun readError =>
        existing <- lift (member E (Some existingDocs) relativePath) ;;
        update (fun newDocs =>
                  assign newDocs relativePath
                    (if truthy_opt existing then
                       match existing with Some e => e | None => VObj [] end
                     else
                       VObj [("__error__"%string,
                              VStr ("Failed to process: " +++
                                    message E readError))])))
  )%run.

(** The loop [for (const existingPath in existingDocs)] that keeps the
    packages the scan did not find. *)
Definition keep_missing (existingDocs newDocs : value) : value :=
  fold_left
    (fun newDocs entry =>
       if negb (truthy_opt (get E newDocs (fst entry)))
       then assign newDocs (fst entry) (snd entry)
       else newDocs)
    (own_entries existingDocs) newDocs.

(** The documentation written for a non-empty scan. *)
Definition regenerate (existingDocs : value) (files : list PackageFile)
  : outcome value :=
  match for_each files (scan_file existingDocs) (VObj []) with
  | (Returns _, newDocs) => Returns (keep_missing existingDocs newDocs)
  | (Throws e, _) => Throws e
  end.

(** The existing documentation and whether the file was read. *)
Definition read_existing : M World (value * bool) :=
  (catch
     (content <- readDocs ;;
      existingDocs <- lift (JSON_parse_outcome content) ;;
      update (show (Information
        "Existing script-docs.json found. Merging new scripts.")) ;;;
      ret (existingDocs, true))
     (fun error =>
        match error with
        | FileNotFound =>
            update (show (Information
              "script-docs.json not found. Creating a new one.")) ;;;
            ret (VObj [], false)
        | _ =>
            update (show (ErrorMessage
              "Failed to read existing script-docs.json.")) ;;;
            ret (VObj [], false)
        end))%run.

(** The command [package-scripts-hover.createDocs].  Creating the
    [.vscode] folder and opening the written file in an editor leave no
    trace in the [World]. *)
Definition updateScriptDocsForWorkspace : M World unit :=
  (catch
     (w <- read ;;
      if negb (workspaceFolders w) then
        throw (Error "No workspace folder found")
      else
        existing <- read_existing ;;
        let (existingDocs, fileExists) := existing in
        match packageJsonFiles w with
        | [] =>
            if negb fileExists then
              throw (Error
                "No package.json files found in workspace and no existing script-docs.json.")
            else
              update (show (Information
                "No package.json files found in workspace, but existing script-docs.json will be kept.")) ;;;
              writeDocs (JSON_stringify E existingDocs)
        | files =>
            newDocs <- lift (regenerate existingDocs files) ;;
            writeDocs (JSON_stringify E newDocs) ;;;
            update (show (Information
              "script-docs.json has been updated successfully!"))
        end)
     (fun error =>
        update (show (ErrorMessage
          ("Failed to update script-docs.json: " +++ message E error)))))%run.

End Update.

End Extension.

(** ** Registering the hover provider: [activate], the commands
    [enable] and [disable], [deactivate] ([src/extension.ts]) *)

Module Activation.

(** What the extension hands to [context.subscriptions]. *)
Inductive Disposable :=
| WatcherHandle
| CommandHandle (command : string)
| HoverHandle (registration : nat).

(** The variables of the module and what the host holds for the
    extension. *)
Record Host := {
  (** the variable [hoverProvider]: the registration it holds *)
  hoverProvider : option nat;
  (** whether the variable [scriptDocsWatcher] is defined *)
  scriptDocsWatcher : bool;
  (** whether the variable [debouncedClearCache] is defined *)
  debouncedClearCache : bool;
  (** the hover providers registered with [vscode.languages] and not
      disposed, by the number of their registration *)
  hoverProviders : list nat;
  (** whether a file system watcher is alive *)
  watching : bool;
  (** the number of registrations made so far *)
  registrations : nat;
  (** [context.subscriptions] *)
  subscriptions : list Disposable;
  (** the messages shown, latest last *)
  messages : list notice
}.

(** Before [activate] runs. *)
Definition start : Host :=
  {| hoverProvider := None; scriptDocsWatcher := false;
     debouncedClearCache := false; hoverProviders := []; watching := false;
     registrations := 0; subscriptions := []; messages := [] |}.

(** [hoverProvider = vscode.languages.registerHoverProvider(...)] *)
Definition registerHoverProvider (h : Host) : Host :=
  {| hoverProvider := Some (registrations h);
     scriptDocsWatcher := scriptDocsWatcher h;
     debouncedClearCache := debouncedClearCache h;
     hoverProviders := hoverProviders h ++ [registrations h];
     watching := watching h;
     registrations := S (registrations h);
     subscriptions := subscriptions h;
     messages := messages h |}.

(** [hoverProvider.dispose(); hoverProvider = undefined] *)
Definition disposeHoverProvider (registration : nat) (h : Host) : Host :=
  {| hoverProvider := None;
     scriptDocsWatcher := scriptDocsWatcher h;
     debouncedClearCache := debouncedClearCache h;
     hoverProviders :=
       filter (fun r => negb (r =? registration)%nat) (hoverProviders h);
     watching := watching h;
     registrations := registrations h;
     subscriptions := subscriptions h;
     messages := messages h |}.

(** [context.subscriptions.push(...)] *)
Definition subscribe (handles : list Disposable) (h : Host) : Host :=
  {| hoverProvider := hoverProvider h;
     scriptDocsWatcher := scriptDocsWatcher h;
     debouncedClearCache := debouncedClearCache h;
     hoverProviders := hoverProviders h;
     watching := watching h;
     registrations := registrations h;
     subscriptions := subscriptions h ++ handles;
     messages := messages h |}.

(** [vscode.window.showInformationMessage(text)] *)
Definition tell (text : string) (h : Host) : Host :=
  {| hoverProvider := hoverProvider h;
     scriptDocsWatcher := scriptDocsWatcher h;
     debouncedClearCache := debouncedClearCache h;
     hoverProviders := hoverProviders h;
     watching := watching h;
     registrations := registrations h;
     subscriptions := subscriptions h;
     messages := messages h ++ [Information text] |}.

(** The handle of the registration that [hoverProvider] holds. *)
Definition hover_handle (h : Host) : list Disposable :=
  match hoverProvider h with
  | Some registration => [HoverHandle registration]
  | None => []
  end.

(** [activate(context)]: the debounced function and the watcher are
    created and the watcher is subscribed; then the four commands and
    the hover provider are registered and subscribed. *)
Definition activate (h : Host) : Host :=
  let watched :=
    subscribe [WatcherHandle]
      {| hoverProvider := hoverProvider h;
         scriptDocsWatcher := true;
         debouncedClearCache := true;
         hoverProviders := hoverProviders h;
         watching := true;
         registrations := registrations h;
         subscriptions := subscriptions h;
         messages := messages h |} in
  let registered := registerHoverProvider watched in
  subscribe
    ([ CommandHandle "package-scripts-hover.enable";
       CommandHandle "package-scripts-hover.disable";
       CommandHandle "package-scripts-hover.reload";
       CommandHandle "package-scripts-hover.createDocs" ]
     ++ hover_handle registered)
    registered.

(** The command [package-scripts-hover.enable] *)
Definition enableCommand (h : Host) : Host :=
  match hoverProvider h with
  | None =>
      let registered := registerHoverProvider h in
      tell "Package Scripts Hover is now enabled"
        (subscribe (hover_handle registered) registered)
  | Some _ => tell "Package Scripts Hover is already enabled" h
  end.

(** The command [package-scripts-hover.disable] *)
Definition disableCommand (h : Host) : Host :=
  match hoverProvider h with
  | Some registration =>
      tell "Package Scripts Hover is now disabled"
        (disposeHoverProvider registration h)
  | None => tell "Package Scripts Hover is already disabled" h
  end.

(** [deactivate()] *)
Definition deactivate (h : Host) : Host :=
  let h1 :=
    match hoverProvider h with
    | Some registration => disposeHoverProvider registration h
    | None => h
    end in
  {| hoverProvider := hoverProvider h1;
     scriptDocsWatcher := false;
     debouncedClearCache := false;
     hoverProviders := hoverProviders h1;
     watching := if scriptDocsWatcher h1 then false else watching h1;
     registrations := registrations h1;
     subscriptions := subscriptions h1;
     messages := messages h1 |}.

(** The two commands that switch the hover on and off. *)
Inductive Switch := Enable | Disable.

Definition run_command (h : Host) (c : Switch) : Host :=
  match c with
  | Enable => enableCommand h
  | Disable => disableCommand h
  end.

(** The extension after [activate] and the given commands, in their
    order. *)
Definition session (commands : list Switch) : Host :=
  fold_left run_command commands (activate start).

End Activation.

(** ** Sample inputs *)

Module Samples.

(** An engine for running the examples: non-plain receivers inherit
    nothing, a number prints as mantissa and exponent, a built-in as the
    engine prints native functions, and an object that holds a built-in
    for its conversion as [[object Object]].  The general statements below hold
    for every engine. *)
Definition sample_engine : Engine :=
  {| inherited_get := fun _ _ => None;
     Number_toString := fun n =>
       ((if num_neg n then "-" else EmptyString) +++
        NilEmpty.string_of_uint (N.to_uint (num_mant n)) +++ "e" +++
        NilEmpty.string_of_int (Z.to_int (num_exp10 n)))%string;
     Builtin_toString := fun name =>
       ("function " +++ name +++ "() { [native code] }")%string;
     Builtin_conversion := fun _ => Returns "[object Object]"%string;
     engine_message := fun e =>
       match e with
       | FileNotFound => "FileNotFound"
       | FileSystemFailure m => m
       | SyntaxError _ => "Unexpected token in JSON"
       | TypeError k =>
           ("Cannot read properties of null (reading '" +++ k +++ "')")%string
       | NotPrimitive => "Cannot convert object to primitive value"
       | IllegalLine => "Illegal value for `line`"
       | Error m => m
       end%string |}.

Definition package_json (text : list string) : TextDocument :=
  {| fileName := "/work/demo/package.json";
     relativePath := "package.json";
     lines := map dq text;
     eol := LF |}.

(** A manifest whose [build] script has an empty command. *)
Definition empty_command : TextDocument :=
  package_json
    [ "{";
      "  'name': 'demo',";
      "  'scripts': {";
      "    'build': '',";
      "    'test': 'jest'";
      "  }";
      "}" ]%string.

(** A manifest with a script called [name], like the top-level member. *)
Definition shadowed_name : TextDocument :=
  package_json
    [ "{";
      "  'name': 'demo',";
      "  'scripts': {";
      "    'name': 'echo demo'";
      "  }";
      "}" ]%string.

(** A manifest whose [test] script is an object with a member
    [toString], which no template literal can print. *)
Definition unprintable_command : TextDocument :=
  package_json
    [ "{";
      "  'scripts': {";
      "    'test': { 'toString': 1 }";
      "  }";
      "}" ]%string.

(** A manifest with a dot in the name of a script. *)
Definition dotted_name : TextDocument :=
  package_json
    [ "{";
      "  'scripts': {";
      "    'build.prod': 'tsc -p .'";
      "  }";
      "}" ]%string.

(** A workspace without a documentation file. *)
Definition no_docs : World :=
  {| workspaceFolders := true;
     docsFile := Missing;
     writeFailure := None;
     packageJsonFiles := [ {| folder := EmptyString; file := Missing |} ];
     shown := [] |}.

Definition flat_workspace : World :=
  {| workspaceFolders := true;
     docsFile := Content (dq "{'dev':'x','build':'y'}");
     writeFailure := None;
     packageJsonFiles :=
       [ {| folder := EmptyString; file := Content "{}" |};
         {| folder := "packages/app/"; file := Content "{}" |} ]%string;
     shown := [] |}.

Definition two_packages : list PackageFile :=
  [ {| folder := EmptyString;
       file := Content (dq "{ 'scripts': { 'build': 'tsc', 'test': 'jest' } }") |};
    {| folder := "packages/app/";
       file := Content (dq "{ 'name': 'app' }") |} ]%string.

Definition old_docs : list (string * value) :=
  [ ("package.json", VObj [("build", VStr "old desc")]) ]%string.

End Samples.
Import Samples.

(** * Statements

    The notions in which the properties of the program are stated. *)

Module Statements.

(** A key that holds a path separator, [/] or [\]. *)
Definition has_separator (key : string) : Prop :=
  In slash (list_ascii_of_string key) \/
  In backslash (list_ascii_of_string key).

(** The classification in the words of the specification: a non-array
    object with at least one key, none of whose keys contains a path
    separator or is the string [package.json]. *)
Definition legacy_shape (docs : value) : Prop :=
  exists members,
    docs = VObj members /\
    members <> [] /\
    forall key, In key (keys members) ->
                ~ has_separator key /\ key <> "package.json"%string.

(** Every description of a flat documentation object is a string. *)
Definition descriptions_are_strings (docs : value) : Prop :=
  forall k v, In (k, v) (own_entries docs) -> exists d, v = VStr d.

(** A documentation file that cannot be loaded: reading it fails, or
    its text is not JSON. *)
Definition unloadable (f : file_state) : Prop :=
  match f with
  | Missing => False
  | Unreadable _ => True
  | Content text => JSON_parse text = None
  end.

(** A line that holds [indent"name":rest]; an entry of the [scripts]
    object is such a line, with [rest] the blank, the quoted command and
    perhaps a comma. *)
Definition entry_line (indent name rest : string) : string :=
  indent +++ String quote (name +++ String quote (String ":" rest)).

(** No script under the key: the [scripts] member is missing, or it is
    an object without that key; and the key names no member of
    [Object.prototype]. *)
Definition not_a_script (top : list (string * value)) (name : string) : Prop :=
  inherited name = None /\
  (lookup "scripts" top = None \/
   exists scripts,
     lookup "scripts" top = Some (VObj scripts) /\ lookup name scripts = None).

(** Events each of which comes less than 500 ms after the one before;
    [t] is the time of the first. *)
Fixpoint within_window (t : Z) (later : list Z) : Prop :=
  match later with
  | [] => True
  | t' :: rest => (t <= t' < t + 500)%Z /\ within_window t' rest
  end.

(** [path] is the relative path of one of the package files that the
    search of the workspace gives. *)
Definition found (path : string) (files : list PackageFile) : bool :=
  existsb (String.eqb path) (map asRelativePath files).

(** The two messages that a migration shows. *)
Definition detected : notice :=
  Information
    "Detected old script-docs.json structure. Converting to nested format.".

Definition converted : notice :=
  Information "script-docs.json successfully converted to nested format.".

(** The answer of [provideHover] over a script: the hover with the
    text, or the exception that a conversion to text throws. *)
Definition hover_of (content : outcome string) : outcome (option Hover) :=
  bind content (fun content => Returns (Some (mkHover content))).

(** The hover that shows a script with its description and its
    command. *)
Definition shows (scriptName description command : string)
  : outcome (option Hover) :=
  Returns (Some (mkHover (hover_text scriptName description command))).

Section WithEngine.
Context (E : Engine).

(** A value that converts to text, as a template literal needs it. *)
Definition printable (v : value) : Prop :=
  exists text, ToString E v = Returns text.

(** The description that the hover of the first provider shows. *)
Definition legacy_description (p : Legacy.Provider) (docsFile : file_state)
    (name : string) : value :=
  or_else (get E (fst (Legacy.loadCustomDocs false p docsFile)) name)
          no_description.

(** The description that the hover of the later provider shows, given
    the documentation it loaded. *)
Definition nested_description (scriptDocs : option value)
    (document : TextDocument) (name : string) : value :=
  or_else (member_opt E (member_opt E scriptDocs (relativePath document)) name)
          no_description.

Section Existing.
Context (existing : list (string * value)).

(** [existingDocs[relativePath]?.[scriptName]], for the object
    [existingDocs] with the members [existing] *)
Definition described (relativePath scriptName : string) : option value :=
  member_opt E (get E (VObj existing) relativePath) scriptName.

End Existing.

End WithEngine.

End Statements.
Import Statements.

(** * Invariants

    The notions that the proofs carry along. *)

Module Invariants.

Section Watcher.
Context {P : Type}.

(** The state between two events of a burst: one timer is pending, due
    500 ms after the latest event [t], and [timeout] holds its id. *)
Definition armed (n : nat) (t : Z) (s : Extension.Session P)
  : Extension.Debounced unit (Extension.Session P) :=
  {| Extension.timeout := Some n;
     Extension.next_id := S n;
     Extension.pending :=
       [ {| Extension.timer_id := n; Extension.due := t + 500;
            Extension.arguments := tt |} ];
     Extension.user := s |}.

End Watcher.

(** Values that are written without the help of the engine and read
    back as they were: no numbers, no built-ins, unique keys. *)
Fixpoint textual (v : value) : Prop :=
  match v with
  | VNull | VBool _ | VStr _ => True
  | VNum _ | VBuiltin _ => False
  | VArr vs => fold_right (fun x rest => textual x /\ rest) True vs
  | VObj kvs =>
      NoDup (keys kvs) /\
      fold_right (fun kv rest => textual (snd kv) /\ rest) True kvs
  end.

(** Fuel that reads a written value back. *)
Fixpoint height (v : value) : nat :=
  match v with
  | VArr vs => S (length vs + list_max (map height vs))
  | VObj kvs => S (length kvs + list_max (map (fun kv => height (snd kv)) kvs))
  | _ => 1
  end.

(** [after_space] takes one white-space character of a regular
    expression off the head of a text; [skip_space] repeats it. *)
Definition after_space (s : string) : option string :=
  match s with
  | String a r =>
      if is_regex_space a then Some r
      else
        match r with
        | String b r2 =>
            if is_regex_space2 a b then Some r2
            else
              match r2 with
              | String c r3 => if is_regex_space3 a b c then Some r3 else None
              | EmptyString => None
              end
        | EmptyString => None
        end
  | EmptyString => None
  end.


(** The escaped low surrogate that completes the high surrogate [n],
    and the text after it. *)
Definition low_escape (n : N) (s : string) : option (N * string) :=
  match s with
  | String b (String u (String k1 (String k2 (String k3 (String k4 r))))) =>
      if is_high_surrogate n && (b =? backslash)%char && (u =? "u")%char then
        match hex4 k1 k2 k3 k4 with
        | Some m => if is_low_surrogate m then Some (m, r) else None
        | None => None
        end
      else None
  | _ => None
  end.

Definition prepend (head : string) (parsed : option (string * string))
  : option (string * string) :=
  match parsed with
  | Some (body, rest) => Some (head +++ body, rest)
  | None => None
  end.

(** Whether a text starts with a low surrogate in three bytes. *)
Definition starts_low (s : string) : bool :=
  match s with
  | String a (String b (String c _)) =>
      match surrogate a b c with
      | Some m => is_low_surrogate m
      | None => false
      end
  | _ => false
  end.

(** White space of JSON only, as the indentation that is written. *)
Definition blank (s : string) : Prop := forallb_string is_json_ws s = true.

(** What is written between two items or members at the indentation
    [inner]. *)
Definition separator (inner : string) : string :=
  String "," (newline +++ inner).

(** The members of the structure while [migrate] walks the files: the
    flat documentation under [package.json], empty objects elsewhere. *)
Definition nested_over (rawDocs : value) (members : list (string * value))
  : Prop :=
  NoDup (keys members) /\
  lookup "package.json" members = Some rawDocs /\
  forall path v,
    path <> "package.json"%string -> lookup path members = Some v -> v = VObj [].

(** [o[name] = val name] for the names in their order, until a value
    throws. *)
Fixpoint assign_each (val : string -> outcome value) (names : list string)
    (o : value) : outcome value :=
  match names with
  | [] => Returns o
  | name :: rest =>
      bind (val name) (fun v => assign_each val rest (assign o name v))
  end.

Section WithEngine.
Context (E : Engine).

(** The written value starts with a character that is neither white
    space nor a closing bracket, and it reads back. *)
Definition reads_back (v : value) : Prop :=
  forall indent, blank indent ->
    exists t,
      stringify_at E indent v = Some t /\
      (exists c t', t = String c t' /\ is_json_ws c = false /\
                    (c =? "]") = false) /\
      forall more ws rest,
        height v <= more -> blank ws ->
        parse_value more (ws +++ t +++ rest) = Some (v, rest).

(** The text of an item of an array, and of a member of an object. *)
Definition item_text (inner : string) (x : value) : string :=
  match stringify_at E inner x with
  | Some t => t
  | None => "null"%string
  end.

Definition member_text (inner : string) (kv : string * value) : string :=
  quoted (fst kv) +++ ": " +++ item_text inner (snd kv).

Section Existing.
Context (existing : list (string * value)).

(** The description written for a script, or the exception that the
    conversion of its command throws. *)
Definition description_for (relativePath : string) (scripts : value)
    (scriptName : string) : outcome value :=
  or_else_try (described E existing relativePath scriptName)
    (Extension.template E scriptName relativePath (get E scripts scriptName)).

(** What the loop over the script names makes of the object [o], or
    the exception that ends it. *)
Definition describe (relativePath : string) (scripts : value)
  : list string -> value -> outcome value :=
  assign_each (description_for relativePath scripts).

(** What the scan leaves under the path of a file that it could not
    process. *)
Definition fallback (relativePath : string) (readError : exn) : value :=
  match get E (VObj existing) relativePath with
  | Some e =>
      if truthy e then e
      else VObj [("__error__"%string,
                  VStr ("Failed to process: " +++ message E readError))]
  | None =>
      VObj [("__error__"%string,
             VStr ("Failed to process: " +++ message E readError))]
  end.

(** What the scan leaves under the path of a file. *)
Definition entry (f : PackageFile) : value :=
  let relativePath := asRelativePath f in
  match bind (readFile (file f)) JSON_parse_outcome with
  | Throws e => fallback relativePath e
  | Returns VNull => fallback relativePath (TypeError "scripts")
  | Returns packageJson =>
      match get E packageJson "scripts" with
      | Some scripts =>
          if truthy scripts then
            match describe relativePath scripts (Object_keys scripts) (VObj [])
            with
            | Returns documented => documented
            | Throws e => fallback relativePath e
            end
          else
            match get E (VObj existing) relativePath with
            | Some e => if truthy e then e else VObj []
            | None => VObj []
            end
      | None =>
          match get E (VObj existing) relativePath with
          | Some e => if truthy e then e else VObj []
          | None => VObj []
          end
      end
  end.

(** The members of [newDocs] after the scan of [files], from the
    members [m]. *)
Definition scanned (files : list PackageFile) (m : list (string * value))
  : list (string * value) :=
  fold_left (fun m f => define m (asRelativePath f) (entry f)) files m.

End Existing.

End WithEngine.

End Invariants.
Import Invariants.

(** * Further notions

    What the loader, the command, the timers, the registration and the
    patterns are said to do, and what the proofs about them carry
    along. *)

Module Notions.

(** ** The loader of the nested file *)

Definition read_failed : notice :=
  ErrorMessage "Failed to read script-docs.json. Please check file format.".

(** The nested shape as the loader accepts it without a migration: an
    object that is empty or has a key that holds a path separator or is
    [package.json]. *)
Definition nested_shape (members : list (string * value)) : Prop :=
  members = [] \/
  exists key, In key (keys members) /\ Nested.path_like key = true.

(** What a load may change in the workspace: it adds notices, and it
    replaces the documentation file only by the text of the migration of
    the flat object that the file held. *)
Definition load_changes (E : Engine) (w w' : World) : Prop :=
  workspaceFolders w' = workspaceFolders w /\
  packageJsonFiles w' = packageJsonFiles w /\
  writeFailure w' = writeFailure w /\
  (exists notices, shown w' = shown w ++ notices) /\
  (docsFile w' = docsFile w \/
   exists text rawDocs out,
     docsFile w = Content text /\
     JSON_parse text = Some rawDocs /\
     Nested.looksLikeOldStructure rawDocs = true /\
     JSON_stringify E (Nested.migrate E rawDocs (packageJsonFiles w)) = Some out /\
     docsFile w' = Content out).

(** ** The command that regenerates the file *)

Definition update_failed (reason : string) : notice :=
  ErrorMessage ("Failed to update script-docs.json: " +++ reason).

Definition docs_found : notice :=
  Information "Existing script-docs.json found. Merging new scripts.".

Definition docs_not_found : notice :=
  Information "script-docs.json not found. Creating a new one.".

Definition docs_not_read : notice :=
  ErrorMessage "Failed to read existing script-docs.json.".

Definition docs_kept : notice :=
  Information
    "No package.json files found in workspace, but existing script-docs.json will be kept.".

Definition docs_updated : notice :=
  Information "script-docs.json has been updated successfully!".

(** The members of the existing documentation that the last loop of
    the command copies: those whose path no scanned file has, and whose
    name is not one that every object inherits. *)
Definition unscanned (files : list PackageFile)
    (existing : list (string * value)) : list (string * value) :=
  filter (fun kv =>
            negb (found (fst kv) files) &&
            match inherited (fst kv) with Some _ => false | None => true end)
    existing.


(** Every command of the scripts of a package file converts to text,
    so that the scan of the file stops at no script. *)
Definition printable_scripts (E : Engine) (f : PackageFile) : Prop :=
  forall text packageJson scripts name command,
    file f = Content text ->
    JSON_parse text = Some packageJson ->
    get E packageJson "scripts" = Some scripts ->
    lookup name (own_entries scripts) = Some command ->
    printable E command.

(** Objects with the same members, in whatever order they hold them;
    other values are the same when they are equal. *)
Definition same_members (a b : value) : Prop :=
  match a, b with
  | VObj x, VObj y => forall k, lookup k x = lookup k y
  | _, _ => a = b
  end.

(** Documentation with entries under the same paths, and in the entry
    of every path the same descriptions. *)
Definition same_docs (a b : list (string * value)) : Prop :=
  forall path,
    match lookup path a, lookup path b with
    | Some x, Some y => same_members x y
    | None, None => True
    | _, _ => False
    end.

(** ** Debounced calls *)

Section Quiet.
Context {A : Type} (wait : Z).

(** The arguments of the calls that are left in peace: of the calls
    made at the given times, those followed by no other call, and not by
    [now], before their delay has passed. *)
Fixpoint quiet_calls (events : list (Z * A)) (now : Z) : list A :=
  match events with
  | [] => []
  | (t, a) :: rest =>
      let next := match rest with (t', _) :: _ => t' | [] => now end in
      (if (t + wait <=? next)%Z then [a] else []) ++ quiet_calls rest now
  end.

(** Calls made in the order of time, none of them at the instant at
    which the timer of the call before it is due; [now], the instant at
    which the outcome is looked at, follows the last call and is not the
    instant at which its timer is due. *)
Fixpoint apart (events : list (Z * A)) (now : Z) : Prop :=
  match events with
  | [] => True
  | (t, _) :: rest =>
      let next := match rest with (t', _) :: _ => t' | [] => now end in
      (t <= next)%Z /\ next <> (t + wait)%Z /\ apart rest now
  end.

End Quiet.

Section Waiting.
Context {A U : Type} (wait : Z).

(** A debounced function with one timer pending: the timer [id] of a
    call made at [t] with the arguments [a]. *)
Definition waiting (id : nat) (t : Z) (a : A) (u : U)
  : Extension.Debounced A U :=
  {| Extension.timeout := Some id;
     Extension.next_id := S id;
     Extension.pending :=
       [ {| Extension.timer_id := id; Extension.due := t + wait;
            Extension.arguments := a |} ];
     Extension.user := u |}.

End Waiting.

(** ** The registration of the hover provider *)

(** The variable [hoverProvider] names the one registration that the
    host holds, or there is none; and that registration was made
    before. *)
Definition consistent (h : Activation.Host) : Prop :=
  match Activation.hoverProvider h with
  | Some registration =>
      Activation.hoverProviders h = [registration] /\
      registration < Activation.registrations h
  | None => Activation.hoverProviders h = []
  end.

(** ** Keys on a line *)

(** A key in double quotes, a colon, and [rest]. *)
Definition key_then (key rest : string) : string :=
  String quote (key +++ String quote (String ":" rest)).

(** [line] holds, after the prefix [before], a key in double quotes
    and a colon, with a key that is not empty and holds no double
    quote: a place where the pattern of [match_any_key] matches. *)
Definition key_at (line before key rest : string) : Prop :=
  line = before +++ key_then key rest /\
  key <> EmptyString /\
  forallb_string not_quote key = true.

End Notions.
Import Notions.

(** * Properties *)

(** ** Examples *)

Module Examples.

Example parse_sample :
  JSON_parse (dq "{ 'name': 'demo', 'private': true, 'n': [1, -2.50e3, null],
  'scripts': { 'build': 'tsc -p .', 'test': 'jest', 'build': 'xA\n' } }")
  = Some (VObj [("name", VStr "demo"); ("private", VBool true);
                ("n", VArr [VNum (mkNumber false 1 0);
                            VNum (mkNumber true 250 1); VNull]);
                ("scripts", VObj [("build", VStr (String "x" (String "A" (String "010" EmptyString))));
                                  ("test", VStr "jest")])])%string.
Proof. vm_compute. reflexivity. Qed.

Example match_any_key_sample :
  match_any_key (dq "    'build:prod': 'tsc',") = Some "build:prod"%string
  /\ match_any_key (dq "  'a' , 'b c': 1") = Some "b c"%string
  /\ match_any_key (dq "  'a' : 1") = None
  /\ match_script_key (dq "  'a' : 1") = Some "a"%string
  /\ match_script_key (dq "  'b c': 1") = None
  /\ match_script_key (dq "{ 'a': 1") = None.
Proof. vm_compute. repeat split. Qed.

(** Escapes of four hexadecimal digits name any code unit; a high
    surrogate followed by a low one is one code point, and a surrogate
    alone is kept and written back as an escape. *)
Example parse_escapes_sample :
  JSON_parse (dq "'\u00e9\u4e2d\ud83d\ude00\ud800'")
  = Some (VStr (utf8 233 +++ utf8 20013 +++ utf8 128512 +++ utf8 55296))
  /\ JSON_stringify sample_engine (VStr (utf8 55296 +++ "a"))
     = Some (dq "'\ud800a'").
Proof. vm_compute. split; reflexivity. Qed.

(** What a template literal makes of values that are not strings. *)
Example ToString_sample :
  ToString sample_engine
    (VArr [VStr "a"; VNull; VArr [VStr "b"; VStr "c"]; VObj []])
  = Returns "a,,b,c,[object Object]"%string
  /\ ToString sample_engine (VObj [("toString", VBool true)]%string)
     = Throws NotPrimitive
  /\ ToString sample_engine (VArr [VObj [("toString", VNull)]%string])
     = Throws NotPrimitive.
Proof. vm_compute. repeat split. Qed.

(** The white space of the pattern includes the no-break space and the
    line separator, and not the zero-width space. *)
Example white_space_sample :
  match_script_key (utf8 160 +++ utf8 8232 +++ dq "'a': 1") = Some "a"%string
  /\ match_script_key (utf8 8203 +++ dq "'a': 1") = None.
Proof. vm_compute. split; reflexivity. Qed.

End Examples.


(** ** Objects *)

Module JsFacts.

Lemma lookup_define (kvs : list (string * value)) (k k' : string) (v : value) :
  lookup k (define kvs k' v) =
  if String.eqb k k' then Some v else lookup k kvs.
Proof.
  induction kvs as [|[k0 v0] rest IH]; simpl.
  - reflexivity.
  - destruct (String.eqb_spec k' k0) as [->|Hk0]; simpl.
    + destruct (String.eqb k k0); reflexivity.
    + rewrite IH.
      destruct (String.eqb_spec k k0) as [->|]; [|reflexivity].
      destruct (String.eqb_spec k0 k') as [Heq|]; [|reflexivity].
      now subst.
Qed.

Lemma lookup_none_iff (kvs : list (string * value)) (k : string) :
  lookup k kvs = None <-> ~ In k (keys kvs).
Proof.
  induction kvs as [|[k0 v0] rest IH]; simpl.
  - tauto.
  - destruct (String.eqb_spec k k0) as [->|Hne].
    + split; [discriminate | tauto].
    + rewrite IH. split; [intros H [?|?]; [congruence | tauto] | tauto].
Qed.

Lemma lookup_some_in (kvs : list (string * value)) (k : string) (v : value) :
  lookup k kvs = Some v -> In k (keys kvs).
Proof.
  intros H.
  destruct (in_dec string_dec k (keys kvs)) as [Hin|Hout]; [exact Hin|].
  apply lookup_none_iff in Hout. congruence.
Qed.

Lemma keys_define_in (kvs : list (string * value)) (k k' : string) (v : value) :
  In k (keys (define kvs k' v)) <-> k = k' \/ In k (keys kvs).
Proof.
  induction kvs as [|[k0 v0] rest IH]; simpl.
  - intuition.
  - destruct (String.eqb_spec k' k0) as [->|Hne]; simpl.
    + intuition.
    + rewrite IH. intuition.
Qed.

Lemma define_unique (kvs : list (string * value)) (k : string) (v : value) :
  NoDup (keys kvs) -> NoDup (keys (define kvs k v)).
Proof.
  induction kvs as [|[k0 v0] rest IH]; simpl; intros Hnd.
  - constructor; [intros [] | constructor].
  - inversion Hnd as [|? ? Hout Hrest]; subst.
    destruct (String.eqb_spec k k0) as [->|Hne]; simpl.
    + constructor; assumption.
    + constructor; [|now apply IH].
      rewrite keys_define_in. intros [Heq|Hin]; [congruence | tauto].
Qed.

(** Spreading [source] over [kvs]: the members of [source] win, the
    other members of [kvs] stay. *)
Lemma lookup_fold_define (entries kvs : list (string * value)) (k : string) :
  NoDup (keys entries) ->
  lookup k (fold_left (fun acc kv => define acc (fst kv) (snd kv)) entries kvs)
  = match lookup k entries with
    | Some v => Some v
    | None => lookup k kvs
    end.
Proof.
  revert kvs.
  induction entries as [|[k1 v1] rest IH]; simpl; intros kvs Hnd.
  - reflexivity.
  - inversion Hnd as [|? ? Hout Hrest]; subst.
    rewrite IH by assumption.
    rewrite lookup_define.
    destruct (String.eqb_spec k k1) as [->|Hne].
    + apply lookup_none_iff in Hout. now rewrite Hout.
    + reflexivity.
Qed.

Lemma string_of_nat_inj (n m : nat) :
  string_of_nat n = string_of_nat m -> n = m.
Proof.
  unfold string_of_nat. intros H.
  apply (f_equal NilEmpty.uint_of_string) in H.
  rewrite !NilEmpty.usu in H.
  injection H as H.
  apply (f_equal Nat.of_uint) in H.
  now rewrite !DecimalNat.Unsigned.of_to in H.
Qed.

Lemma index_from_keys (vs : list value) (i : nat) (k : string) :
  In k (keys (index_from i vs)) ->
  exists j, (i <= j)%nat /\ k = string_of_nat j.
Proof.
  revert i.
  induction vs as [|v rest IH]; simpl; intros i.
  - intros [].
  - intros [<-|Hin].
    + exists i. split; [lia | reflexivity].
    + destruct (IH _ Hin) as (j & Hle & ->).
      exists j. split; [lia | reflexivity].
Qed.

Lemma index_from_unique (vs : list value) (i : nat) :
  NoDup (keys (index_from i vs)).
Proof.
  revert i.
  induction vs as [|v rest IH]; simpl; intros i.
  - constructor.
  - constructor; [|apply IH].
    intros Hin.
    destruct (index_from_keys _ _ _ Hin) as (j & Hle & Heq).
    apply string_of_nat_inj in Heq. lia.
Qed.

End JsFacts.
Import JsFacts.

(** ** The parser *)

Module JsonFacts.

Ltac break_match_in H :=
  match type of H with
  | context [match ?x with _ => _ end] =>
      let Heq := fresh "Heq" in
      destruct x eqn:Heq; try discriminate H
  end.

Lemma parse_members_unique (fuel : nat) :
  forall s acc v rest,
    NoDup (keys acc) ->
    parse_members fuel s acc = Some (v, rest) ->
    exists kvs, v = VObj kvs /\ NoDup (keys kvs).
Proof.
  induction fuel as [|fuel IH]; intros s acc v rest Hacc H.
  - discriminate H.
  - simpl in H. repeat break_match_in H.
    + eapply IH; [|exact H]. now apply define_unique.
    + injection H as <- <-. eexists. split; [reflexivity|].
      now apply define_unique.
Qed.

Lemma parse_elements_array (fuel : nat) :
  forall s acc v rest,
    parse_elements fuel s acc = Some (v, rest) -> exists vs, v = VArr vs.
Proof.
  induction fuel as [|fuel IH]; intros s acc v rest H.
  - discriminate H.
  - simpl in H. repeat break_match_in H.
    + eapply IH; exact H.
    + injection H as <- <-. eexists; reflexivity.
Qed.

Lemma parse_literal_not_object (s : string) (v : value) (rest : string) :
  parse_literal s = Some (v, rest) -> forall kvs, v <> VObj kvs.
Proof.
  unfold parse_literal. intros H kvs.
  repeat break_match_in H; injection H as <- <-; discriminate.
Qed.

Lemma parse_value_unique (fuel : nat) (s : string) (kvs : list (string * value))
    (rest : string) :
  parse_value fuel s = Some (VObj kvs, rest) -> NoDup (keys kvs).
Proof.
  destruct fuel as [|fuel]; [discriminate|].
  simpl. intros H.
  destruct (skip_ws s) as [|c r]; [discriminate|].
  destruct (c =? "{")%char.
  - destruct (skip_ws r) as [|c' r']; [discriminate|].
    destruct (c' =? "}")%char.
    + injection H as <- <-. constructor.
    + apply parse_members_unique in H; [|constructor].
      destruct H as (kvs' & Heq & Hnd). now injection Heq as ->.
  - destruct (c =? "[")%char.
    + destruct (skip_ws r) as [|c' r']; [discriminate|].
      destruct (c' =? "]")%char; [discriminate|].
      apply parse_elements_array in H. destruct H as (vs & Heq). discriminate.
    + destruct (c =? quote)%char.
      * destruct (parse_chars r) as [[str rest']|]; discriminate.
      * apply parse_literal_not_object with (kvs := kvs) in H. congruence.
Qed.

(** The own keys of a parsed value are pairwise different. *)
Lemma JSON_parse_unique_keys (text : string) (v : value) :
  JSON_parse text = Some v -> NoDup (Object_keys v).
Proof.
  unfold JSON_parse. intros H.
  destruct (parse_value _ text) as [[v' rest]|] eqn:Hp; [|discriminate].
  destruct (is_empty (skip_ws rest)); [|discriminate].
  injection H as ->.
  destruct v; unfold Object_keys; simpl;
    try constructor; try apply index_from_unique.
  eapply parse_value_unique; exact Hp.
Qed.

(** *** Fuel *)

Lemma skip_length (p : ascii -> bool) (s : string) :
  String.length (skip p s) <= String.length s.
Proof.
  induction s as [|c r IH]; simpl; [lia|].
  destruct (p c); simpl; lia.
Qed.

Lemma skip_ws_cons (s : string) (c : ascii) (r : string) :
  skip_ws s = String c r -> String.length r < String.length s.
Proof.
  intros H. pose proof (skip_length is_json_ws s) as Hle.
  unfold skip_ws in H. rewrite H in Hle. simpl in Hle. lia.
Qed.

Lemma span_length (p : ascii -> bool) (s run rest : string) :
  span p s = (run, rest) -> String.length run + String.length rest = String.length s.
Proof.
  revert run rest.
  induction s as [|c r IH]; simpl; intros run rest H.
  - injection H as <- <-. reflexivity.
  - destruct (p c).
    + destruct (span p r) as [run' rest'] eqn:Hs.
      injection H as <- <-. simpl. rewrite (IH run' rest' eq_refl). reflexivity.
    + injection H as <- <-. reflexivity.
Qed.

(** One step of [parse_chars]. *)
Lemma parse_chars_step (c : ascii) (r : string) :
  parse_chars (String c r) =
  if (c =? quote)%char then Some (EmptyString, r)
  else if (c =? backslash)%char then
    match r with
    | EmptyString => None
    | String e r1 =>
        if (e =? "u")%char then
          match r1 with
          | String h1 (String h2 (String h3 (String h4 r2))) =>
              match hex4 h1 h2 h3 h4 with
              | Some n =>
                  match low_escape n r2 with
                  | Some (m, r3) =>
                      prepend (utf8 (pair_value n m)) (parse_chars r3)
                  | None => prepend (utf8 n) (parse_chars r2)
                  end
              | None => None
              end
          | _ => None
          end
        else
          match unescape e with
          | Some c' => prepend (String c' EmptyString) (parse_chars r1)
          | None => None
          end
    end
  else if (code c <? 32)%N then None
  else prepend (String c EmptyString) (parse_chars r).
Proof.
  cbn [parse_chars].
  destruct (c =? quote)%char; [reflexivity|].
  destruct (c =? backslash)%char; [|reflexivity].
  destruct r as [|e r1]; [reflexivity|].
  destruct (e =? "u")%char; [|reflexivity].
  destruct r1 as [|h1 [|h2 [|h3 [|h4 r2]]]]; try reflexivity.
  destruct (hex4 h1 h2 h3 h4) as [n|]; [|reflexivity].
  unfold low_escape.
  destruct r2 as [|b [|u [|k1 [|k2 [|k3 [|k4 r3]]]]]]; try reflexivity.
  destruct (is_high_surrogate n && (b =? backslash)%char && (u =? "u")%char);
    [|reflexivity].
  destruct (hex4 k1 k2 k3 k4) as [m|]; [|reflexivity].
  destruct (is_low_surrogate m); reflexivity.
Qed.

Lemma low_escape_length (n m : N) (s r : string) :
  low_escape n s = Some (m, r) -> String.length s = 6 + String.length r.
Proof.
  unfold low_escape.
  destruct s as [|b [|u [|k1 [|k2 [|k3 [|k4 r3]]]]]]; try discriminate.
  destruct (is_high_surrogate n && (b =? backslash)%char && (u =? "u")%char);
    [|discriminate].
  destruct (hex4 k1 k2 k3 k4) as [m'|]; [|discriminate].
  destruct (is_low_surrogate m'); [|discriminate].
  now intros [= _ <-].
Qed.

Lemma prepend_some (head : string) (parsed : option (string * string))
    (str rest : string) :
  prepend head parsed = Some (str, rest) ->
  exists body, parsed = Some (body, rest) /\ str = head +++ body.
Proof.
  destruct parsed as [[body rest']|]; [|discriminate].
  intros [= <- <-]. now exists body.
Qed.

Lemma parse_chars_shorter (s str rest : string) :
  parse_chars s = Some (str, rest) -> String.length rest < String.length s.
Proof.
  remember (String.length s) as n eqn:Hn.
  revert s str rest Hn.
  induction n as [n IH] using lt_wf_ind.
  intros s str rest Hn H.
  destruct s as [|c r]; [discriminate|].
  rewrite parse_chars_step in H. cbn [String.length] in Hn.
  assert (Hrec : forall tail head,
            String.length tail < n ->
            prepend head (parse_chars tail) = Some (str, rest) ->
            String.length rest < String.length tail).
  { intros tail head Htail Hp.
    destruct (prepend_some _ _ _ _ Hp) as (body & Hbody & _).
    exact (IH (String.length tail) Htail tail body rest eq_refl Hbody). }
  destruct (c =? quote)%char.
  { injection H as <- <-. lia. }
  destruct (c =? backslash)%char.
  { destruct r as [|e r1]; [discriminate|].
    destruct (e =? "u")%char.
    - destruct r1 as [|h1 [|h2 [|h3 [|h4 r2]]]]; try discriminate.
      destruct (hex4 h1 h2 h3 h4) as [k|]; [|discriminate].
      cbn [String.length] in Hn.
      destruct (low_escape k r2) as [[m r3]|] eqn:Hlow.
      + apply low_escape_length in Hlow.
        apply Hrec in H; lia.
      + apply Hrec in H; lia.
    - destruct (unescape e); [|discriminate].
      cbn [String.length] in Hn. apply Hrec in H; lia. }
  destruct (code c <? 32)%N; [discriminate|].
  apply Hrec in H; lia.
Qed.

Lemma strip_prefix_length (p s r : string) :
  strip_prefix p s = Some r -> String.length p + String.length r = String.length s.
Proof.
  revert s. induction p as [|a p IH]; intros s H; simpl in *.
  - now injection H as ->.
  - destruct s as [|b s']; [discriminate|].
    destruct (a =? b)%char; [|discriminate].
    simpl. rewrite (IH _ H). reflexivity.
Qed.

Lemma parse_frac_length (s digits rest : string) :
  parse_frac s = Some (digits, rest) -> String.length rest <= String.length s.
Proof.
  unfold parse_frac. intros H.
  destruct s as [|c r]; [injection H as <- <-; lia|].
  destruct (c =? ".")%char.
  - destruct (span is_digit r) as [d rest'] eqn:Hs.
    destruct (is_empty d); [discriminate|].
    injection H as <- <-. apply span_length in Hs. simpl. lia.
  - injection H as <- <-. lia.
Qed.

Lemma parse_exp_length (s : string) (e : Z) (rest : string) :
  parse_exp s = Some (e, rest) -> String.length rest <= String.length s.
Proof.
  unfold parse_exp. intros H.
  destruct s as [|c r]; [injection H as <- <-; lia|].
  destruct ((c =? "e") || (c =? "E"))%char.
  - destruct (match r with
              | String sign r' =>
                  if (sign =? "-")%char then (true, r')
                  else if (sign =? "+")%char then (false, r') else (false, r)
              | EmptyString => (false, r)
              end) as [negative r1] eqn:Hsign.
    assert (Hr1 : String.length r1 <= String.length r).
    { destruct r as [|sign r']; [injection Hsign as <- <-; lia|].
      destruct (sign =? "-")%char; [injection Hsign as <- <-; simpl; lia|].
      destruct (sign =? "+")%char; injection Hsign as <- <-; simpl; lia. }
    destruct (span is_digit r1) as [d rest'] eqn:Hs.
    destruct (is_empty d); [discriminate|].
    injection H as <- <-. apply span_length in Hs. simpl. lia.
  - injection H as <- <-. lia.
Qed.

Lemma parse_number_shorter (s : string) (n : number) (rest : string) :
  parse_number s = Some (n, rest) -> String.length rest < String.length s.
Proof.
  unfold parse_number. intros H.
  destruct (match s with
            | String c r => if (c =? "-")%char then (true, r) else (false, s)
            | EmptyString => (false, s)
            end) as [neg s1] eqn:Hsign.
  assert (Hs1 : String.length s1 <= String.length s).
  { destruct s as [|c r]; [injection Hsign as <- <-; lia|].
    destruct (c =? "-")%char; injection Hsign as <- <-; simpl; lia. }
  destruct s1 as [|c r]; [discriminate|].
  destruct (is_digit c) eqn:Hd; [|discriminate].
  destruct (if (c =? "0")%char then (String c EmptyString, r)
            else span is_digit (String c r)) as [int_digits s2] eqn:Hint.
  assert (Hs2 : String.length s2 <= String.length r).
  { destruct (c =? "0")%char.
    - injection Hint as <- <-. lia.
    - simpl in Hint. rewrite Hd in Hint.
      destruct (span is_digit r) as [run rest'] eqn:Hs.
      injection Hint as <- <-. apply span_length in Hs. lia. }
  destruct (parse_frac s2) as [[frac_digits s3]|] eqn:Hfrac; [|discriminate].
  destruct (parse_exp s3) as [[e s4]|] eqn:Hexp; [|discriminate].
  injection H as <- <-.
  apply parse_frac_length in Hfrac. apply parse_exp_length in Hexp.
  simpl in Hs1. lia.
Qed.

Lemma parse_literal_shorter (s : string) (v : value) (rest : string) :
  parse_literal s = Some (v, rest) -> String.length rest < String.length s.
Proof.
  unfold parse_literal. intros H.
  destruct (strip_prefix "true" s) eqn:H1.
  { injection H as <- <-. apply strip_prefix_length in H1. simpl in H1. lia. }
  destruct (strip_prefix "false" s) eqn:H2.
  { injection H as <- <-. apply strip_prefix_length in H2. simpl in H2. lia. }
  destruct (strip_prefix "null" s) eqn:H3.
  { injection H as <- <-. apply strip_prefix_length in H3. simpl in H3. lia. }
  destruct (parse_number s) as [[n r]|] eqn:H4; [|discriminate].
  injection H as <- <-. now apply parse_number_shorter in H4.
Qed.

(** A successful parse consumes at least one character. *)
Lemma parse_shorter (fuel : nat) :
  (forall s v rest, parse_value fuel s = Some (v, rest) -> String.length rest < String.length s) /\
  (forall s acc v rest,
     parse_elements fuel s acc = Some (v, rest) -> String.length rest < String.length s) /\
  (forall s acc v rest,
     parse_members fuel s acc = Some (v, rest) -> String.length rest < String.length s).
Proof.
  induction fuel as [|fuel (IHv & IHe & IHm)].
  - repeat split; intros; discriminate.
  - repeat split.
    + intros s v rest H. simpl in H.
      destruct (skip_ws s) as [|c r] eqn:Hws; [discriminate|].
      apply skip_ws_cons in Hws.
      destruct (c =? "{")%char.
      { destruct (skip_ws r) as [|c' r'] eqn:Hws'; [discriminate|].
        apply skip_ws_cons in Hws'.
        destruct (c' =? "}")%char.
        - injection H as <- <-. lia.
        - apply IHm in H. lia. }
      destruct (c =? "[")%char.
      { destruct (skip_ws r) as [|c' r'] eqn:Hws'; [discriminate|].
        apply skip_ws_cons in Hws'.
        destruct (c' =? "]")%char.
        - injection H as <- <-. lia.
        - apply IHe in H. lia. }
      destruct (c =? quote)%char.
      { destruct (parse_chars r) as [[str rest']|] eqn:Hc; [|discriminate].
        injection H as <- <-. apply parse_chars_shorter in Hc. lia. }
      apply parse_literal_shorter in H. simpl in H. lia.
    + intros s acc v rest H. simpl in H.
      destruct (parse_value fuel s) as [[v' r]|] eqn:Hv; [|discriminate].
      apply IHv in Hv.
      destruct (skip_ws r) as [|c r'] eqn:Hws; [discriminate|].
      apply skip_ws_cons in Hws.
      destruct (c =? ",")%char.
      { apply IHe in H. lia. }
      destruct (c =? "]")%char; [|discriminate].
      injection H as <- <-. lia.
    + intros s acc v rest H. simpl in H.
      destruct (skip_ws s) as [|q r] eqn:Hws; [discriminate|].
      apply skip_ws_cons in Hws.
      destruct (q =? quote)%char; [|discriminate].
      destruct (parse_chars r) as [[k r1]|] eqn:Hk; [|discriminate].
      apply parse_chars_shorter in Hk.
      destruct (skip_ws r1) as [|c r2] eqn:Hws1; [discriminate|].
      apply skip_ws_cons in Hws1.
      destruct (c =? ":")%char; [|discriminate].
      destruct (parse_value fuel r2) as [[v' r3]|] eqn:Hv; [|discriminate].
      apply IHv in Hv.
      destruct (skip_ws r3) as [|c' r4] eqn:Hws3; [discriminate|].
      apply skip_ws_cons in Hws3.
      destruct (c' =? ",")%char.
      { apply IHm in H. lia. }
      destruct (c' =? "}")%char; [|discriminate].
      injection H as <- <-. lia.
Qed.

(** Fuel beyond two units per character changes nothing. *)
Lemma parse_fuel_stable (fuel : nat) :
  (forall s more, 2 * String.length s < fuel -> fuel <= more ->
     parse_value more s = parse_value fuel s) /\
  (forall s acc more, 2 * String.length s + 1 < fuel -> fuel <= more ->
     parse_elements more s acc = parse_elements fuel s acc) /\
  (forall s acc more, 2 * String.length s + 1 < fuel -> fuel <= more ->
     parse_members more s acc = parse_members fuel s acc).
Proof.
  induction fuel as [|fuel (IHv & IHe & IHm)].
  - repeat split; intros; lia.
  - repeat split.
    + intros s more Hlen Hmore.
      destruct more as [|more]; [lia|]. simpl.
      destruct (skip_ws s) as [|c r] eqn:Hws; [reflexivity|].
      apply skip_ws_cons in Hws.
      destruct (c =? "{")%char.
      { destruct (skip_ws r) as [|c' r'] eqn:Hws'; [reflexivity|].
        destruct (c' =? "}")%char; [reflexivity|].
        apply IHm; lia. }
      destruct (c =? "[")%char.
      { destruct (skip_ws r) as [|c' r'] eqn:Hws'; [reflexivity|].
        destruct (c' =? "]")%char; [reflexivity|].
        apply IHe; lia. }
      reflexivity.
    + intros s acc more Hlen Hmore.
      destruct more as [|more]; [lia|]. simpl.
      rewrite (IHv s more) by lia.
      destruct (parse_value fuel s) as [[v r]|] eqn:Hv; [|reflexivity].
      apply (proj1 (parse_shorter fuel)) in Hv.
      destruct (skip_ws r) as [|c r'] eqn:Hws; [reflexivity|].
      apply skip_ws_cons in Hws.
      destruct (c =? ",")%char; [|reflexivity].
      apply IHe; lia.
    + intros s acc more Hlen Hmore.
      destruct more as [|more]; [lia|]. simpl.
      destruct (skip_ws s) as [|q r] eqn:Hws; [reflexivity|].
      apply skip_ws_cons in Hws.
      destruct (q =? quote)%char; [|reflexivity].
      destruct (parse_chars r) as [[k r1]|] eqn:Hk; [|reflexivity].
      apply parse_chars_shorter in Hk.
      destruct (skip_ws r1) as [|c r2] eqn:Hws1; [reflexivity|].
      apply skip_ws_cons in Hws1.
      destruct (c =? ":")%char; [|reflexivity].
      rewrite (IHv r2 more) by lia.
      destruct (parse_value fuel r2) as [[v r3]|] eqn:Hv; [|reflexivity].
      apply (proj1 (parse_shorter fuel)) in Hv.
      destruct (skip_ws r3) as [|c' r4] eqn:Hws3; [reflexivity|].
      apply skip_ws_cons in Hws3.
      destruct (c' =? ",")%char; [|reflexivity].
      apply IHm; lia.
Qed.

(** [JSON.parse] never fails for want of fuel: any larger amount gives
    the same answer. *)
Theorem parse_fuel_enough (text : string) (more : nat) :
  S (2 * String.length text) <= more ->
  parse_value more text = parse_value (S (2 * String.length text)) text.
Proof.
  intros Hmore. apply (proj1 (parse_fuel_stable (S (2 * String.length text)))); lia.
Qed.

End JsonFacts.
Import JsonFacts.

(** ** The documentation of the provider with built-in descriptions *)

Module LegacyFacts.

Lemma defaults_unique :
  NoDup (Object_keys Legacy.defaultDocs) /\
  NoDup (Object_keys Legacy.defaultDocs0).
Proof.
  split; unfold Object_keys; simpl;
    repeat (constructor; [simpl; intuition discriminate|]); constructor.
Qed.

(** A member of [{ ...defaults, ...customDocs }] is the member of
    [customDocs] when there is one and the member of [defaults]
    otherwise. *)
Lemma merge_lookup (defaults customDocs : value) (k : string) :
  NoDup (Object_keys defaults) ->
  NoDup (Object_keys customDocs) ->
  lookup k (own_entries (Legacy.merge defaults customDocs))
  = match lookup k (own_entries customDocs) with
    | Some description => Some description
    | None => lookup k (own_entries defaults)
    end.
Proof.
  intros Hd Hc. unfold Legacy.merge, spread. simpl.
  rewrite lookup_fold_define by exact Hc.
  destruct (lookup k (own_entries customDocs)); [reflexivity|].
  rewrite lookup_fold_define by exact Hd.
  now destruct (lookup k (own_entries defaults)).
Qed.

Lemma load_content (text : string) (customDocs : value) :
  JSON_parse text = Some customDocs ->
  Legacy.load (Content text) = Legacy.merge Legacy.defaultDocs customDocs.
Proof.
  intros H. unfold Legacy.load, JSON_parse_outcome. simpl. now rewrite H.
Qed.

Lemma getScriptDocs_content (text : string) (customDocs : value) :
  JSON_parse text = Some customDocs ->
  Legacy.getScriptDocs true (Content text)
  = Legacy.merge Legacy.defaultDocs0 customDocs.
Proof.
  intros H. unfold Legacy.getScriptDocs, JSON_parse_outcome. simpl.
  now rewrite H.
Qed.

(** C10.  In the provider with built-in descriptions, the documentation
    loaded from a custom file is the defaults overridden by the file:
    a name that the file and the defaults both describe gets the
    description of the file, and a default name that the file does not
    have keeps its built-in description.  This holds for
    [loadCustomDocs] of the provider, whose result also becomes the
    cache, and for [getScriptDocs] of the first release. *)
Theorem C10_custom_docs_override_defaults
    (text : string) (customDocs : value) (name builtin : string) :
  JSON_parse text = Some customDocs ->
  let loaded := Legacy.loadCustomDocs false Legacy.initial (Content text) in
  let docs := fst loaded in
  let docs0 := Legacy.getScriptDocs true (Content text) in
  Legacy.cachedDocs (snd loaded) = Some docs /\
  (lookup name (own_entries Legacy.defaultDocs) = Some (VStr builtin) ->
   (forall custom,
      lookup name (own_entries customDocs) = Some custom ->
      lookup name (own_entries docs) = Some custom) /\
   (lookup name (own_entries customDocs) = None ->
    lookup name (own_entries docs) = Some (VStr builtin))) /\
  (lookup name (own_entries Legacy.defaultDocs0) = Some (VStr builtin) ->
   (forall custom,
      lookup name (own_entries customDocs) = Some custom ->
      lookup name (own_entries docs0) = Some custom) /\
   (lookup name (own_entries customDocs) = None ->
    lookup name (own_entries docs0) = Some (VStr builtin))).
Proof.
  intros Hparse loaded docs docs0.
  pose proof (JSON_parse_unique_keys _ _ Hparse) as Hunique.
  destruct defaults_unique as [Hd Hd0].
  assert (Hdocs : docs = Legacy.merge Legacy.defaultDocs customDocs).
  { unfold docs, loaded, Legacy.loadCustomDocs. simpl.
    now apply load_content. }
  assert (Hdocs0 : docs0 = Legacy.merge Legacy.defaultDocs0 customDocs).
  { now apply getScriptDocs_content. }
  split; [unfold docs, loaded, Legacy.loadCustomDocs; reflexivity|].
  rewrite Hdocs, Hdocs0.
  split; intros Hdefault; (split; [intros custom Hc | intros Hc]);
    rewrite merge_lookup by assumption; rewrite Hc; auto.
Qed.

Lemma C10_custom_docs_override_defaults_witness :
  let text := dq "{ 'test': 'vitest run', 'deploy': 'ships it' }" in
  let docs := fst (Legacy.loadCustomDocs false Legacy.initial (Content text)) in
  lookup "test" (own_entries docs) = Some (VStr "vitest run") /\
  lookup "lint" (own_entries docs) = Some (VStr "Runs code linting").
Proof.
  intros text docs.
  split.
  - refine (proj1 (proj1 (proj2 (C10_custom_docs_override_defaults
      text (VObj [("test", VStr "vitest run"); ("deploy", VStr "ships it")])%string
      "test" "Runs tests" _)) _) _ _); vm_compute; reflexivity.
  - refine (proj2 (proj1 (proj2 (C10_custom_docs_override_defaults
      text (VObj [("test", VStr "vitest run"); ("deploy", VStr "ships it")])%string
      "lint" "Runs code linting" _)) _) _); vm_compute; reflexivity.
Defined.

End LegacyFacts.

(** ** The shape of the documentation file *)

Module ShapeFacts.

Lemma includes_char_in (s : string) (c : ascii) :
  includes_char s c = true <-> In c (list_ascii_of_string s).
Proof.
  unfold includes_char.
  induction s as [|a r IH]; simpl.
  - split; [discriminate | tauto].
  - rewrite Bool.orb_true_iff, IH, Ascii.eqb_eq. intuition.
Qed.

Lemma path_like_false (key : string) :
  Nested.path_like key = false <->
  ~ has_separator key /\ key <> "package.json"%string.
Proof.
  unfold Nested.path_like, has_separator.
  rewrite !Bool.orb_false_iff, <- !includes_char_in.
  destruct (includes_char key slash), (includes_char key backslash),
    (String.eqb_spec key "package.json"); intuition congruence.
Qed.

Lemma existsb_path_like_false (l : list string) :
  existsb Nested.path_like l = false <->
  forall key, In key l -> ~ has_separator key /\ key <> "package.json"%string.
Proof.
  induction l as [|k rest IH]; simpl.
  - intuition.
  - rewrite Bool.orb_false_iff, IH, path_like_false.
    split.
    + intros [Hk Hrest] key [<-|Hin]; auto.
    + intros H. split; [apply H; now left | intros key Hin; apply H; now right].
Qed.

(** C9.  A loaded documentation object is taken for the old flat
    structure exactly when it is a non-array object with at least one
    key and none of its keys contains a path separator or equals
    [package.json]. *)
Theorem C9_legacy_shape_detection (rawDocs : value) :
  Nested.looksLikeOldStructure rawDocs = true <-> legacy_shape rawDocs.
Proof.
  unfold Nested.looksLikeOldStructure, legacy_shape.
  destruct rawDocs as [|b|n|s|vs|members|name]; simpl;
    try (rewrite ?Bool.andb_false_r; simpl;
         split; [discriminate | intros (m & Heq & _); discriminate]).
  unfold Object_keys; simpl.
  split.
  - intros H. apply Bool.andb_true_iff in H. destruct H as [Hlen Hkeys].
    exists members. split; [reflexivity|]. split.
    + intros ->. discriminate.
    + apply existsb_path_like_false. now apply Bool.negb_true_iff.
  - intros (m & Heq & Hne & Hkeys). injection Heq as <-.
    apply Bool.andb_true_iff. split.
    + destruct members; [congruence | reflexivity].
    + apply Bool.negb_true_iff. now apply existsb_path_like_false.
Qed.

End ShapeFacts.

(** ** The key on the hovered line *)

Module LineFacts.

Lemma span_run (p : ascii -> bool) (run : string) (c : ascii) (rest : string) :
  forallb_string p run = true -> p c = false ->
  span p (run +++ String c rest) = (run, String c rest).
Proof.
  intros Hrun Hc.
  induction run as [|a r IH]; simpl in *.
  - now rewrite Hc.
  - apply Bool.andb_true_iff in Hrun. destruct Hrun as [Ha Hr].
    now rewrite Ha, IH.
Qed.

Lemma skip_run (p : ascii -> bool) (run : string) (c : ascii) (rest : string) :
  forallb_string p run = true -> p c = false ->
  skip p (run +++ String c rest) = String c rest.
Proof.
  intros Hrun Hc.
  induction run as [|a r IH]; simpl in *.
  - now rewrite Hc.
  - apply Bool.andb_true_iff in Hrun. destruct Hrun as [Ha Hr].
    now rewrite Ha, IH.
Qed.

(** *** White space *)

Lemma skip_space_step (s : string) :
  skip_space s =
  match after_space s with
  | Some r => skip_space r
  | None => s
  end.
Proof.
  destruct s as [|a r]; [reflexivity|].
  change (skip_space (String a r))
    with (if is_regex_space a then skip_space r
          else
            match r with
            | String b r2 =>
                if is_regex_space2 a b then skip_space r2
                else
                  match r2 with
                  | String c r3 =>
                      if is_regex_space3 a b c then skip_space r3
                      else String a r
                  | EmptyString => String a r
                  end
            | EmptyString => String a r
            end).
  unfold after_space.
  destruct (is_regex_space a); [reflexivity|].
  destruct r as [|b r2]; [reflexivity|].
  destruct (is_regex_space2 a b); [reflexivity|].
  destruct r2 as [|c r3]; [reflexivity|].
  destruct (is_regex_space3 a b c); reflexivity.
Qed.

Lemma regex_space3_lead (a b c : ascii) :
  is_regex_space3 a b c = true -> not_quote a && not_quote b && not_quote c = true.
Proof.
  unfold is_regex_space3, not_quote.
  destruct (Ascii.eqb_spec a quote) as [->|]; [discriminate|].
  destruct (Ascii.eqb_spec b quote) as [->|].
  { cbn. rewrite !Bool.andb_false_r. discriminate. }
  destruct (Ascii.eqb_spec c quote) as [->|]; [|reflexivity].
  cbn. rewrite !Bool.andb_false_r. discriminate.
Qed.

(** What [after_space] takes off is one character of one, two or three
    bytes, none of them a double quote. *)
Lemma after_space_some (s r : string) :
  after_space s = Some r ->
  exists unit,
    s = unit +++ r /\
    String.length r < String.length s /\
    forallb_string not_quote unit = true /\
    forall tail, after_space (unit +++ tail) = Some tail.
Proof.
  unfold after_space.
  destruct s as [|a s1]; [discriminate|].
  destruct (is_regex_space a) eqn:Ha.
  { intros [= <-]. exists (String a EmptyString). cbn [append String.length].
    repeat split; [lia | | intros tail; now rewrite Ha].
    cbn. unfold not_quote.
    destruct (Ascii.eqb_spec a quote) as [->|]; [discriminate | reflexivity]. }
  destruct s1 as [|b s2]; [discriminate|].
  destruct (is_regex_space2 a b) eqn:Hb.
  { intros [= <-]. exists (String a (String b EmptyString)).
    cbn [append String.length].
    repeat split; [lia | | intros tail; now rewrite Ha, Hb].
    unfold is_regex_space2 in Hb. apply Bool.andb_true_iff in Hb.
    destruct Hb as [Ha' Hb']. apply Ascii.eqb_eq in Ha', Hb'. now subst. }
  destruct s2 as [|c s3]; [discriminate|].
  destruct (is_regex_space3 a b c) eqn:Hc; [|discriminate].
  intros [= <-]. exists (String a (String b (String c EmptyString))).
  cbn [append String.length].
  repeat split; [lia | | intros tail; now rewrite Ha, Hb, Hc].
  cbn [forallb_string]. rewrite Bool.andb_true_r, Bool.andb_assoc.
  now apply regex_space3_lead.
Qed.

Lemma append_assoc (a b c : string) : (a +++ b) +++ c = a +++ (b +++ c).
Proof. induction a as [|x a IH]; simpl; congruence. Qed.

Lemma append_empty (a : string) : a +++ EmptyString = a.
Proof. induction a as [|x a IH]; simpl; congruence. Qed.

Lemma forallb_string_app (p : ascii -> bool) (a b : string) :
  forallb_string p (a +++ b) = forallb_string p a && forallb_string p b.
Proof.
  induction a as [|x a IH]; cbn [append forallb_string]; [reflexivity|].
  now rewrite IH, Bool.andb_assoc.
Qed.

(** [skip_space] splits a text into white space and the rest. *)
Lemma skip_space_split (s : string) :
  exists blank, s = blank +++ skip_space s /\ white_space blank = true.
Proof.
  remember (String.length s) as n eqn:Hn. revert s Hn.
  induction n as [n IH] using lt_wf_ind. intros s Hn.
  rewrite skip_space_step.
  destruct (after_space s) as [r|] eqn:Hafter.
  - destruct (after_space_some s r Hafter) as (unit & Hs & Hlen & _ & Hunit).
    destruct (IH (String.length r) ltac:(lia) r eq_refl) as (blank & Hr & Hblank).
    exists (unit +++ blank). split.
    + rewrite append_assoc, <- Hr. exact Hs.
    + unfold white_space in *. now rewrite skip_space_step, Hunit.
  - now exists EmptyString.
Qed.

(** White space at the head of a text is skipped whole. *)
Lemma skip_space_app (blank tail : string) :
  white_space blank = true -> skip_space (blank +++ tail) = skip_space tail.
Proof.
  remember (String.length blank) as n eqn:Hn. revert blank Hn.
  induction n as [n IH] using lt_wf_ind. intros blank Hn Hblank.
  unfold white_space in Hblank. rewrite skip_space_step in Hblank.
  destruct (after_space blank) as [r|] eqn:Hafter.
  - destruct (after_space_some blank r Hafter) as (unit & Hs & Hlen & _ & Hunit).
    rewrite Hs, append_assoc, skip_space_step, Hunit.
    exact (IH (String.length r) ltac:(lia) r eq_refl Hblank).
  - destruct blank; [reflexivity | discriminate].
Qed.

Lemma white_space_no_quote (blank : string) :
  white_space blank = true -> forallb_string not_quote blank = true.
Proof.
  remember (String.length blank) as n eqn:Hn. revert blank Hn.
  induction n as [n IH] using lt_wf_ind. intros blank Hn Hblank.
  unfold white_space in Hblank. rewrite skip_space_step in Hblank.
  destruct (after_space blank) as [r|] eqn:Hafter.
  - destruct (after_space_some blank r Hafter) as (unit & Hs & Hlen & Hq & _).
    rewrite Hs, forallb_string_app, Hq.
    exact (IH (String.length r) ltac:(lia) r eq_refl Hblank).
  - destruct blank; [reflexivity | discriminate].
Qed.

(** A double quote and a colon are no white space, and start none. *)
Lemma skip_space_quote (r : string) :
  skip_space (String quote r) = String quote r.
Proof. destruct r as [|b [|c r]]; reflexivity. Qed.

Lemma skip_space_colon (r : string) :
  skip_space (String ":" r) = String ":" r.
Proof. destruct r as [|b [|c r]]; reflexivity. Qed.

Lemma forallb_string_impl (p q : ascii -> bool) (s : string) :
  (forall c, p c = true -> q c = true) ->
  forallb_string p s = true -> forallb_string q s = true.
Proof.
  intros Hpq. induction s as [|a r IH]; simpl; [reflexivity|].
  rewrite !Bool.andb_true_iff. intros [Ha Hr]. auto.
Qed.

(** The pattern of the first provider finds the key of an entry line
    whose indentation holds no quote. *)
Lemma match_any_key_entry (indent name rest : string) :
  forallb_string not_quote indent = true ->
  forallb_string not_quote name = true ->
  name <> EmptyString ->
  match_any_key (entry_line indent name rest) = Some name.
Proof.
  intros Hindent Hname Hne. unfold entry_line.
  induction indent as [|a r IH]; simpl in *.
  - rewrite span_run by (assumption || reflexivity).
    destruct name as [|k ks]; [congruence | reflexivity].
  - apply Bool.andb_true_iff in Hindent. destruct Hindent as [Ha Hr].
    unfold not_quote in Ha. apply Bool.negb_true_iff in Ha. rewrite Ha.
    now apply IH.
Qed.

(** The pattern of the later provider finds the key of an entry line
    that is indented by white space and whose key is made of letters,
    digits, [_], [:] and [-]. *)
Lemma match_script_key_entry (indent name rest : string) :
  white_space indent = true ->
  forallb_string is_script_char name = true ->
  name <> EmptyString ->
  match_script_key (entry_line indent name rest) = Some name.
Proof.
  intros Hindent Hname Hne. unfold entry_line, match_script_key.
  rewrite skip_space_app, skip_space_quote by assumption.
  rewrite Ascii.eqb_refl.
  rewrite span_run by (assumption || reflexivity).
  destruct name as [|k ks]; [congruence|].
  rewrite Ascii.eqb_refl, skip_space_colon. reflexivity.
Qed.

(** What the later pattern can return is a non-empty run of its
    character class. *)
Lemma span_class (p : ascii -> bool) (s run rest : string) :
  span p s = (run, rest) -> forallb_string p run = true.
Proof.
  revert run rest.
  induction s as [|a r IH]; simpl; intros run rest H.
  - now injection H as <- <-.
  - destruct (p a) eqn:Ha.
    + destruct (span p r) as [run' rest'] eqn:Hs.
      injection H as <- <-. simpl. rewrite Ha. eapply IH. reflexivity.
    + now injection H as <- <-.
Qed.

Lemma match_script_key_class (line name : string) :
  match_script_key line = Some name ->
  forallb_string is_script_char name = true /\ name <> EmptyString.
Proof.
  unfold match_script_key. intros H.
  destruct (skip_space line) as [|c r]; [discriminate|].
  destruct (c =? quote)%char; [|discriminate].
  destruct (span is_script_char r) as [run rest] eqn:Hs.
  destruct run as [|k ks]; [discriminate|].
  destruct rest as [|c' r']; [discriminate|].
  destruct (c' =? quote)%char; [|discriminate].
  destruct (skip_space r') as [|c'' r'']; [discriminate|].
  destruct (c'' =? ":")%char; [|discriminate].
  injection H as <-. split; [eapply span_class; exact Hs | discriminate].
Qed.

End LineFacts.
Import LineFacts.

(** ** The hover *)

Module HoverFacts.

Lemma get_plain (E : Engine) (kvs : list (string * value)) (k : string) :
  get E (VObj kvs) k =
  match lookup k kvs with
  | Some v => Some v
  | None => inherited k
  end.
Proof. reflexivity. Qed.

Lemma truthy_command (command : string) :
  command <> EmptyString -> truthy (VStr command) = true.
Proof. destruct command; [congruence | reflexivity]. Qed.

(** A load of the nested documentation that misses the cache, in terms
    of what reading the file gives. *)
Lemma loadCustomDocs_miss (E : Engine) (force : bool) (s : Nested.State) :
  truthy_opt (Nested.cachedDocs (fst s)) && negb force = false ->
  workspaceFolders (snd s) = true ->
  Nested.loadCustomDocs E force s =
  match Nested.read_docs E s with
  | (Returns rawDocs, s1) =>
      (Returns (Some rawDocs), ({| Nested.cachedDocs := Some rawDocs |}, snd s1))
  | (Throws FileNotFound, s1) =>
      (Returns None, ({| Nested.cachedDocs := None |}, snd s1))
  | (Throws _, s1) =>
      (Returns None,
       ({| Nested.cachedDocs := None |},
        show (ErrorMessage
                "Failed to read script-docs.json. Please check file format.")
             (snd s1)))
  end.
Proof.
  intros Hmiss Hfolders.
  unfold Nested.loadCustomDocs, seq, read, catch, ret.
  rewrite Hmiss, Hfolders. simpl.
  destruct (Nested.read_docs E s) as [[rawDocs|e] s1]; [reflexivity|].
  destruct e; reflexivity.
Qed.

(** [loadCustomDocs] catches what it raises. *)
Lemma loadCustomDocs_returns (E : Engine) (force : bool) (s : Nested.State) :
  exists docs s', Nested.loadCustomDocs E force s = (Returns docs, s').
Proof.
  destruct (truthy_opt (Nested.cachedDocs (fst s)) && negb force) eqn:Hhit.
  - unfold Nested.loadCustomDocs, seq, read, ret. rewrite Hhit. eauto.
  - destruct (workspaceFolders (snd s)) eqn:Hfolders.
    + rewrite loadCustomDocs_miss by assumption.
      destruct (Nested.read_docs E s) as [[rawDocs|e] s1]; [eauto|].
      destruct e; eauto.
    + unfold Nested.loadCustomDocs, seq, read, ret.
      rewrite Hhit, Hfolders. simpl. eauto.
Qed.

Section WithEngine.
Context (E : Engine).

Lemma legacy_hover (p : Legacy.Provider) (docsFile : file_state)
    (document : TextDocument) (line : nat)
    (top scripts : list (string * value)) (text name : string) (command : value) :
  JSON_parse (getText document) = Some (VObj top) ->
  lineAt document line = Returns text ->
  match_any_key text = Some name ->
  lookup "scripts" top = Some (VObj scripts) ->
  lookup name scripts = Some command ->
  truthy command = true ->
  Legacy.provideHover E p docsFile document line =
  (hover_of (hover_markdown E name (legacy_description E p docsFile name)
               (Some command)),
   snd (Legacy.loadCustomDocs false p docsFile)).
Proof.
  intros Hparse Hline Hmatch Hscripts Hname Htruthy.
  unfold Legacy.provideHover, legacy_description.
  rewrite Hparse, Hline, Hmatch. cbn [member member_opt].
  rewrite get_plain, Hscripts. cbn [member member_opt].
  rewrite get_plain, Hname. cbn [truthy_opt]. rewrite Htruthy. cbn [negb].
  now destruct (Legacy.loadCustomDocs false p docsFile) as [docs p'].
Qed.

Lemma nested_hover (s s' : Nested.State) (scriptDocs : option value)
    (document : TextDocument) (line : nat)
    (top scripts : list (string * value)) (text name : string) (command : value) :
  endsWith (fileName document) "package.json" = true ->
  JSON_parse (getText document) = Some (VObj top) ->
  lineAt document line = Returns text ->
  match_script_key text = Some name ->
  lookup "scripts" top = Some (VObj scripts) ->
  lookup name scripts = Some command ->
  truthy command = true ->
  Nested.loadCustomDocs E false s = (Returns scriptDocs, s') ->
  Nested.provideHover E document line s =
  (hover_of (hover_markdown E name
               (nested_description E scriptDocs document name)
               (Some command)),
   s').
Proof.
  intros Hfile Hparse Hline Hmatch Hscripts Hname Htruthy Hload.
  unfold Nested.provideHover, nested_description.
  rewrite Hfile, Hparse, Hline. unfold seq at 1. unfold lift at 1.
  rewrite Hmatch. unfold seq at 1. unfold lift at 1. cbn [member].
  rewrite get_plain, Hscripts. cbn [member_opt].
  rewrite get_plain, Hname. cbn [truthy_opt]. rewrite Htruthy. cbn [negb].
  unfold seq at 1. rewrite Hload.
  unfold seq, lift, ret. cbn [member]. rewrite get_plain, Hname.
  unfold hover_of.
  now destruct (hover_markdown E name _ (Some command)).
Qed.

(** The text of the hover when the description converts to text and
    the command is a string. *)
Lemma hover_markdown_text (name : string) (description : value)
    (text command : string) :
  ToString E description = Returns text ->
  hover_of (hover_markdown E name description (Some (VStr command)))
  = shows name text command.
Proof. intros H. unfold hover_markdown. now rewrite H. Qed.

Lemma not_a_script_falsy (top : list (string * value)) (name : string) :
  not_a_script top name ->
  truthy_opt (member_opt E (get E (VObj top) "scripts") name) = false.
Proof.
  intros [Hinh [Hnone | (scripts & Hscripts & Hname)]]; rewrite get_plain.
  - rewrite Hnone. reflexivity.
  - rewrite Hscripts. cbn [member_opt]. now rewrite get_plain, Hname, Hinh.
Qed.

End WithEngine.

End HoverFacts.
Import HoverFacts.

(** ** The claims about the hover *)

Module HoverClaims.

(** C1, as the code has it.  In a document whose text is valid JSON with
    a [scripts] object, on a line [indent"name":rest] where [name] is
    not empty and [scripts] gives it a non-empty command, and where the
    description found for [name] converts to text, [provideHover]
    returns a hover that shows exactly [name], that description and
    exactly the command [scripts[name]].  The first provider needs the
    indentation and the name free of quotes; the later provider needs a
    file name ending in [package.json], white-space indentation and a
    name made of letters, digits, [_], [:] and [-]. *)
Theorem C1_hover_shows_name_and_command (E : Engine)
    (document : TextDocument) (line : nat)
    (top scripts : list (string * value)) (indent name rest command : string) :
  JSON_parse (getText document) = Some (VObj top) ->
  lookup "scripts" top = Some (VObj scripts) ->
  lookup name scripts = Some (VStr command) ->
  command <> EmptyString ->
  name <> EmptyString ->
  lineAt document line = Returns (entry_line indent name rest) ->
  (forallb_string not_quote indent = true ->
   forallb_string not_quote name = true ->
   forall p docsFile description,
     ToString E (legacy_description E p docsFile name) = Returns description ->
     Legacy.provideHover E p docsFile document line =
     (shows name description command,
      snd (Legacy.loadCustomDocs false p docsFile)))
  /\
  (endsWith (fileName document) "package.json" = true ->
   white_space indent = true ->
   forallb_string is_script_char name = true ->
   forall s, exists scriptDocs s',
     Nested.loadCustomDocs E false s = (Returns scriptDocs, s') /\
     forall description,
       ToString E (nested_description E scriptDocs document name)
       = Returns description ->
       Nested.provideHover E document line s =
       (shows name description command, s')).
Proof.
  intros Hparse Hscripts Hname Hcommand Hne Hline.
  apply truthy_command in Hcommand.
  split.
  - intros Hindent Hchars p docsFile description Hdescription.
    rewrite (legacy_hover E p docsFile document line top scripts
               (entry_line indent name rest) name (VStr command));
      eauto using match_any_key_entry.
    now rewrite (hover_markdown_text E name _ description command).
  - intros Hfile Hindent Hchars s.
    destruct (loadCustomDocs_returns E false s) as (scriptDocs & s' & Hload).
    exists scriptDocs, s'. split; [exact Hload|].
    intros description Hdescription.
    rewrite (nested_hover E s s' scriptDocs document line top scripts
               (entry_line indent name rest) name (VStr command));
      eauto using match_script_key_entry.
    now rewrite (hover_markdown_text E name _ description command).
Qed.

Lemma C1_hover_shows_name_and_command_witness :
  fst (Legacy.provideHover sample_engine Legacy.initial Missing empty_command 4)
  = shows "test" "Runs tests" "jest"
  /\ fst (Nested.provideHover sample_engine empty_command 4
            (Nested.initial, no_docs))
     = shows "test" "No description available." "jest".
Proof.
  pose proof (C1_hover_shows_name_and_command sample_engine empty_command 4
    [("name", VStr "demo");
     ("scripts", VObj [("build", VStr EmptyString); ("test", VStr "jest")])]%string
    [("build", VStr EmptyString); ("test", VStr "jest")]%string
    "    " "test" (dq " 'jest'") "jest"
    eq_refl eq_refl eq_refl
    ltac:(discriminate) ltac:(discriminate) eq_refl) as [Hlegacy Hnested].
  split.
  - now rewrite (Hlegacy eq_refl eq_refl Legacy.initial Missing
                   "Runs tests"%string eq_refl).
  - destruct (Hnested eq_refl eq_refl eq_refl (Nested.initial, no_docs))
      as (scriptDocs & s' & Hload & Hhover).
    injection Hload as <- _.
    now rewrite (Hhover "No description available."%string eq_refl).
Defined.

(** C1 as stated fails in the later provider on a script whose name
    lies outside the character class of its pattern: [build.prod] is a
    key of [scripts] and the line reads ["build.prod": "tsc -p ."], yet
    the provider returns null. *)
Lemma C1_counterexample :
  JSON_parse (getText dotted_name)
  = Some (VObj [("scripts", VObj [("build.prod", VStr "tsc -p .")])])%string
  /\ lineAt dotted_name 2
     = Returns (entry_line "    " "build.prod" (dq " 'tsc -p .'"))
  /\ endsWith (fileName dotted_name) "package.json" = true
  /\ fst (Nested.provideHover sample_engine dotted_name 2
            (Nested.initial, no_docs)) = Returns None.
Proof. vm_compute. repeat split. Qed.

(** C4, at an input where the code departs from it.  Line 1 of
    [shadowed_name] is the top-level member ["name": "demo",], outside
    the [scripts] object; the document has a script called [name], and
    both providers answer the hover over that line with the hover of the
    script, where C4 (and the comment before [provideHover]) says
    null. *)
Lemma C4_hover_outside_scripts :
  lineAt shadowed_name 1 = Returns (entry_line "  " "name" (dq " 'demo',"))
  /\ JSON_parse (getText shadowed_name)
     = Some (VObj [("name", VStr "demo");
                   ("scripts", VObj [("name", VStr "echo demo")])])%string
  /\ fst (Legacy.provideHover sample_engine Legacy.initial Missing
            shadowed_name 1)
     = shows "name" "No description available." "echo demo"
  /\ fst (Nested.provideHover sample_engine shadowed_name 1
            (Nested.initial, no_docs))
     = shows "name" "No description available." "echo demo".
Proof. vm_compute. repeat split. Qed.

(** C6.  When the text of the document is not valid JSON,
    [provideHover] returns null for every position, throws nothing and
    leaves the provider as it was. *)
Theorem C6_invalid_json_no_hover (E : Engine) (document : TextDocument) :
  JSON_parse (getText document) = None ->
  (forall p docsFile line,
     Legacy.provideHover E p docsFile document line = (Returns None, p))
  /\
  (forall s line, Nested.provideHover E document line s = (Returns None, s)).
Proof.
  intros Hparse. split.
  - intros p docsFile line. unfold Legacy.provideHover. now rewrite Hparse.
  - intros s line. unfold Nested.provideHover. rewrite Hparse.
    now destruct (endsWith (fileName document) "package.json").
Qed.

Lemma C6_invalid_json_no_hover_witness :
  let unfinished :=
    package_json [ "{"; "  'scripts': {"; "    'test': 'jest',"; "}" ]%string in
  JSON_parse (getText unfinished) = None
  /\ fst (Legacy.provideHover sample_engine Legacy.initial Missing unfinished 2)
     = Returns None
  /\ fst (Nested.provideHover sample_engine unfinished 2
            (Nested.initial, no_docs)) = Returns None.
Proof.
  intros unfinished.
  destruct (C6_invalid_json_no_hover sample_engine unfinished eq_refl)
    as [Hlegacy Hnested].
  split; [reflexivity|]. split.
  - now rewrite Hlegacy.
  - now rewrite Hnested.
Defined.

End HoverClaims.

(** ** Built-in descriptions and the cache *)

Module CacheClaims.

Lemma read_docs_missing (E : Engine) (s : Nested.State) :
  docsFile (snd s) = Missing ->
  Nested.read_docs E s = (Throws FileNotFound, s).
Proof.
  intros Hfile. destruct s as [p w]. simpl in Hfile.
  unfold Nested.read_docs, seq, Nested.in_world, readDocs. simpl.
  now rewrite Hfile.
Qed.

Lemma read_docs_unloadable (E : Engine) (s : Nested.State) :
  unloadable (docsFile (snd s)) ->
  exists e, e <> FileNotFound /\ Nested.read_docs E s = (Throws e, s).
Proof.
  intros Hfile. destruct s as [p w]. simpl in Hfile.
  unfold Nested.read_docs, seq, Nested.in_world, readDocs, lift,
    JSON_parse_outcome. simpl.
  destruct (docsFile w) as [|m|text]; simpl in *.
  - contradiction.
  - exists (FileSystemFailure m). split; [discriminate | reflexivity].
  - rewrite Hfile. exists (SyntaxError text). split; [discriminate | reflexivity].
Qed.

Lemma nested_load_missing (E : Engine) (p : Nested.Provider) (w : World) :
  Nested.cachedDocs p = None ->
  docsFile w = Missing ->
  Nested.loadCustomDocs E false (p, w) = (Returns None, (p, w)).
Proof.
  intros Hcache Hfile.
  destruct p as [cache]. simpl in Hcache. subst cache.
  destruct (workspaceFolders w) eqn:Hfolders.
  - rewrite loadCustomDocs_miss by (simpl; auto).
    now rewrite read_docs_missing.
  - unfold Nested.loadCustomDocs, seq, read, ret. simpl. now rewrite Hfolders.
Qed.

(** C5, as the code has it.  In a document whose [scripts] object gives
    [test] the command [jest], hovering over the line ["test": "jest"]
    with an empty cache and no documentation file shows the command
    [jest]; the provider with built-in descriptions shows the
    description [Runs tests] and caches the built-in table, the provider
    for the nested file has no built-in table and shows
    [No description available.]. *)
Theorem C5_test_hover_without_docs_file (E : Engine)
    (document : TextDocument) (line : nat)
    (top scripts : list (string * value)) (indent trailing : string) :
  JSON_parse (getText document) = Some (VObj top) ->
  lookup "scripts" top = Some (VObj scripts) ->
  lookup "test" scripts = Some (VStr "jest") ->
  lineAt document line =
    Returns (entry_line indent "test"
               (String " " (String quote ("jest" +++ String quote trailing)))) ->
  white_space indent = true ->
  (forall p,
     Legacy.cachedDocs p = None ->
     Legacy.provideHover E p Missing document line =
     (shows "test" "Runs tests" "jest",
      {| Legacy.cachedDocs := Some Legacy.defaultDocs |}))
  /\
  (forall p w,
     endsWith (fileName document) "package.json" = true ->
     Nested.cachedDocs p = None ->
     docsFile w = Missing ->
     Nested.provideHover E document line (p, w) =
     (shows "test" "No description available." "jest", (p, w))).
Proof.
  intros Hparse Hscripts Htest Hline Hindent.
  split.
  - intros p Hcache.
    erewrite legacy_hover; eauto.
    + unfold legacy_description, Legacy.loadCustomDocs. rewrite Hcache.
      reflexivity.
    + apply match_any_key_entry; [|reflexivity|discriminate].
      now apply white_space_no_quote.
  - intros p w Hfile Hcache Hmissing.
    rewrite (nested_hover E (p, w) (p, w) None document line top scripts _
               "test" (VStr "jest") Hfile Hparse Hline
               (match_script_key_entry indent "test" _ Hindent eq_refl
                  ltac:(discriminate))
               Hscripts Htest eq_refl (nested_load_missing E p w Hcache Hmissing)).
    reflexivity.
Qed.

Lemma C5_test_hover_without_docs_file_witness :
  Legacy.provideHover sample_engine Legacy.initial Missing empty_command 4
  = (shows "test" "Runs tests" "jest",
     {| Legacy.cachedDocs := Some Legacy.defaultDocs |}).
Proof.
  refine (proj1 (C5_test_hover_without_docs_file sample_engine empty_command 4
    [("name", VStr "demo");
     ("scripts", VObj [("build", VStr EmptyString); ("test", VStr "jest")])]%string
    [("build", VStr EmptyString); ("test", VStr "jest")]%string
    "    " EmptyString eq_refl eq_refl eq_refl eq_refl eq_refl)
    Legacy.initial eq_refl).
Defined.

(** C5 as stated fails in the provider for the nested file: with no
    documentation file the description of [test] is
    [No description available.], not [Runs tests]. *)
Lemma C5_counterexample :
  lineAt empty_command 4 = Returns (entry_line "    " "test" (dq " 'jest'"))
  /\ fst (Nested.provideHover sample_engine empty_command 4
            (Nested.initial, no_docs))
     = shows "test" "No description available." "jest"
  /\ fst (Nested.provideHover sample_engine empty_command 4
            (Nested.initial, no_docs))
     <> shows "test" "Runs tests" "jest".
Proof.
  split; [reflexivity|]. split; [vm_compute; reflexivity|].
  vm_compute. discriminate.
Qed.

(** C7, as the code has it.  In the provider for the nested file a load
    that fails on a read error or a parse error returns null and leaves
    the cache empty, as the reload command and the debounced watcher
    event do in both providers.  In the provider with built-in
    descriptions a failed load leaves the built-in table in the
    cache. *)
Theorem C7_cache_after_failed_load (E : Engine) (force : bool) :
  (forall s,
     truthy_opt (Nested.cachedDocs (fst s)) && negb force = false ->
     workspaceFolders (snd s) = true ->
     unloadable (docsFile (snd s)) ->
     exists s',
       Nested.loadCustomDocs E force s = (Returns None, s') /\
       Nested.cachedDocs (fst s') = None)
  /\
  (forall p q notices,
     Nested.cachedDocs
       (fst (Extension.reloadCommand Nested.clearCache (p, notices))) = None /\
     Nested.cachedDocs
       (fst (Extension.clear_and_tell Nested.clearCache tt (p, notices))) = None /\
     Legacy.cachedDocs
       (fst (Extension.reloadCommand Legacy.clearCache (q, notices))) = None /\
     Legacy.cachedDocs
       (fst (Extension.clear_and_tell Legacy.clearCache tt (q, notices))) = None)
  /\
  (forall p docsFile,
     truthy_opt (Legacy.cachedDocs p) && negb force = false ->
     unloadable docsFile ->
     Legacy.loadCustomDocs force p docsFile =
     (Legacy.defaultDocs, {| Legacy.cachedDocs := Some Legacy.defaultDocs |})).
Proof.
  split; [|split].
  - intros s Hmiss Hfolders Hfile.
    rewrite loadCustomDocs_miss by assumption.
    destruct (read_docs_unloadable E s Hfile) as (e & Hne & ->).
    destruct e; try congruence; eexists; split; reflexivity.
  - intros p q notices. repeat split.
  - intros p docsFile Hmiss Hfile.
    assert (Hload : Legacy.load docsFile = Legacy.defaultDocs).
    { unfold Legacy.load, JSON_parse_outcome.
      destruct docsFile as [|m|text]; simpl in *;
        [contradiction | reflexivity | now rewrite Hfile]. }
    unfold Legacy.loadCustomDocs. rewrite Hload.
    destruct (Legacy.cachedDocs p) as [cached|]; [|reflexivity].
    simpl in Hmiss. now rewrite Hmiss.
Qed.

Lemma C7_cache_after_failed_load_witness :
  let broken := Content "{ oops" in
  let w := {| workspaceFolders := true; docsFile := broken;
              writeFailure := None; packageJsonFiles := []; shown := [] |} in
  (exists s',
     Nested.loadCustomDocs sample_engine false (Nested.initial, w)
     = (Returns None, s') /\ Nested.cachedDocs (fst s') = None)
  /\ Legacy.loadCustomDocs false Legacy.initial broken
     = (Legacy.defaultDocs, {| Legacy.cachedDocs := Some Legacy.defaultDocs |}).
Proof.
  intros broken w.
  destruct (C7_cache_after_failed_load sample_engine false)
    as (Hnested & _ & Hlegacy).
  split.
  - exact (Hnested (Nested.initial, w) eq_refl eq_refl eq_refl).
  - exact (Hlegacy Legacy.initial broken eq_refl eq_refl).
Defined.

(** C7 as stated fails in the provider with built-in descriptions: after
    loading a file that is not JSON its cache holds the built-in table,
    it is not empty. *)
Lemma C7_counterexample :
  JSON_parse "{ oops" = None
  /\ Legacy.cachedDocs
       (snd (Legacy.loadCustomDocs false Legacy.initial (Content "{ oops")))
     = Some Legacy.defaultDocs
  /\ Legacy.cachedDocs
       (snd (Legacy.loadCustomDocs false Legacy.initial (Content "{ oops")))
     <> None.
Proof.
  split; [reflexivity|]. split; [reflexivity|].
  vm_compute. discriminate.
Qed.

End CacheClaims.

(** ** The debounced watcher *)

Module DebounceClaims.

Section Watcher.
Context {P : Type} (clearCache : P -> P).

Lemma last_default (rest : list Z) :
  forall z a b, last (z :: rest) a = last (z :: rest) b.
Proof.
  induction rest as [|z' rest IH]; intros z a b; [reflexivity|].
  change (last (z :: z' :: rest) a) with (last (z' :: rest) a).
  change (last (z :: z' :: rest) b) with (last (z' :: rest) b).
  apply IH.
Qed.

Lemma last_cons (t t' : Z) (rest : list Z) :
  last rest t' = last (t' :: rest) t.
Proof.
  destruct rest as [|z rest]; [reflexivity|].
  change (last (t' :: z :: rest) t) with (last (z :: rest) t).
  apply last_default.
Qed.

Lemma event_rearms (n : nat) (t t' : Z) (s : Extension.Session P) :
  (t <= t' < t + 500)%Z ->
  Extension.onDocsFileEvent clearCache t' (armed n t s) = armed (S n) t' s.
Proof.
  intros Hwindow.
  unfold Extension.onDocsFileEvent, Extension.run_due, armed. simpl.
  assert (Hnot_due : (t + 500 <=? t')%Z = false) by (apply Z.leb_gt; lia).
  rewrite Hnot_due. simpl.
  unfold Extension.call, Extension.clearTimeout, Extension.setTimeout. simpl.
  now rewrite Nat.eqb_refl.
Qed.

Lemma burst_rearms (times : list Z) :
  forall n t s,
    within_window t times ->
    Extension.watch clearCache times (armed n t s)
    = armed (n + length times) (last times t) s.
Proof.
  induction times as [|t' rest IH]; intros n t s Hwindow.
  - simpl. now rewrite Nat.add_0_r.
  - destruct Hwindow as [Hfirst Hrest].
    change (Extension.watch clearCache (t' :: rest) (armed n t s))
      with (Extension.watch clearCache rest
              (Extension.onDocsFileEvent clearCache t' (armed n t s))).
    rewrite event_rearms by exact Hfirst.
    rewrite IH by exact Hrest.
    replace (S n + length rest)%nat with (n + length (t' :: rest))%nat
      by (simpl; lia).
    f_equal. apply last_cons.
Qed.

Lemma first_event_arms (t : Z) (s : Extension.Session P) :
  Extension.onDocsFileEvent clearCache t (Extension.fresh s) = armed 0 t s.
Proof. reflexivity. Qed.

Lemma armed_waits (n : nat) (t now : Z) (s : Extension.Session P) :
  (now < t + 500)%Z ->
  Extension.run_due (Extension.clear_and_tell clearCache) now (armed n t s)
  = armed n t s.
Proof.
  intros Hearly. unfold Extension.run_due, armed. simpl.
  assert (Hnot_due : (t + 500 <=? now)%Z = false) by (apply Z.leb_gt; lia).
  now rewrite Hnot_due.
Qed.

Lemma armed_fires (n : nat) (t now : Z) (s : Extension.Session P) :
  (t + 500 <= now)%Z ->
  Extension.run_due (Extension.clear_and_tell clearCache) now (armed n t s)
  = {| Extension.timeout := None;
       Extension.next_id := S n;
       Extension.pending := [];
       Extension.user := Extension.clear_and_tell clearCache tt s |}.
Proof.
  intros Hdue. unfold Extension.run_due, armed. simpl.
  assert (His_due : (t + 500 <=? now)%Z = true) by (apply Z.leb_le; lia).
  now rewrite His_due.
Qed.

(** C8.  A burst of events on the documentation file, each less than
    500 ms after the one before (three of them, or any number), clears
    the cache once and shows one notification: nothing happens until
    500 ms after the last event, every event having replaced the pending
    timer, and then the single remaining timer clears the cache and
    tells so. *)
Theorem C8_burst_clears_cache_once (p : P) (notices : list notice)
    (t : Z) (times : list Z) (now : Z) :
  within_window t times ->
  let watched :=
    Extension.watch clearCache (t :: times) (Extension.fresh (p, notices)) in
  let settled :=
    Extension.run_due (Extension.clear_and_tell clearCache) now watched in
  length (Extension.pending watched) = 1%nat /\
  ((now < last times t + 500)%Z -> Extension.user settled = (p, notices)) /\
  ((last times t + 500 <= now)%Z ->
   Extension.user settled =
     (clearCache p,
      notices ++ [Information "Package Scripts documentation cache reloaded."]) /\
   Extension.pending settled = [] /\
   Extension.timeout settled = None).
Proof.
  intros Hwindow watched settled.
  assert (Hwatched : watched = armed (length times) (last times t) (p, notices)).
  { unfold watched.
    change (Extension.watch clearCache (t :: times)
              (Extension.fresh (p, notices)))
      with (Extension.watch clearCache times
              (Extension.onDocsFileEvent clearCache t
                 (Extension.fresh (p, notices)))).
    rewrite first_event_arms. now rewrite burst_rearms. }
  unfold settled. rewrite Hwatched.
  split; [reflexivity|]. split.
  - intros Hearly. now rewrite armed_waits.
  - intros Hdue. now rewrite armed_fires.
Qed.

End Watcher.

Lemma C8_burst_clears_cache_once_witness :
  let cached := {| Nested.cachedDocs := Some (VObj []) |} in
  let watched :=
    Extension.watch Nested.clearCache [0; 120; 400]%Z
      (Extension.fresh (cached, [])) in
  Extension.user
    (Extension.run_due (Extension.clear_and_tell Nested.clearCache) 899 watched)
  = (cached, [])
  /\ Extension.user
       (Extension.run_due (Extension.clear_and_tell Nested.clearCache) 900 watched)
     = ({| Nested.cachedDocs := None |},
        [Information "Package Scripts documentation cache reloaded."]).
Proof.
  intros cached watched.
  destruct (C8_burst_clears_cache_once Nested.clearCache cached []
              0%Z [120; 400]%Z 899%Z ltac:(simpl; lia))
    as (_ & Hearly & _).
  destruct (C8_burst_clears_cache_once Nested.clearCache cached []
              0%Z [120; 400]%Z 900%Z ltac:(simpl; lia))
    as (_ & _ & Hdue).
  split.
  - apply Hearly. simpl. lia.
  - apply Hdue. simpl. lia.
Defined.

End DebounceClaims.

(** ** Writing and reading back *)

Module RoundTrip.

Lemma value_nested_ind (P : value -> Prop) :
  P VNull ->
  (forall b, P (VBool b)) ->
  (forall n, P (VNum n)) ->
  (forall s, P (VStr s)) ->
  (forall vs, Forall P vs -> P (VArr vs)) ->
  (forall kvs, Forall (fun kv => P (snd kv)) kvs -> P (VObj kvs)) ->
  (forall name, P (VBuiltin name)) ->
  forall v, P v.
Proof.
  intros Hnull Hbool Hnum Hstr Harr Hobj Hbuiltin.
  fix IH 1.
  intros [|b|n|s|vs|kvs|name].
  - exact Hnull.
  - apply Hbool.
  - apply Hnum.
  - apply Hstr.
  - apply Harr.
    induction vs as [|x rest IHrest]; constructor; [apply IH | exact IHrest].
  - apply Hobj.
    induction kvs as [|[k x] rest IHrest]; constructor;
      [apply IH | exact IHrest].
  - apply Hbuiltin.
Qed.

Ltac div_lia := zify; Z.to_euclidean_division_equations; lia.

Lemma surrogate_bytes (a b c : ascii) (n : N) :
  surrogate a b c = Some n ->
  a = "237"%char /\ (160 <= code b <= 191)%N /\ (128 <= code c <= 191)%N /\
  n = (53248 + (code b - 128) * 64 + (code c - 128))%N.
Proof.
  unfold surrogate, in_range.
  destruct (Ascii.eqb_spec a "237") as [->|]; [|discriminate].
  destruct ((160 <=? code b)%N) eqn:H1; [|discriminate].
  destruct ((code b <=? 191)%N) eqn:H2; [|discriminate].
  destruct ((128 <=? code c)%N) eqn:H3; [|discriminate].
  destruct ((code c <=? 191)%N) eqn:H4; [|discriminate].
  cbn. intros [= <-].
  apply N.leb_le in H1, H2, H3, H4. repeat split; assumption.
Qed.

Lemma utf8_surrogate (a b c : ascii) (n : N) :
  surrogate a b c = Some n ->
  utf8 n = String a (String b (String c EmptyString)).
Proof.
  intros H. destruct (surrogate_bytes a b c n H) as (-> & Hb & Hc & Hn).
  unfold utf8.
  assert (H1 : (n <? 128)%N = false) by (apply N.ltb_ge; lia).
  assert (H2 : (n <? 2048)%N = false) by (apply N.ltb_ge; lia).
  assert (H3 : (n <? 65536)%N = true) by (apply N.ltb_lt; lia).
  rewrite H1, H2, H3.
  assert (E1 : (224 + n / 4096 = 237)%N) by div_lia.
  assert (E2 : (128 + (n / 64) mod 64 = code b)%N) by div_lia.
  assert (E3 : (128 + n mod 64 = code c)%N) by div_lia.
  rewrite E1, E2, E3. unfold code. now rewrite !ascii_N_embedding.
Qed.

Lemma hex_digit_value (d : N) :
  (d < 16)%N -> hex_value (hex_digit d) = Some d.
Proof.
  intros H.
  assert (Hcases : In d [0;1;2;3;4;5;6;7;8;9;10;11;12;13;14;15]%N).
  { cbn. lia. }
  cbn in Hcases.
  repeat (destruct Hcases as [<-|Hcases]; [reflexivity|]). contradiction.
Qed.

Lemma hex4_escape_unit (n : N) (tail : string) :
  (n < 65536)%N ->
  exists h1 h2 h3 h4,
    escape_unit n +++ tail
    = String backslash (String "u" (String h1 (String h2 (String h3 (String h4 tail)))))
    /\ hex4 h1 h2 h3 h4 = Some n.
Proof.
  intros Hn. unfold escape_unit. cbn [append].
  eexists _, _, _, _. split; [reflexivity|].
  unfold hex4.
  rewrite !hex_digit_value by div_lia.
  f_equal. div_lia.
Qed.

Lemma low_escape_not_high (n : N) (s : string) :
  is_high_surrogate n = false -> low_escape n s = None.
Proof.
  intros H. unfold low_escape.
  destruct s as [|b [|u [|k1 [|k2 [|k3 [|k4 r]]]]]]; try reflexivity.
  now rewrite H.
Qed.

Lemma control_escape (c : ascii) :
  (code c <? 32)%N = true ->
  hex4 "0" "0" (hex_digit (code c / 16)) (hex_digit (code c mod 16))
  = Some (code c) /\
  utf8 (code c) = String c EmptyString /\
  is_high_surrogate (code c) = false.
Proof.
  destruct c as [[|] [|] [|] [|] [|] [|] [|] [|]]; vm_compute;
    intros; try discriminate; repeat split.
Qed.

(** A byte that stands for itself in a string literal. *)
Lemma parse_chars_plain (c : ascii) (r : string) :
  (c =? quote)%char = false -> (c =? backslash)%char = false ->
  (code c <? 32)%N = false ->
  parse_chars (String c r) = prepend (String c EmptyString) (parse_chars r).
Proof. intros H1 H2 H3. now rewrite parse_chars_step, H1, H2, H3. Qed.

Lemma parse_escape_char (c : ascii) (tail : string) :
  parse_chars (escape_char c +++ tail)
  = prepend (String c EmptyString) (parse_chars tail).
Proof.
  unfold escape_char.
  destruct (Ascii.eqb_spec c quote) as [->|Hq]; [reflexivity|].
  destruct (Ascii.eqb_spec c backslash) as [->|Hb]; [reflexivity|].
  destruct (Ascii.eqb_spec c "008") as [->|]; [reflexivity|].
  destruct (Ascii.eqb_spec c "012") as [->|]; [reflexivity|].
  destruct (Ascii.eqb_spec c "010") as [->|]; [reflexivity|].
  destruct (Ascii.eqb_spec c "013") as [->|]; [reflexivity|].
  destruct (Ascii.eqb_spec c "009") as [->|]; [reflexivity|].
  destruct (code c <? 32)%N eqn:Hc.
  - destruct (control_escape c Hc) as (Hhex & Hutf & Hhigh).
    cbn [append]. rewrite parse_chars_step. cbn [Ascii.eqb Bool.eqb].
    now rewrite Hhex, (low_escape_not_high _ _ Hhigh), Hutf.
  - cbn [append]. apply parse_chars_plain; [| |exact Hc].
    + now apply Ascii.eqb_neq.
    + now apply Ascii.eqb_neq.
Qed.

Lemma surrogate_range (a b c : ascii) (n : N) :
  surrogate a b c = Some n ->
  (n < 65536)%N /\ is_low_surrogate n = negb (is_high_surrogate n).
Proof.
  intros H. destruct (surrogate_bytes a b c n H) as (_ & Hb & Hc & ->).
  split; [lia|].
  unfold is_low_surrogate, is_high_surrogate.
  destruct (N.leb_spec 55296 (53248 + (code b - 128) * 64 + (code c - 128)));
    destruct (N.leb_spec (53248 + (code b - 128) * 64 + (code c - 128)) 56319);
    destruct (N.leb_spec 56320 (53248 + (code b - 128) * 64 + (code c - 128)));
    destruct (N.leb_spec (53248 + (code b - 128) * 64 + (code c - 128)) 57343);
    cbn; try reflexivity; lia.
Qed.

Lemma low_escape_head (n : N) (c : ascii) (r : string) :
  (c =? backslash)%char = false -> low_escape n (String c r) = None.
Proof.
  intros H. unfold low_escape.
  destruct r as [|u [|k1 [|k2 [|k3 [|k4 r]]]]]; try reflexivity.
  now rewrite H, Bool.andb_false_r.
Qed.

Lemma low_escape_second (n : N) (u : ascii) (r : string) :
  (u =? "u")%char = false -> low_escape n (String backslash (String u r)) = None.
Proof.
  intros H. unfold low_escape.
  destruct r as [|k1 [|k2 [|k3 [|k4 r]]]]; try reflexivity.
  now rewrite H, Bool.andb_false_r.
Qed.

Lemma low_escape_unit (n m : N) (h1 h2 h3 h4 : ascii) (r : string) :
  hex4 h1 h2 h3 h4 = Some m -> is_low_surrogate m = false ->
  low_escape n (String backslash (String "u"
                  (String h1 (String h2 (String h3 (String h4 r)))))) = None.
Proof.
  intros Hhex Hlow. unfold low_escape. rewrite Hhex, Hlow.
  now destruct (_ && _).
Qed.

Lemma escape_char_no_low (n : N) (c : ascii) (tail : string) :
  low_escape n (escape_char c +++ tail) = None.
Proof.
  unfold escape_char.
  destruct (Ascii.eqb_spec c quote) as [->|Hq];
    [now apply low_escape_second|].
  destruct (Ascii.eqb_spec c backslash) as [->|Hb];
    [now apply low_escape_second|].
  destruct (Ascii.eqb_spec c "008") as [->|]; [now apply low_escape_second|].
  destruct (Ascii.eqb_spec c "012") as [->|]; [now apply low_escape_second|].
  destruct (Ascii.eqb_spec c "010") as [->|]; [now apply low_escape_second|].
  destruct (Ascii.eqb_spec c "013") as [->|]; [now apply low_escape_second|].
  destruct (Ascii.eqb_spec c "009") as [->|]; [now apply low_escape_second|].
  destruct (code c <? 32)%N eqn:Hc.
  - destruct (control_escape c Hc) as (Hhex & _ & _).
    cbn [append]. apply (low_escape_unit n (code c)); [exact Hhex|].
    unfold is_low_surrogate. apply N.ltb_lt in Hc.
    destruct (N.leb_spec 56320 (code c)); [lia | reflexivity].
  - cbn [append]. apply low_escape_head. now apply Ascii.eqb_neq.
Qed.

(** One step of [escape]. *)
Lemma escape_step (a : ascii) (r : string) :
  escape (String a r) =
  match r with
  | String b (String c r3) =>
      match surrogate a b c with
      | Some n =>
          if is_high_surrogate n && starts_low r3 then
            match r3 with
            | String a' (String b' (String c' r6)) =>
                String a (String b (String c
                  (String a' (String b' (String c' (escape r6))))))
            | _ => EmptyString
            end
          else escape_unit n +++ escape r3
      | None => escape_char a +++ escape r
      end
  | _ => escape_char a +++ escape r
  end.
Proof.
  cbn [escape].
  destruct r as [|b [|c r3]]; try reflexivity.
  destruct (surrogate a b c) as [n|]; [|reflexivity].
  destruct (is_high_surrogate n); [|reflexivity].
  cbn [andb]. unfold starts_low.
  destruct r3 as [|a' [|b' [|c' r6]]]; try reflexivity.
  destruct (surrogate a' b' c') as [m|]; [|reflexivity].
  destruct (is_low_surrogate m); reflexivity.
Qed.

(** What is written for a text that does not start with a low
    surrogate does not start with the escape of one. *)
Lemma escape_no_low (n : N) (s tail : string) :
  starts_low s = false ->
  low_escape n (escape s +++ String quote tail) = None.
Proof.
  intros Hs.
  destruct s as [|a r].
  - cbn [escape append]. now apply low_escape_head.
  - rewrite escape_step.
    assert (Hplain : low_escape n ((escape_char a +++ escape r) +++ String quote tail)
                     = None).
    { rewrite append_assoc. apply escape_char_no_low. }
    destruct r as [|b [|c r3]]; try exact Hplain.
    destruct (surrogate a b c) as [k|] eqn:Hk; [|exact Hplain].
    destruct (surrogate_bytes a b c k Hk) as (-> & _ & _ & _).
    destruct (surrogate_range _ _ _ _ Hk) as [Hlt Hlow].
    destruct (is_high_surrogate k && starts_low r3) eqn:Hpair.
    + destruct r3 as [|a' [|b' [|c' r6]]]; try discriminate Hpair;
        try (rewrite Bool.andb_false_r in Hpair; discriminate Hpair).
      cbn [append]. now apply low_escape_head.
    + destruct (hex4_escape_unit k (escape r3 +++ String quote tail) Hlt)
        as (h1 & h2 & h3 & h4 & Heq & Hhex).
      rewrite append_assoc, Heq.
      apply (low_escape_unit n k); [exact Hhex|].
      cbn [starts_low] in Hs. rewrite Hk in Hs. exact Hs.
Qed.

(** A written string literal reads back as the string. *)
Lemma parse_quoted (s rest : string) :
  parse_chars (escape s +++ String quote rest) = Some (s, rest).
Proof.
  remember (String.length s) as n eqn:Hn. revert s Hn.
  induction n as [n IH] using lt_wf_ind. intros s Hn.
  destruct s as [|a r]; [reflexivity|].
  cbn [String.length] in Hn.
  assert (Hplain : parse_chars ((escape_char a +++ escape r) +++ String quote rest)
                   = Some (String a r, rest)).
  { rewrite append_assoc, parse_escape_char.
    now rewrite (IH (String.length r) ltac:(lia) r eq_refl). }
  rewrite escape_step.
  destruct r as [|b [|c r3]]; try exact Hplain.
  destruct (surrogate a b c) as [k|] eqn:Hk; [|exact Hplain].
  cbn [String.length] in Hn.
  destruct (is_high_surrogate k && starts_low r3) eqn:Hpair.
  - destruct r3 as [|a' [|b' [|c' r6]]]; try discriminate Hpair;
      try (rewrite Bool.andb_false_r in Hpair; discriminate Hpair).
    cbn [String.length] in Hn.
    apply Bool.andb_true_iff in Hpair. destruct Hpair as [_ Hlow].
    cbn [starts_low] in Hlow.
    destruct (surrogate a' b' c') as [m|] eqn:Hm; [|discriminate].
    destruct (surrogate_bytes _ _ _ _ Hk) as (-> & Hb & Hc & _).
    destruct (surrogate_bytes _ _ _ _ Hm) as (-> & Hb' & Hc' & _).
    assert (Hbyte : forall x tail,
              (128 <= code x)%N ->
              parse_chars (String x tail)
              = prepend (String x EmptyString) (parse_chars tail)).
    { intros x tail Hx. apply parse_chars_plain.
      - apply Ascii.eqb_neq. intros ->. vm_compute in Hx. now apply Hx.
      - apply Ascii.eqb_neq. intros ->. vm_compute in Hx. now apply Hx.
      - apply N.ltb_ge. lia. }
    cbn [append].
    rewrite !Hbyte by (try lia; vm_compute; discriminate).
    now rewrite (IH (String.length r6) ltac:(lia) r6 eq_refl).
  - destruct (surrogate_range _ _ _ _ Hk) as [Hlt _].
    destruct (hex4_escape_unit k (escape r3 +++ String quote rest) Hlt)
      as (h1 & h2 & h3 & h4 & Heq & Hhex).
    rewrite append_assoc, Heq, parse_chars_step.
    cbn [Ascii.eqb Bool.eqb quote backslash]. rewrite Hhex.
    assert (Halone : low_escape k (escape r3 +++ String quote rest) = None).
    { destruct (is_high_surrogate k) eqn:Hhigh.
      - cbn [andb] in Hpair. now apply escape_no_low.
      - now apply low_escape_not_high. }
    rewrite Halone.
    rewrite (IH (String.length r3) ltac:(lia) r3 eq_refl).
    cbn [prepend]. now rewrite (utf8_surrogate _ _ _ _ Hk).
Qed.

Lemma blank_app (a b : string) : blank a -> blank b -> blank (a +++ b).
Proof.
  unfold blank. induction a as [|c a IH]; simpl; [auto|].
  rewrite !Bool.andb_true_iff. intros [Hc Ha] Hb. auto.
Qed.

Lemma blank_newline : blank newline.
Proof. reflexivity. Qed.

Lemma blank_inner (indent : string) : blank indent -> blank (indent +++ "  ").
Proof. intros H. apply blank_app; [exact H | reflexivity]. Qed.

Lemma skip_blank (ws : string) (c : ascii) (rest : string) :
  blank ws -> is_json_ws c = false ->
  skip_ws (ws +++ String c rest) = String c rest.
Proof. intros Hws Hc. now apply skip_run. Qed.


Section WithEngine.
Context (E : Engine).

Lemma join_cons (separator x : string) (rest : list string) :
  rest <> [] ->
  join separator (x :: rest) = x +++ separator +++ join separator rest.
Proof. destruct rest; [congruence | reflexivity]. Qed.

Lemma skip_ws_stop (c : ascii) (r : string) :
  is_json_ws c = false -> skip_ws (String c r) = String c r.
Proof. intros H. unfold skip_ws. simpl. now rewrite H. Qed.

Lemma elements_read_back (vs : list value) :
  Forall (reads_back E) vs ->
  forall inner indent more acc ws rest,
    blank inner -> blank indent -> blank ws ->
    vs <> [] ->
    length vs + list_max (map height vs) <= more ->
    parse_elements more
      (ws +++ join (separator inner) (map (item_text E inner) vs) +++
       newline +++ indent +++ String "]" rest) acc
    = Some (VArr (acc ++ vs), rest).
Proof.
  induction 1 as [|x vs Hx Hvs IH];
    intros inner indent more acc ws rest Hinner Hindent Hws Hne Hfuel;
    [congruence|].
  destruct more as [|more]; [simpl in Hfuel; lia|].
  destruct (Hx inner Hinner) as (t & Ht & _ & Hread).
  assert (Hitem : item_text E inner x = t) by (unfold item_text; now rewrite Ht).
  simpl in Hfuel.
  destruct vs as [|y ys].
  - cbn [map join parse_elements]. rewrite Hitem.
    rewrite Hread by (assumption || lia).
    rewrite <- append_assoc.
    rewrite skip_blank by (reflexivity || (apply blank_app; [apply blank_newline | exact Hindent])).
    reflexivity.
  - change (map (item_text E inner) (x :: y :: ys))
      with (item_text E inner x :: map (item_text E inner) (y :: ys)).
    rewrite join_cons by discriminate.
    cbn [parse_elements]. rewrite Hitem.
    rewrite !append_assoc.
    rewrite Hread by (assumption || lia).
    unfold separator at 1.
    cbn [append]. rewrite skip_ws_stop by reflexivity.
    cbn [Ascii.eqb Bool.eqb].
    rewrite IH;
      [ now rewrite <- app_assoc
      | assumption
      | assumption
      | apply blank_app; [apply blank_newline | exact Hinner]
      | discriminate
      | simpl in *; lia ].
Qed.

Lemma define_fresh (acc : list (string * value)) (k : string) (v : value) :
  ~ In k (keys acc) -> define acc k v = acc ++ [(k, v)].
Proof.
  induction acc as [|[k0 v0] acc IH]; simpl; intros Hout; [reflexivity|].
  destruct (String.eqb_spec k k0) as [->|Hne]; [tauto|].
  rewrite IH by tauto. reflexivity.
Qed.

Lemma fresh_key (acc rest : list (string * value)) (k : string) (x : value) :
  NoDup (keys (acc ++ (k, x) :: rest)) -> ~ In k (keys acc).
Proof.
  unfold keys. rewrite map_app. simpl. intros Hnd Hin.
  apply NoDup_remove_2 in Hnd. apply Hnd. apply in_or_app. now left.
Qed.

Ltac flatten_text :=
  repeat first [rewrite append_assoc | progress cbn [append]].

Lemma members_read_back (kvs : list (string * value)) :
  Forall (fun kv => reads_back E (snd kv)) kvs ->
  forall inner indent more acc ws rest,
    blank inner -> blank indent -> blank ws ->
    kvs <> [] ->
    NoDup (keys (acc ++ kvs)) ->
    length kvs + list_max (map (fun kv => height (snd kv)) kvs) <= more ->
    parse_members more
      (ws +++ join (separator inner) (map (member_text E inner) kvs) +++
       newline +++ indent +++ String "}" rest) acc
    = Some (VObj (acc ++ kvs), rest).
Proof.
  induction 1 as [|[k x] kvs Hx Hkvs IH];
    intros inner indent more acc ws rest Hinner Hindent Hws Hne Hnd Hfuel;
    [congruence|].
  destruct more as [|more]; [simpl in Hfuel; lia|].
  simpl in Hx.
  destruct (Hx inner Hinner) as (t & Ht & _ & Hread).
  assert (Hitem : item_text E inner x = t) by (unfold item_text; now rewrite Ht).
  pose proof (fresh_key _ _ _ _ Hnd) as Hfresh.
  simpl in Hfuel.
  destruct kvs as [|kv kvs'].
  - cbn [map join parse_members]. unfold member_text, quoted. cbn [fst snd].
    rewrite Hitem. flatten_text.
    rewrite skip_blank by (assumption || reflexivity).
    rewrite Ascii.eqb_refl, parse_quoted.
    rewrite skip_ws_stop by reflexivity.
    cbn [Ascii.eqb Bool.eqb].
    change (String " " (t +++ newline +++ indent +++ String "}" rest))
      with (" " +++ t +++ newline +++ indent +++ String "}" rest).
    rewrite Hread by (reflexivity || lia).
    rewrite <- append_assoc.
    rewrite skip_blank
      by (reflexivity || (apply blank_app; [apply blank_newline | exact Hindent])).
    cbn [Ascii.eqb Bool.eqb].
    now rewrite define_fresh.
  - change (map (member_text E inner) ((k, x) :: kv :: kvs'))
      with (member_text E inner (k, x) :: map (member_text E inner) (kv :: kvs')).
    rewrite join_cons by discriminate.
    cbn [parse_members]. unfold member_text at 1. unfold quoted. cbn [fst snd].
    rewrite Hitem. flatten_text.
    rewrite skip_blank by (assumption || reflexivity).
    rewrite Ascii.eqb_refl, parse_quoted.
    rewrite skip_ws_stop by reflexivity.
    cbn [Ascii.eqb Bool.eqb].
    match goal with
    | |- context [parse_value more (String " " (t +++ ?R))] =>
        change (String " " (t +++ R)) with (" " +++ t +++ R)
    end.
    rewrite Hread by (reflexivity || lia).
    unfold separator at 1. cbn [append].
    rewrite skip_ws_stop by reflexivity.
    cbn [Ascii.eqb Bool.eqb].
    rewrite define_fresh by exact Hfresh.
    rewrite IH;
      [ now rewrite <- app_assoc
      | assumption
      | assumption
      | apply blank_app; [apply blank_newline | exact Hinner]
      | discriminate
      | now rewrite <- app_assoc
      | simpl in *; lia ].
Qed.

Lemma textual_elements (vs : list value) :
  textual (VArr vs) -> Forall textual vs.
Proof.
  simpl. induction vs as [|x vs IH]; simpl; intros H; constructor; tauto.
Qed.

Lemma textual_members (kvs : list (string * value)) :
  textual (VObj kvs) ->
  NoDup (keys kvs) /\ Forall (fun kv => textual (snd kv)) kvs.
Proof.
  simpl. intros [Hnd H]. split; [exact Hnd|].
  induction kvs as [|kv kvs IH]; simpl in *; constructor.
  - tauto.
  - apply IH; [now inversion Hnd | tauto].
Qed.

Lemma flat_map_members (inner : string) (kvs : list (string * value)) :
  blank inner ->
  Forall (fun kv => reads_back E (snd kv)) kvs ->
  flat_map (fun kv =>
              match stringify_at E inner (snd kv) with
              | Some t => [quoted (fst kv) +++ ": " +++ t]
              | None => []
              end) kvs
  = map (member_text E inner) kvs.
Proof.
  intros Hinner. induction 1 as [|[k x] kvs Hx Hkvs IH]; [reflexivity|].
  destruct (Hx inner Hinner) as (t & Ht & _).
  cbn [flat_map map fst snd] in *. rewrite Ht, IH.
  change (member_text E inner (k, x)) with (quoted k +++ ": " +++ item_text E inner x).
  unfold item_text. now rewrite Ht.
Qed.

Lemma item_head (inner : string) (x : value) :
  blank inner -> reads_back E x ->
  exists c t', item_text E inner x = String c t' /\ is_json_ws c = false /\
               (c =? "]") = false.
Proof.
  intros Hinner Hx. destruct (Hx inner Hinner) as (t & Ht & Hhead & _).
  unfold item_text. now rewrite Ht.
Qed.

Lemma member_head (inner : string) (kv : string * value) :
  exists t', member_text E inner kv = String quote t'.
Proof. unfold member_text, quoted. cbn [append]. eauto. Qed.

Lemma join_head (separator0 : string) (c : ascii) (t' : string)
    (rest : list string) :
  exists tail, join separator0 (String c t' :: rest) = String c tail.
Proof. destruct rest; simpl; eauto. Qed.

(** Writing a textual value and reading the text gives the value
    back. *)
Lemma textual_reads_back (v : value) : textual v -> reads_back E v.
Proof.
  induction v as [|b|n|s|vs IH|kvs IH|name] using value_nested_ind;
    intros Htext indent Hindent; try contradiction.
  - exists "null"%string. split; [reflexivity|]. split.
    + eexists _, _. repeat split.
    + intros more ws rest Hfuel Hws.
      destruct more as [|more]; [simpl in Hfuel; lia|].
      cbn [parse_value append].
      rewrite skip_blank by (assumption || reflexivity). reflexivity.
  - destruct b.
    + exists "true"%string. split; [reflexivity|]. split.
      * eexists _, _. repeat split.
      * intros more ws rest Hfuel Hws.
        destruct more as [|more]; [simpl in Hfuel; lia|].
        cbn [parse_value append].
        rewrite skip_blank by (assumption || reflexivity). reflexivity.
    + exists "false"%string. split; [reflexivity|]. split.
      * eexists _, _. repeat split.
      * intros more ws rest Hfuel Hws.
        destruct more as [|more]; [simpl in Hfuel; lia|].
        cbn [parse_value append].
        rewrite skip_blank by (assumption || reflexivity). reflexivity.
  - exists (quoted s). split; [reflexivity|]. split.
    + eexists _, _. repeat split.
    + intros more ws rest Hfuel Hws.
      destruct more as [|more]; [simpl in Hfuel; lia|].
      unfold quoted. flatten_text. cbn [parse_value].
      rewrite skip_blank by (assumption || reflexivity).
      cbn [Ascii.eqb Bool.eqb quote]. fold quote.
      now rewrite parse_quoted.
  - assert (Hvs : Forall (reads_back E) vs).
    { apply textual_elements in Htext.
      rewrite Forall_forall in *. auto. }
    destruct vs as [|x xs].
    + exists "[]"%string. split; [reflexivity|]. split.
      * eexists _, _. repeat split.
      * intros more ws rest Hfuel Hws.
        destruct more as [|more]; [simpl in Hfuel; lia|].
        cbn [parse_value append].
        rewrite skip_blank by (assumption || reflexivity). reflexivity.
    + pose proof (blank_inner indent Hindent) as Hinner.
      cbn [stringify_at].
      remember (indent +++ "  ") as inner eqn:Einner.
      change (map _ (x :: xs)) with (map (item_text E inner) (x :: xs)).
      change ("," +++ newline +++ inner) with (separator inner).
      cbn [map]. eexists. split; [reflexivity|]. split.
      * eexists _, _. repeat split.
      * intros more ws rest Hfuel Hws.
        destruct more as [|more]; [simpl in Hfuel; lia|].
        flatten_text. cbn [parse_value].
        rewrite skip_blank by (assumption || reflexivity).
        cbn [Ascii.eqb Bool.eqb].
        destruct (item_head inner x Hinner (Forall_inv Hvs))
          as (c & t' & Hitem & Hc & Hclose).
        destruct (join_head (separator inner) c t' (map (item_text E inner) xs))
          as (tail & Hjoin).
        assert (Hskip :
          skip_ws (newline +++ inner +++
                   join (separator inner) (item_text E inner x :: map (item_text E inner) xs) +++
                   newline +++ indent +++ String "]" rest)
          = String c (tail +++ newline +++ indent +++ String "]" rest)).
        { rewrite Hitem, Hjoin. cbn [append].
          rewrite <- (append_assoc newline).
          apply skip_blank; [|exact Hc].
          apply blank_app; [apply blank_newline | exact Hinner]. }
        rewrite Hskip, Hclose.
        rewrite <- (append_assoc newline).
        apply (elements_read_back (x :: xs) Hvs inner indent
                 more [] (newline +++ inner) rest Hinner Hindent
                 (blank_app _ _ blank_newline Hinner));
          [discriminate | simpl in *; lia].
  - destruct (textual_members _ Htext) as [Hnd Hall].
    assert (Hkvs : Forall (fun kv => reads_back E (snd kv)) kvs).
    { rewrite Forall_forall in *. auto. }
    pose proof (blank_inner indent Hindent) as Hinner.
    destruct kvs as [|[k x] kvs'].
    + exists "{}"%string. split; [reflexivity|]. split.
      * eexists _, _. repeat split.
      * intros more ws rest Hfuel Hws.
        destruct more as [|more]; [simpl in Hfuel; lia|].
        cbn [parse_value append].
        rewrite skip_blank by (assumption || reflexivity). reflexivity.
    + cbn [stringify_at].
      remember (indent +++ "  ") as inner eqn:Einner.
      rewrite (flat_map_members inner _ Hinner Hkvs).
      change ("," +++ newline +++ inner) with (separator inner).
      cbn [map]. eexists. split; [reflexivity|]. split.
      * eexists _, _. repeat split.
      * intros more ws rest Hfuel Hws.
        destruct more as [|more]; [simpl in Hfuel; lia|].
        flatten_text. cbn [parse_value].
        rewrite skip_blank by (assumption || reflexivity).
        cbn [Ascii.eqb Bool.eqb].
        destruct (member_head inner (k, x)) as (mt & Hmember).
        destruct (join_head (separator inner) quote mt
                    (map (member_text E inner) kvs')) as (tail & Hjoin).
        assert (Hskip :
          skip_ws (newline +++ inner +++
                   join (separator inner)
                     (member_text E inner (k, x) :: map (member_text E inner) kvs') +++
                   newline +++ indent +++ String "}" rest)
          = String quote (tail +++ newline +++ indent +++ String "}" rest)).
        { rewrite Hmember, Hjoin. cbn [append].
          rewrite <- (append_assoc newline).
          apply skip_blank; [|reflexivity].
          apply blank_app; [apply blank_newline | exact Hinner]. }
        rewrite Hskip. cbn [Ascii.eqb Bool.eqb quote].
        rewrite <- (append_assoc newline).
        apply (members_read_back ((k, x) :: kvs') Hkvs inner indent
                 more [] (newline +++ inner) rest Hinner Hindent
                 (blank_app _ _ blank_newline Hinner));
          [discriminate | exact Hnd | simpl in *; lia].
Qed.

(** [JSON.parse(JSON.stringify(v, null, 2))] is [v] for a textual
    value. *)
Theorem stringify_parse (v : value) (text : string) :
  textual v ->
  JSON_stringify E v = Some text ->
  JSON_parse text = Some v.
Proof.
  intros Htext Hstringify.
  destruct (textual_reads_back v Htext EmptyString eq_refl)
    as (t & Ht & _ & Hread).
  unfold JSON_stringify in Hstringify. rewrite Ht in Hstringify.
  injection Hstringify as ->.
  unfold JSON_parse.
  rewrite <- (parse_fuel_enough text
                (Nat.max (S (2 * String.length text)) (height v)))
    by lia.
  specialize (Hread (Nat.max (S (2 * String.length text)) (height v))
                EmptyString EmptyString ltac:(lia) eq_refl).
  cbn [append] in Hread. rewrite append_empty in Hread.
  now rewrite Hread.
Qed.

End WithEngine.

End RoundTrip.

(** ** The nested structure *)

Module MigrationFacts.

Import RoundTrip.

Lemma substring_all (s : string) : substring 0 (String.length s) s = s.
Proof. induction s as [|c r IH]; simpl; congruence. Qed.

Lemma length_append (a b : string) :
  String.length (a +++ b) = String.length a + String.length b.
Proof. induction a as [|c a IH]; simpl; congruence. Qed.

Lemma substring_skip (a b : string) :
  substring (String.length a) (String.length b) (a +++ b) = b.
Proof.
  induction a as [|c a IH]; simpl; [apply substring_all | exact IH].
Qed.

Lemma endsWith_append (a b : string) : endsWith (a +++ b) b = true.
Proof.
  unfold endsWith. rewrite length_append.
  replace (String.length a + String.length b - String.length b)
    with (String.length a) by lia.
  rewrite substring_skip, String.eqb_refl.
  apply Bool.andb_true_iff. split; [|reflexivity].
  apply Nat.leb_le. lia.
Qed.

(** The relative path of a package file names nothing that an object
    inherits, and it is not [__proto__]. *)
Lemma relative_not_inherited (f : PackageFile) :
  inherited (asRelativePath f) = None /\
  String.eqb (asRelativePath f) "__proto__" = false.
Proof.
  pose proof (endsWith_append (folder f) "package.json") as Hends.
  fold (asRelativePath f) in Hends.
  assert (Hneq : forall name,
            endsWith name "package.json" = false ->
            String.eqb (asRelativePath f) name = false).
  { intros name Hname.
    destruct (String.eqb_spec (asRelativePath f) name) as [Heq|]; [|reflexivity].
    rewrite Heq in Hends. congruence. }
  unfold inherited, Object_prototype_methods. cbn [existsb].
  rewrite !Hneq by reflexivity. split; reflexivity.
Qed.

Lemma in_lookup (kvs : list (string * value)) (k : string) (v : value) :
  NoDup (keys kvs) -> In (k, v) kvs -> lookup k kvs = Some v.
Proof.
  induction kvs as [|[k0 v0] rest IH]; simpl; intros Hnd Hin; [contradiction|].
  inversion Hnd as [|? ? Hout Hrest]; subst.
  destruct Hin as [Heq|Hin].
  - injection Heq as -> ->. now rewrite String.eqb_refl.
  - destruct (String.eqb_spec k k0) as [->|]; [|now apply IH].
    exfalso. apply Hout. change k0 with (fst (k0, v)). now apply in_map.
Qed.

Section WithEngine.
Context (E : Engine).

Lemma migrate_from (rawDocs : value) (files : list PackageFile) :
  forall members,
    nested_over rawDocs members ->
    exists members',
      fold_left
        (fun newStructure fileUri =>
           let relativePath := asRelativePath fileUri in
           if negb (String.eqb relativePath "package.json") &&
              negb (truthy_opt (get E newStructure relativePath))
           then assign newStructure relativePath (VObj [])
           else newStructure)
        files (VObj members) = VObj members' /\
      nested_over rawDocs members' /\
      forall path,
        path <> "package.json"%string ->
        lookup path members' =
        match lookup path members with
        | Some v => Some v
        | None => if found path files then Some (VObj []) else None
        end.
Proof.
  induction files as [|f files IH]; intros members Hinv.
  - exists members. split; [reflexivity|]. split; [exact Hinv|].
    intros path _. now destruct (lookup path members).
  - cbn [fold_left].
    destruct (relative_not_inherited f) as [Hinh Hproto].
    destruct Hinv as (Hnd & Hroot & Hothers).
    destruct (String.eqb_spec (asRelativePath f) "package.json") as [Hrel|Hrel].
    + cbn [negb andb].
      destruct (IH members (conj Hnd (conj Hroot Hothers)))
        as (members' & Hfold & Hinv' & Hlookup).
      exists members'. split; [exact Hfold|]. split; [exact Hinv'|].
      intros path Hpath. rewrite (Hlookup path Hpath).
      destruct (lookup path members); [reflexivity|].
      unfold found. cbn [map existsb].
      destruct (String.eqb_spec path (asRelativePath f)); [congruence|].
      reflexivity.
    + cbn [negb andb]. rewrite get_plain, Hinh.
      destruct (lookup (asRelativePath f) members) as [v|] eqn:Hhere.
      * rewrite (Hothers _ _ Hrel Hhere). cbn [truthy_opt truthy negb].
        destruct (IH members (conj Hnd (conj Hroot Hothers)))
          as (members' & Hfold & Hinv' & Hlookup).
        exists members'. split; [exact Hfold|]. split; [exact Hinv'|].
        intros path Hpath. rewrite (Hlookup path Hpath).
        destruct (lookup path members) eqn:Hp; [reflexivity|].
        unfold found. cbn [map existsb].
        destruct (String.eqb_spec path (asRelativePath f)); [congruence|].
        reflexivity.
      * cbn [truthy_opt negb]. unfold assign. rewrite Hproto.
        destruct (IH (define members (asRelativePath f) (VObj [])))
          as (members' & Hfold & Hinv' & Hlookup).
        { split; [now apply define_unique|]. split.
          - rewrite lookup_define.
            destruct (String.eqb_spec "package.json" (asRelativePath f));
              [congruence | exact Hroot].
          - intros path v Hpath. rewrite lookup_define.
            destruct (String.eqb path (asRelativePath f)); [congruence|].
            now apply Hothers. }
        exists members'. split; [exact Hfold|]. split; [exact Hinv'|].
        intros path Hpath. rewrite (Hlookup path Hpath), lookup_define.
        unfold found. cbn [map existsb].
        destruct (String.eqb_spec path (asRelativePath f)) as [->|].
        -- now rewrite Hhere.
        -- reflexivity.
Qed.

(** [migrate] builds the nested shape. *)
Lemma migrate_shape (rawDocs : value) (files : list PackageFile) :
  exists members,
    Nested.migrate E rawDocs files = VObj members /\
    nested_over rawDocs members /\
    forall path,
      path <> "package.json"%string ->
      lookup path members = if found path files then Some (VObj []) else None.
Proof.
  destruct (migrate_from rawDocs files [("package.json"%string, rawDocs)])
    as (members & Hfold & Hinv & Hlookup).
  { split; [constructor; [intros [] | constructor]|]. split; [reflexivity|].
    intros path v Hpath. simpl.
    destruct (String.eqb_spec path "package.json"); [congruence | discriminate]. }
  exists members. split; [exact Hfold|]. split; [exact Hinv|].
  intros path Hpath. rewrite (Hlookup path Hpath). simpl.
  destruct (String.eqb_spec path "package.json"); [congruence | reflexivity].
Qed.

Lemma nested_not_legacy (rawDocs : value) (members : list (string * value)) :
  lookup "package.json" members = Some rawDocs ->
  Nested.looksLikeOldStructure (VObj members) = false.
Proof.
  intros Hroot. unfold Nested.looksLikeOldStructure, Object_keys. cbn [own_entries].
  assert (Hexists : existsb Nested.path_like (keys members) = true).
  { apply existsb_exists. exists "package.json"%string.
    split; [eapply lookup_some_in; exact Hroot | reflexivity]. }
  rewrite Hexists. cbn [negb]. apply Bool.andb_false_r.
Qed.

Lemma textual_object (members : list (string * value)) :
  NoDup (keys members) ->
  (forall k v, In (k, v) members -> textual v) ->
  textual (VObj members).
Proof.
  intros Hnd Hall. split; [exact Hnd|]. clear Hnd.
  induction members as [|[k v] rest IH]; simpl; [exact I|].
  split; [apply (Hall k v); now left|].
  apply IH. intros k' v' Hin. apply (Hall k' v'). now right.
Qed.

Lemma nested_textual (rawDocs : value) (members : list (string * value)) :
  textual rawDocs -> nested_over rawDocs members -> textual (VObj members).
Proof.
  intros Hraw (Hnd & Hroot & Hothers).
  apply textual_object; [exact Hnd|].
  intros k v Hin. apply (in_lookup _ _ _ Hnd) in Hin.
  destruct (String.eqb_spec k "package.json") as [->|Hne].
  - rewrite Hroot in Hin. now injection Hin as <-.
  - rewrite (Hothers k v Hne Hin). simpl. split; constructor.
Qed.

Lemma stringify_object (indent : string) (members : list (string * value)) :
  exists out, stringify_at E indent (VObj members) = Some out.
Proof.
  cbn [stringify_at].
  destruct (flat_map _ members); eauto.
Qed.

Ltac run_step :=
  cbv beta iota zeta delta
    [Nested.read_docs seq catch Nested.in_world readDocs readFile lift
     JSON_parse_outcome Nested.notify Nested.set_cache update read
     writeDocs ret throw fst snd];
  cbn [show store packageJsonFiles writeFailure docsFile workspaceFolders
       shown].

(** Reading a flat file: the notices, the nested structure in the
    file, and the structure as the result. *)
Lemma read_docs_migrates (p : Nested.Provider) (w : World)
    (text out : string) (rawDocs : value) :
  docsFile w = Content text ->
  JSON_parse text = Some rawDocs ->
  Nested.looksLikeOldStructure rawDocs = true ->
  writeFailure w = None ->
  JSON_stringify E (Nested.migrate E rawDocs (packageJsonFiles w)) = Some out ->
  Nested.read_docs E (p, w) =
  (Returns (Nested.migrate E rawDocs (packageJsonFiles w)),
   (p,
    show (Information
            "script-docs.json successfully converted to nested format.")
      (store out
         (show (Information
                  "Detected old script-docs.json structure. Converting to nested format.")
               w)))).
Proof.
  intros Hfile Hparse Hold Hwrite Hout.
  run_step. rewrite Hfile. run_step. rewrite Hparse. run_step.
  rewrite Hold. run_step. rewrite Hout. run_step. rewrite Hwrite.
  reflexivity.
Qed.

(** Reading a file that already has the nested structure changes
    nothing. *)
Lemma read_docs_keeps (p : Nested.Provider) (w : World)
    (text : string) (members : list (string * value)) :
  docsFile w = Content text ->
  JSON_parse text = Some (VObj members) ->
  Nested.looksLikeOldStructure (VObj members) = false ->
  Nested.read_docs E (p, w) = (Returns (VObj members), (p, w)).
Proof.
  intros Hfile Hparse Hold.
  run_step. rewrite Hfile. run_step. rewrite Hparse. run_step.
  now rewrite Hold.
Qed.

End WithEngine.

Lemma flat_docs_textual (text : string) (rawDocs : value) :
  JSON_parse text = Some rawDocs ->
  Nested.looksLikeOldStructure rawDocs = true ->
  descriptions_are_strings rawDocs ->
  textual rawDocs.
Proof.
  intros Hparse Hold Hstrings.
  pose proof (JSON_parse_unique_keys _ _ Hparse) as Hnd.
  destruct rawDocs as [| | | | |members|];
    try (unfold Nested.looksLikeOldStructure in Hold; simpl in Hold;
         rewrite ?Bool.andb_false_r in Hold; discriminate).
  apply textual_object; [exact Hnd|].
  intros k v Hin. destruct (Hstrings k v Hin) as (d & ->). exact I.
Qed.

End MigrationFacts.

(** ** The migration of a flat documentation file *)

Module MigrationClaims.

Import RoundTrip MigrationFacts.

(** C2.  A load that reads a documentation file of the flat shape (an
    object of descriptions, such as [{"dev":"x","build":"y"}]) writes
    the nested shape back: the flat object under [package.json] and an
    empty object under every other package file found, and nothing
    else.  The written text parses to that structure, and a later load
    of it (after the cache was cleared) returns the structure and leaves
    the file and the notices as they are: the migration does not run
    again. *)
Theorem C2_migration_runs_once (E : Engine) (force : bool)
    (p : Nested.Provider) (w : World) (text : string) (rawDocs : value) :
  truthy_opt (Nested.cachedDocs p) && negb force = false ->
  workspaceFolders w = true ->
  writeFailure w = None ->
  docsFile w = Content text ->
  JSON_parse text = Some rawDocs ->
  Nested.looksLikeOldStructure rawDocs = true ->
  descriptions_are_strings rawDocs ->
  exists members out,
    let w' := show converted (store out (show detected w)) in
    Nested.loadCustomDocs E force (p, w) =
      (Returns (Some (VObj members)),
       ({| Nested.cachedDocs := Some (VObj members) |}, w')) /\
    JSON_parse out = Some (VObj members) /\
    lookup "package.json" members = Some rawDocs /\
    (forall path,
       path <> "package.json"%string ->
       lookup path members =
       if found path (packageJsonFiles w) then Some (VObj []) else None) /\
    (forall p',
       truthy_opt (Nested.cachedDocs p') && negb force = false ->
       Nested.loadCustomDocs E force (p', w') =
         (Returns (Some (VObj members)),
          ({| Nested.cachedDocs := Some (VObj members) |}, w'))).
Proof.
  intros Hmiss Hfolders Hwrite Hfile Hparse Hold Hstrings.
  destruct (migrate_shape E rawDocs (packageJsonFiles w))
    as (members & Hmigrate & Hinv & Hlookup).
  destruct (stringify_object E EmptyString members) as (out & Hout).
  assert (Hback : JSON_parse out = Some (VObj members)).
  { apply (stringify_parse E); [|exact Hout].
    eapply nested_textual; [|exact Hinv].
    eapply flat_docs_textual; eassumption. }
  exists members, out. cbv zeta.
  split; [|split; [exact Hback|split; [apply Hinv|split; [exact Hlookup|]]]].
  - rewrite loadCustomDocs_miss by assumption.
    rewrite (read_docs_migrates E p w text out rawDocs)
      by (assumption || (rewrite Hmigrate; exact Hout)).
    now rewrite Hmigrate.
  - intros p' Hmiss'.
    rewrite loadCustomDocs_miss by assumption.
    rewrite (read_docs_keeps E p' _ out members);
      [reflexivity | reflexivity | exact Hback |].
    eapply nested_not_legacy. apply Hinv.
Qed.

Lemma C2_migration_runs_once_witness :
  exists members out,
    let w' := show converted (store out (show detected flat_workspace)) in
    Nested.loadCustomDocs sample_engine false (Nested.initial, flat_workspace) =
      (Returns (Some (VObj members)),
       ({| Nested.cachedDocs := Some (VObj members) |}, w')) /\
    JSON_parse out = Some (VObj members) /\
    lookup "package.json" members
      = Some (VObj [("dev", VStr "x"); ("build", VStr "y")])%string /\
    (forall path,
       path <> "package.json"%string ->
       lookup path members =
       if found path (packageJsonFiles flat_workspace)
       then Some (VObj []) else None) /\
    (forall p',
       truthy_opt (Nested.cachedDocs p') && negb false = false ->
       Nested.loadCustomDocs sample_engine false (p', w') =
         (Returns (Some (VObj members)),
          ({| Nested.cachedDocs := Some (VObj members) |}, w'))).
Proof.
  apply (C2_migration_runs_once sample_engine false Nested.initial
           flat_workspace (dq "{'dev':'x','build':'y'}")
           (VObj [("dev", VStr "x"); ("build", VStr "y")])%string);
    try reflexivity.
  intros k v [Heq|[Heq|[]]]; injection Heq as <- <-; eauto.
Defined.

End MigrationClaims.

(** ** The scan of the package files *)

Module RegenerateFacts.

Import MigrationFacts.

Lemma define_twice (m : list (string * value)) (k : string) (a b : value) :
  define (define m k a) k b = define m k b.
Proof.
  induction m as [|[k0 v0] rest IH]; simpl.
  - now rewrite String.eqb_refl.
  - destruct (String.eqb_spec k k0) as [->|Hne]; simpl.
    + now rewrite String.eqb_refl.
    + destruct (String.eqb_spec k k0); [congruence|]. now rewrite IH.
Qed.

Section WithEngine.
Context (E : Engine) (existing : list (string * value)).

Lemma assign_path (m : list (string * value)) (f : PackageFile) (v : value) :
  assign (VObj m) (asRelativePath f) v = VObj (define m (asRelativePath f) v).
Proof.
  unfold assign. now rewrite (proj2 (relative_not_inherited f)).
Qed.

(** The loop over the script names, from the entry [o] of the file: it
    ends with what [describe] makes of [o], or with its exception and
    some entry under the path. *)
Lemma scripts_loop (f : PackageFile) (scripts : value)
    (m : list (string * value)) :
  truthy scripts = true ->
  forall names o,
  exists o',
    for_each names
      (fun scriptName =>
         seq (lift (Returns (get E (VObj existing) (asRelativePath f))))
           (fun existing0 =>
              seq (lift (or_else_try (member_opt E existing0 scriptName)
                           (bind (member E (Some scripts) scriptName)
                              (Extension.template E scriptName
                                 (asRelativePath f)))))
                (fun description =>
                   update (fun newDocs =>
                     Extension.set_in newDocs (asRelativePath f) scriptName
                       description))))
      (VObj (define m (asRelativePath f) o))
    = (match describe E existing (asRelativePath f) scripts names o with
       | Returns _ => Returns tt
       | Throws e => Throws e
       end,
       VObj (define m (asRelativePath f) o')) /\
    forall documented,
      describe E existing (asRelativePath f) scripts names o = Returns documented ->
      o' = documented.
Proof.
  intros Htruthy names.
  assert (Hmember : forall name,
            member E (Some scripts) name = Returns (get E scripts name)).
  { intros name. destruct scripts; try reflexivity. discriminate. }
  induction names as [|name names IH]; intros o.
  - exists o. split; [reflexivity|]. now intros documented [= <-].
  - cbn [for_each]. unfold describe. cbn [assign_each]. fold (describe E existing (asRelativePath f) scripts).
    cbv beta iota zeta delta [seq lift update] in *.
    rewrite Hmember. cbn [bind].
    change (or_else_try (member_opt E (get E (VObj existing) (asRelativePath f)) name)
              (Extension.template E name (asRelativePath f) (get E scripts name)))
      with (description_for E existing (asRelativePath f) scripts name).
    destruct (description_for E existing (asRelativePath f) scripts name)
      as [description|e].
    + unfold Extension.set_in. cbn [own_entries bind].
      rewrite lookup_define, String.eqb_refl, assign_path, define_twice.
      apply IH.
    + exists o. split; [reflexivity|]. discriminate.
Qed.


Lemma get_fresh_path (m : list (string * value)) (f : PackageFile) :
  lookup (asRelativePath f) m = None ->
  get E (VObj m) (asRelativePath f) = None.
Proof.
  intros Hfresh. rewrite get_plain, Hfresh.
  apply (proj1 (relative_not_inherited f)).
Qed.

(** The [catch] block of the scan of a file, whatever entry the file
    has by then. *)
Lemma scan_file_recovers (f : PackageFile) (m m' : list (string * value))
    (readError : exn) :
  (forall v, define m' (asRelativePath f) v = define m (asRelativePath f) v) ->
  seq (lift (member E (Some (VObj existing)) (asRelativePath f)))
    (fun existing0 =>
       update (fun newDocs =>
                 assign newDocs (asRelativePath f)
                   (if truthy_opt existing0 then
                      match existing0 with Some e => e | None => VObj [] end
                    else
                      VObj [("__error__"%string,
                             VStr ("Failed to process: " +++
                                   message E readError))])))
    (VObj m')
  = (Returns tt,
     VObj (define m (asRelativePath f)
             (fallback E existing (asRelativePath f) readError))).
Proof.
  intros Hm'.
  cbv beta iota zeta delta [seq lift update]. cbn [member].
  rewrite assign_path, Hm'. unfold fallback.
  destruct (get E (VObj existing) (asRelativePath f)) as [e0|];
    [destruct (truthy e0) eqn:He0|]; cbn [truthy_opt]; rewrite ?He0;
    reflexivity.
Qed.

Lemma scan_file_keeps (f : PackageFile) (m : list (string * value)) (o : value) :
  seq (lift (member E (Some (VObj existing)) (asRelativePath f)))
    (fun existing0 =>
       update (fun newDocs =>
                 assign newDocs (asRelativePath f)
                   (if truthy_opt existing0 then
                      match existing0 with Some e => e | None => VObj [] end
                    else VObj [])))
    (VObj (define m (asRelativePath f) o))
  = (Returns tt,
     VObj (define m (asRelativePath f)
             match get E (VObj existing) (asRelativePath f) with
             | Some e => if truthy e then e else VObj []
             | None => VObj []
             end)).
Proof.
  cbv beta iota zeta delta [seq lift update]. cbn [member].
  rewrite assign_path, define_twice.
  destruct (get E (VObj existing) (asRelativePath f)) as [e0|];
    [destruct (truthy e0) eqn:He0|]; cbn [truthy_opt]; rewrite ?He0;
    reflexivity.
Qed.

(** The scan of one file puts its entry under its path and touches
    nothing else. *)
Lemma scan_file_defines (f : PackageFile) (m : list (string * value)) :
  lookup (asRelativePath f) m = None ->
  Extension.scan_file E (VObj existing) f (VObj m)
  = (Returns tt, VObj (define m (asRelativePath f) (entry E existing f))).
Proof.
  intros Hfresh.
  unfold Extension.scan_file, entry.
  unfold catch at 1. unfold seq at 1. unfold lift at 1.
  destruct (readFile (file f)) as [content|e]; cbn [bind].
  2:{ now apply scan_file_recovers. }
  unfold seq at 1. unfold lift at 1.
  destruct (JSON_parse_outcome content) as [packageJson|e].
  2:{ now apply scan_file_recovers. }
  unfold seq at 1. unfold update at 1.
  rewrite (get_fresh_path m f Hfresh). cbn [or_else]. rewrite assign_path.
  unfold seq at 1. unfold lift at 1.
  assert (Htwice : forall o v,
            define (define m (asRelativePath f) o) (asRelativePath f) v
            = define m (asRelativePath f) v).
  { intros o v. apply define_twice. }
  destruct packageJson as [|b|n|str|vs|top|name];
    try (cbn [member]; apply scan_file_recovers; apply Htwice);
    cbn [member];
    (destruct (get E _ "scripts") as [scripts|] eqn:Hscripts;
     [ destruct (truthy scripts) eqn:Htruthy; cbn [truthy_opt];
       rewrite ?Htruthy;
       [ | apply scan_file_keeps ]
     | apply scan_file_keeps ]).
  all: destruct (scripts_loop f scripts m Htruthy (Object_keys scripts) (VObj []))
         as (o' & -> & Ho').
  all: destruct (describe E existing (asRelativePath f) scripts
                   (Object_keys scripts) (VObj [])) as [documented|e].
  all: try (rewrite (Ho' documented eq_refl); reflexivity).
  all: apply scan_file_recovers; apply Htwice.
Qed.

Lemma scan_all (files : list PackageFile) :
  NoDup (map asRelativePath files) ->
  forall m,
    (forall f, In f files -> lookup (asRelativePath f) m = None) ->
    for_each files (Extension.scan_file E (VObj existing)) (VObj m)
    = (Returns tt, VObj (scanned E existing files m)).
Proof.
  induction files as [|f files IH]; intros Hnd m Hfresh.
  - reflexivity.
  - inversion Hnd as [|? ? Hout Hrest]; subst.
    cbn [for_each]. unfold seq.
    rewrite scan_file_defines by (apply Hfresh; now left).
    apply IH; [exact Hrest|].
    intros g Hg. rewrite lookup_define.
    destruct (String.eqb_spec (asRelativePath g) (asRelativePath f)) as [Heq|].
    + exfalso. apply Hout. rewrite <- Heq. now apply in_map.
    + apply Hfresh. now right.
Qed.

Lemma scanned_other (files : list PackageFile) (path : string) :
  ~ In path (map asRelativePath files) ->
  forall m, lookup path (scanned E existing files m) = lookup path m.
Proof.
  induction files as [|f files IH]; intros Hout m; [reflexivity|].
  change (scanned E existing (f :: files) m)
    with (scanned E existing files
            (define m (asRelativePath f) (entry E existing f))).
  rewrite IH by (intros Hin; apply Hout; now right).
  rewrite lookup_define.
  destruct (String.eqb_spec path (asRelativePath f)) as [->|]; [|reflexivity].
  exfalso. apply Hout. now left.
Qed.

Lemma scanned_entry (files : list PackageFile) (f : PackageFile) :
  NoDup (map asRelativePath files) ->
  In f files ->
  forall m,
    lookup (asRelativePath f) (scanned E existing files m)
    = Some (entry E existing f).
Proof.
  induction files as [|g files IH]; intros Hnd Hin m; [contradiction|].
  inversion Hnd as [|? ? Hout Hrest]; subst.
  change (scanned E existing (g :: files) m)
    with (scanned E existing files
            (define m (asRelativePath g) (entry E existing g))).
  destruct Hin as [->|Hin].
  - rewrite scanned_other by exact Hout.
    now rewrite lookup_define, String.eqb_refl.
  - now apply IH.
Qed.

Lemma assign_object (o : list (string * value)) (k : string) (v : value) :
  exists o', assign (VObj o) k v = VObj o'.
Proof.
  unfold assign. destruct (String.eqb k "__proto__"); [|eauto].
  destruct (lookup k o); eauto.
Qed.

Lemma or_else_try_returns (a : option value) (b : value) :
  or_else_try a (Returns b) = Returns (or_else a b).
Proof.
  unfold or_else_try, or_else. destruct a as [v|]; [|reflexivity].
  now destruct (truthy v).
Qed.

Lemma assign_each_returns (val : string -> outcome value) (names : list string) :
  (forall name, In name names -> exists v, val name = Returns v) ->
  forall o, exists documented, assign_each val names o = Returns documented.
Proof.
  induction names as [|n names IH]; intros Hval o.
  - now exists o.
  - cbn [assign_each].
    destruct (Hval n (or_introl eq_refl)) as (v & ->). cbn [bind].
    apply IH. intros name Hin. apply Hval. now right.
Qed.

Lemma assign_each_object (val : string -> outcome value) (names : list string) :
  forall o documented,
    assign_each val names (VObj o) = Returns documented ->
    exists o', documented = VObj o'.
Proof.
  induction names as [|n names IH]; intros o documented H.
  - injection H as <-. now exists o.
  - cbn [assign_each] in H. destruct (val n) as [v|]; [|discriminate].
    cbn [bind] in H. destruct (assign_object o n v) as (o1 & Ho1).
    rewrite Ho1 in H. exact (IH o1 documented H).
Qed.

(** After the loop over the script names, every name other than
    [__proto__] has its description. *)
Lemma assign_each_lookup (val : string -> outcome value) (name : string)
    (names : list string) :
  name <> "__proto__"%string ->
  forall o o',
    assign_each val names (VObj o) = Returns (VObj o') ->
    In name names \/
    (exists v, val name = Returns v /\ lookup name o = Some v) ->
    exists v, val name = Returns v /\ lookup name o' = Some v.
Proof.
  intros Hproto.
  induction names as [|n names IH]; intros o o' H Hin.
  - injection H as <-. destruct Hin as [[]|Hin]. exact Hin.
  - cbn [assign_each] in H. destruct (val n) as [v|] eqn:Hv; [|discriminate].
    cbn [bind] in H.
    assert (Hstep : exists o1,
              assign (VObj o) n v = VObj o1 /\
              (In name names \/
               exists v', val name = Returns v' /\ lookup name o1 = Some v')).
    { unfold assign.
      destruct (String.eqb_spec n "__proto__") as [Hn|Hn].
      - assert (Hne : name <> n) by congruence.
        destruct (lookup n o).
        + eexists. split; [reflexivity|].
          destruct Hin as [[Heq|Hin]|(v' & Hv' & Hl)];
            [congruence | now left | right].
          exists v'. split; [exact Hv'|]. rewrite lookup_define.
          destruct (String.eqb_spec name n); [congruence | exact Hl].
        + eexists. split; [reflexivity|].
          destruct Hin as [[Heq|Hin]|Hin]; [congruence | now left | now right].
      - eexists. split; [reflexivity|].
        destruct (String.eqb_spec name n) as [->|Hne].
        + right. exists v. split; [exact Hv|].
          now rewrite lookup_define, String.eqb_refl.
        + destruct Hin as [[Heq|Hin]|(v' & Hv' & Hl)];
            [congruence | now left | right].
          exists v'. split; [exact Hv'|]. rewrite lookup_define.
          destruct (String.eqb_spec name n); [congruence | exact Hl]. }
    destruct Hstep as (o1 & Ho1 & Hin1). rewrite Ho1 in H.
    exact (IH o1 o' H Hin1).
Qed.

Lemma fallback_truthy (relativePath : string) (readError : exn) :
  truthy (fallback E existing relativePath readError) = true.
Proof.
  unfold fallback.
  destruct (get E (VObj existing) relativePath) as [e|]; [|reflexivity].
  destruct (truthy e) eqn:He; [exact He | reflexivity].
Qed.

Lemma entry_truthy (f : PackageFile) : truthy (entry E existing f) = true.
Proof.
  unfold entry.
  assert (Hkeep : truthy match get E (VObj existing) (asRelativePath f) with
                         | Some e => if truthy e then e else VObj []
                         | None => VObj []
                         end = true).
  { destruct (get E (VObj existing) (asRelativePath f)) as [e|]; [|reflexivity].
    destruct (truthy e) eqn:He; [exact He | reflexivity]. }
  destruct (bind (readFile (file f)) JSON_parse_outcome) as [packageJson|e];
    [|apply fallback_truthy].
  destruct packageJson; try apply fallback_truthy;
    (destruct (get E _ "scripts") as [scripts|]; [|exact Hkeep];
     destruct (truthy scripts); [|exact Hkeep];
     destruct (describe E existing (asRelativePath f) scripts
                 (Object_keys scripts) (VObj [])) as [documented|e] eqn:Hd;
     [ destruct (assign_each_object _ _ _ _ Hd) as (o' & ->); reflexivity
     | apply fallback_truthy ]).
Qed.

(** The loop that keeps the packages not found leaves a truthy entry
    of the scan alone. *)
Lemma keep_missing_preserves (path : string) (v : value) :
  truthy v = true ->
  forall entries m,
    lookup path m = Some v ->
    exists m',
      fold_left
        (fun newDocs kv =>
           if negb (truthy_opt (get E newDocs (fst kv)))
           then assign newDocs (fst kv) (snd kv)
           else newDocs)
        entries (VObj m) = VObj m' /\
      lookup path m' = Some v.
Proof.
  intros Htruthy.
  induction entries as [|[k x] entries IH]; intros m Hpath.
  - exists m. split; [reflexivity | exact Hpath].
  - cbn [fold_left fst snd].
    destruct (truthy_opt (get E (VObj m) k)) eqn:Hk; cbn [negb].
    + now apply IH.
    + destruct (assign_object m k x) as (m1 & Hm1). rewrite Hm1.
      apply IH.
      assert (Hne : path <> k).
      { intros ->. rewrite get_plain, Hpath in Hk. cbn [truthy_opt] in Hk.
        congruence. }
      unfold assign in Hm1.
      destruct (String.eqb k "__proto__").
      * destruct (lookup k m); injection Hm1 as <-; [|exact Hpath].
        rewrite lookup_define.
        destruct (String.eqb_spec path k); [congruence | exact Hpath].
      * injection Hm1 as <-. rewrite lookup_define.
        destruct (String.eqb_spec path k); [congruence | exact Hpath].
Qed.

(** The regenerated documentation has, under the path of every file of
    the scan, the entry of that file. *)
Lemma regenerate_entries (files : list PackageFile) :
  NoDup (map asRelativePath files) ->
  exists newDocs,
    Extension.regenerate E (VObj existing) files = Returns (VObj newDocs) /\
    forall f, In f files ->
              lookup (asRelativePath f) newDocs = Some (entry E existing f).
Proof.
  intros Hnd. unfold Extension.regenerate.
  rewrite scan_all by (assumption || reflexivity).
  unfold Extension.keep_missing. cbn [own_entries].
  assert (Hall : forall fs m,
            (forall f, In f fs -> lookup (asRelativePath f) m = Some (entry E existing f)) ->
            forall entries, exists m',
              fold_left
                (fun newDocs kv =>
                   if negb (truthy_opt (get E newDocs (fst kv)))
                   then assign newDocs (fst kv) (snd kv)
                   else newDocs)
                entries (VObj m) = VObj m' /\
              forall f, In f fs ->
                        lookup (asRelativePath f) m' = Some (entry E existing f)).
  { intros fs m Hm entries. revert m Hm.
    induction entries as [|[k x] entries IH]; intros m Hm.
    - exists m. split; [reflexivity | exact Hm].
    - cbn [fold_left fst snd].
      destruct (truthy_opt (get E (VObj m) k)) eqn:Hk; cbn [negb].
      + now apply IH.
      + destruct (assign_object m k x) as (m1 & Hm1). rewrite Hm1.
        apply IH. intros f Hf.
        destruct (keep_missing_preserves (asRelativePath f) (entry E existing f)
                    (entry_truthy f) [(k, x)] m (Hm f Hf)) as (m2 & Hfold & Hl).
        cbn [fold_left fst snd] in Hfold. rewrite Hk in Hfold.
        cbn [negb] in Hfold. rewrite Hm1 in Hfold. now injection Hfold as ->. }
  destruct (Hall files (scanned E existing files [])
              (fun f Hf => scanned_entry files f Hnd Hf []) existing)
    as (m' & Hfold & Hentries).
  exists m'. rewrite Hfold. split; [reflexivity | exact Hentries].
Qed.

End WithEngine.

End RegenerateFacts.

(** ** The command that regenerates the file *)

Module CommandFacts.
Ltac command_step :=
  cbv beta iota zeta delta
    [Extension.updateScriptDocsForWorkspace Extension.read_existing
     seq catch readDocs readFile lift JSON_parse_outcome update read
     writeDocs ret throw];
  cbn [show store packageJsonFiles writeFailure docsFile workspaceFolders
       shown negb].

(** The command writes the regenerated documentation into the file and
    tells so. *)
Lemma update_writes_regenerated (E : Engine) (w : World)
    (text out : string) (existing : list (string * value)) (newDocs : value) :
  workspaceFolders w = true ->
  writeFailure w = None ->
  packageJsonFiles w <> [] ->
  docsFile w = Content text ->
  JSON_parse text = Some (VObj existing) ->
  Extension.regenerate E (VObj existing) (packageJsonFiles w) = Returns newDocs ->
  JSON_stringify E newDocs = Some out ->
  Extension.updateScriptDocsForWorkspace E w =
  (Returns tt,
   show (Information "script-docs.json has been updated successfully!")
     (store out
        (show (Information
                 "Existing script-docs.json found. Merging new scripts.") w))).
Proof.
  intros Hfolders Hwrite Hfiles Hfile Hparse Hregenerate Hout.
  command_step. rewrite Hfolders. command_step.
  rewrite Hfile. command_step. rewrite Hparse. command_step.
  destruct (packageJsonFiles w) as [|f files] eqn:Hlist; [congruence|].
  command_step. rewrite Hregenerate. command_step.
  rewrite Hout. command_step. rewrite Hwrite. reflexivity.
Qed.

End CommandFacts.

(** ** Regenerating the documentation *)

Module RegenerateClaims.

Import RegenerateFacts.

Section WithEngine.
Context (E : Engine) (existing : list (string * value)).

(** The description of a script whose command converts to text. *)
Lemma description_for_text (relativePath : string)
    (scripts : list (string * value)) (name : string) (command : value)
    (text : string) :
  lookup name scripts = Some command ->
  ToString E command = Returns text ->
  description_for E existing relativePath (VObj scripts) name
  = Returns (or_else (described E existing relativePath name)
               (VStr (Extension.template_text name relativePath text))).
Proof.
  intros Hname Htext.
  unfold description_for, Extension.template.
  rewrite get_plain, Hname. cbn [ToString_opt]. rewrite Htext. cbn [bind].
  apply or_else_try_returns.
Qed.

End WithEngine.

(** C3, as the code has it.  When the documentation is regenerated from
    package files with pairwise different paths, a file whose manifest
    has a [scripts] object, all of whose commands convert to text, gets
    an entry that gives every script (whose name is not a member of
    [Object.prototype]) its existing description when that is present
    and truthy (a non-empty string), and otherwise the text
    [Description for '<script>' script in <path>: <command>]; a file
    whose manifest has no [scripts] member, or a falsy one, keeps its
    existing entry when it has a truthy one, and gets an empty entry
    otherwise.  Nothing is said here of a manifest whose [scripts] is an
    empty object. *)
Theorem C3_regenerated_descriptions (E : Engine)
    (existing : list (string * value)) (files : list PackageFile) :
  NoDup (map asRelativePath files) ->
  exists newDocs,
    Extension.regenerate E (VObj existing) files = Returns (VObj newDocs) /\
    forall f text top,
      In f files ->
      file f = Content text ->
      JSON_parse text = Some (VObj top) ->
      (forall scripts,
         lookup "scripts" top = Some (VObj scripts) ->
         (forall name command,
            lookup name scripts = Some command -> printable E command) ->
         exists documented,
           lookup (asRelativePath f) newDocs = Some (VObj documented) /\
           forall name command written,
             lookup name scripts = Some command ->
             ToString E command = Returns written ->
             inherited name = None ->
             lookup name documented =
             Some (or_else (described E existing (asRelativePath f) name)
                     (VStr (Extension.template_text name (asRelativePath f)
                              written))))
      /\
      (truthy_opt (lookup "scripts" top) = false ->
       lookup (asRelativePath f) newDocs =
       Some match get E (VObj existing) (asRelativePath f) with
            | Some old => if truthy old then old else VObj []
            | None => VObj []
            end).
Proof.
  intros Hnd.
  destruct (regenerate_entries E existing files Hnd)
    as (newDocs & Hregenerate & Hentries).
  exists newDocs. split; [exact Hregenerate|].
  intros f text top Hin Hfile Hparse.
  rewrite (Hentries f Hin). unfold entry.
  rewrite Hfile. cbn [readFile bind]. unfold JSON_parse_outcome.
  rewrite Hparse, get_plain.
  split.
  - intros scripts Hscripts Hprintable. rewrite Hscripts. cbn [truthy].
    assert (Hreturns : forall name,
              In name (Object_keys (VObj scripts)) ->
              exists v,
                description_for E existing (asRelativePath f) (VObj scripts) name
                = Returns v).
    { intros name Hname. unfold Object_keys in Hname. cbn [own_entries] in Hname.
      destruct (lookup name scripts) as [command|] eqn:Hcommand.
      - destruct (Hprintable name command Hcommand) as (written & Hwritten).
        eexists. exact (description_for_text E existing _ scripts name command
                          written Hcommand Hwritten).
      - apply lookup_none_iff in Hcommand. contradiction. }
    unfold describe.
    destruct (assign_each_returns _ _ Hreturns (VObj [])) as (d & Hd).
    destruct (assign_each_object _ _ _ _ Hd) as (documented & ->).
    rewrite Hd. exists documented. split; [reflexivity|].
    intros name command written Hname Hwritten Hinherited.
    assert (Hproto : name <> "__proto__"%string).
    { intros ->. discriminate Hinherited. }
    destruct (assign_each_lookup _ name _ Hproto [] documented Hd
                (or_introl (lookup_some_in _ _ _ Hname)))
      as (v & Hv & Hlookup).
    rewrite (description_for_text E existing _ scripts name command written
               Hname Hwritten) in Hv.
    injection Hv as <-. exact Hlookup.
  - intros Hfalsy. destruct (lookup "scripts" top) as [scripts|];
      [|reflexivity].
    cbn [truthy_opt] in Hfalsy. now rewrite Hfalsy.
Qed.

Lemma C3_regenerated_descriptions_witness :
  exists newDocs documented,
    Extension.regenerate sample_engine (VObj old_docs) two_packages
    = Returns (VObj newDocs) /\
    lookup "package.json" newDocs = Some (VObj documented) /\
    lookup "build" documented = Some (VStr "old desc") /\
    lookup "test" documented
    = Some (VStr "Description for 'test' script in package.json: jest") /\
    lookup "packages/app/package.json" newDocs = Some (VObj []).
Proof.
  assert (Hnd : NoDup (map asRelativePath two_packages)).
  { repeat constructor; simpl; intuition discriminate. }
  destruct (C3_regenerated_descriptions sample_engine old_docs two_packages Hnd)
    as (newDocs & Hregenerate & Hfiles).
  destruct (Hfiles _ _ [("scripts", VObj [("build", VStr "tsc");
                                          ("test", VStr "jest")])]%string
              (or_introl eq_refl) eq_refl eq_refl) as [Hscripts _].
  assert (Hprintable : forall name command,
            lookup name [("build", VStr "tsc"); ("test", VStr "jest")]%string
            = Some command -> printable sample_engine command).
  { intros name command Hc. cbn [lookup] in Hc.
    destruct (String.eqb name "build"); [injection Hc as <-; now eexists|].
    destruct (String.eqb name "test"); [injection Hc as <-; now eexists|].
    discriminate. }
  destruct (Hscripts _ eq_refl Hprintable) as (documented & Hroot & Hnames).
  destruct (Hfiles _ _ [("name", VStr "app")]%string
              (or_intror (or_introl eq_refl)) eq_refl eq_refl) as [_ Hnone].
  exists newDocs, documented.
  split; [exact Hregenerate|]. split; [exact Hroot|].
  split; [exact (Hnames "build"%string (VStr "tsc") "tsc"%string
                   eq_refl eq_refl eq_refl)|].
  split; [exact (Hnames "test"%string (VStr "jest") "jest"%string
                   eq_refl eq_refl eq_refl)|].
  exact (Hnone eq_refl).
Defined.

(** C3 as stated fails for an existing description that is the empty
    string: the entry [build] is present in the prior documentation, yet
    the regenerated description is the template. *)
Lemma C3_counterexample :
  let prior := [ ("package.json", VObj [("build", VStr EmptyString)]) ]%string in
  let files :=
    [ {| folder := EmptyString;
         file := Content (dq "{ 'scripts': { 'build': 'tsc' } }") |} ] in
  described sample_engine prior "package.json" "build" = Some (VStr EmptyString)
  /\ Extension.regenerate sample_engine (VObj prior) files
     = Returns
         (VObj [ ("package.json",
                  VObj [("build",
                         VStr "Description for 'build' script in package.json: tsc")]) ])%string.
Proof. vm_compute. split; reflexivity. Qed.

End RegenerateClaims.

(** * Further properties

    More of what the code does: the loader of the nested file, the
    hover and its descriptions, the caches, the command that regenerates
    the file, the timers of [debounce] and the watcher, the registration
    of the hover provider, and the patterns. *)

Import RoundTrip MigrationFacts RegenerateFacts CommandFacts.

(** ** The loader of the nested file *)

Module LoaderFacts.

Ltac load_step :=
  cbv beta iota zeta delta
    [Nested.read_docs seq catch Nested.in_world readDocs readFile lift
     JSON_parse_outcome Nested.notify Nested.set_cache update read
     writeDocs ret throw fst snd];
  cbn [show store packageJsonFiles writeFailure docsFile workspaceFolders
       shown].

Section WithEngine.
Context (E : Engine).

Lemma read_docs_invalid (p : Nested.Provider) (w : World)
    (text : string) (rawDocs : value) :
  docsFile w = Content text ->
  JSON_parse text = Some rawDocs ->
  (forall members, rawDocs <> VObj members) ->
  Nested.read_docs E (p, w)
  = (Throws (Error "script-docs.json has an invalid format."), (p, w)).
Proof.
  intros Hfile Hparse Hshape.
  load_step. rewrite Hfile. load_step. rewrite Hparse. load_step.
  destruct rawDocs as [| b | n | s | vs | members | name];
    try (exfalso; eapply Hshape; reflexivity);
    unfold Nested.looksLikeOldStructure;
    cbn [truthy Nested.typeof_object Nested.isArray negb andb];
    rewrite ?andb_false_r; cbn [andb]; try reflexivity.
Qed.

Lemma nested_shape_not_old (members : list (string * value)) :
  nested_shape members -> Nested.looksLikeOldStructure (VObj members) = false.
Proof.
  intros [-> | (key & Hin & Hpath)]; [reflexivity|].
  unfold Nested.looksLikeOldStructure, Object_keys. cbn [own_entries].
  assert (Hex : existsb Nested.path_like (keys members) = true).
  { apply existsb_exists. now exists key. }
  rewrite Hex. cbn [negb]. now rewrite andb_false_r.
Qed.

(** The documentation that a reading gives is truthy. *)
Lemma read_docs_truthy (s s1 : Nested.State) (rawDocs : value) :
  Nested.read_docs E s = (Returns rawDocs, s1) -> truthy rawDocs = true.
Proof.
  destruct s as [p w]. load_step.
  destruct (docsFile w) as [| m | text]; load_step; try discriminate.
  destruct (JSON_parse text) as [raw|]; load_step; [|discriminate].
  destruct (Nested.looksLikeOldStructure raw) eqn:Hold.
  - load_step.
    destruct (migrate_shape E raw (packageJsonFiles w)) as (members & Hm & _).
    rewrite Hm.
    destruct (JSON_stringify E (VObj members)); load_step; [|discriminate].
    destruct (writeFailure w); load_step; [discriminate|].
    intros [= <- _]. reflexivity.
  - destruct (truthy raw) eqn:Htruthy; cbn [andb].
    + destruct (Nested.typeof_object raw && negb (Nested.isArray raw));
        load_step; [|discriminate].
      now intros [= <- _].
    + load_step. discriminate.
Qed.

Lemma load_changes_refl (w : World) : load_changes E w w.
Proof.
  repeat split; auto. exists []. now rewrite app_nil_r.
Qed.

Lemma load_changes_show (w w' : World) (n : notice) :
  load_changes E w w' -> load_changes E w (show n w').
Proof.
  intros (H1 & H2 & H3 & (notices & H4) & H5).
  repeat split; auto.
  exists (notices ++ [n]). cbn [show shown]. now rewrite H4, app_assoc.
Qed.

Lemma read_docs_changes (p : Nested.Provider) (w : World) :
  fst (snd (Nested.read_docs E (p, w))) = p /\
  load_changes E w (snd (snd (Nested.read_docs E (p, w)))).
Proof.
  load_step.
  destruct (docsFile w) as [| m | text] eqn:Hfile; load_step;
    try (split; [reflexivity | apply load_changes_refl]).
  destruct (JSON_parse text) as [raw|] eqn:Hparse; load_step;
    try (split; [reflexivity | apply load_changes_refl]).
  destruct (Nested.looksLikeOldStructure raw) eqn:Hold.
  - load_step.
    destruct (JSON_stringify E (Nested.migrate E raw (packageJsonFiles w)))
      as [out|] eqn:Hout; load_step.
    + destruct (writeFailure w) eqn:Hwrite; load_step.
      * split; [reflexivity|]. apply load_changes_show, load_changes_refl.
      * split; [reflexivity|].
        repeat split; auto.
        -- eexists [_; _]. cbn [shown show store]. now rewrite <- app_assoc.
        -- right. exists text, raw, out. cbn [docsFile]. now repeat split.
    + split; [reflexivity|]. apply load_changes_show, load_changes_refl.
  - destruct (truthy raw && Nested.typeof_object raw && negb (Nested.isArray raw));
      load_step; (split; [reflexivity | apply load_changes_refl]).
Qed.

(** Loading a file of the nested shape. *)
Lemma load_nested_file (force : bool) (p : Nested.Provider) (w : World)
    (text : string) (members : list (string * value)) :
  truthy_opt (Nested.cachedDocs p) && negb force = false ->
  workspaceFolders w = true ->
  docsFile w = Content text ->
  JSON_parse text = Some (VObj members) ->
  nested_shape members ->
  Nested.loadCustomDocs E force (p, w)
  = (Returns (Some (VObj members)),
     ({| Nested.cachedDocs := Some (VObj members) |}, w)).
Proof.
  intros Hmiss Hfolders Hfile Hparse Hshape.
  rewrite loadCustomDocs_miss by assumption.
  rewrite (read_docs_keeps E p w text members Hfile Hparse
             (nested_shape_not_old members Hshape)).
  reflexivity.
Qed.

End WithEngine.

End LoaderFacts.
Import LoaderFacts.

Module LoaderProperties.

(** X1.  A documentation file that holds JSON other than an object (an
    array, a string, a number, a boolean, null) is refused: the load
    gives null, shows the message about the file format, empties the
    cache and leaves the file alone. *)
Theorem nested_load_rejects_non_object (E : Engine) (force : bool)
    (p : Nested.Provider) (w : World) (text : string) (rawDocs : value) :
  truthy_opt (Nested.cachedDocs p) && negb force = false ->
  workspaceFolders w = true ->
  docsFile w = Content text ->
  JSON_parse text = Some rawDocs ->
  (forall members, rawDocs <> VObj members) ->
  Nested.loadCustomDocs E force (p, w)
  = (Returns None, ({| Nested.cachedDocs := None |}, show read_failed w)).
Proof.
  intros Hmiss Hfolders Hfile Hparse Hshape.
  rewrite loadCustomDocs_miss by assumption.
  now rewrite (read_docs_invalid E p w text rawDocs).
Qed.

Lemma nested_load_rejects_non_object_witness :
  let w := {| workspaceFolders := true;
              docsFile := Content (dq "['dev', 'build']");
              writeFailure := None; packageJsonFiles := []; shown := [] |} in
  Nested.loadCustomDocs sample_engine false (Nested.initial, w)
  = (Returns None, ({| Nested.cachedDocs := None |}, show read_failed w)).
Proof.
  intro w.
  apply (nested_load_rejects_non_object sample_engine false Nested.initial w
           (dq "['dev', 'build']") (VArr [VStr "dev"; VStr "build"]));
    try reflexivity.
  intros members. discriminate.
Defined.

(** X2.  A documentation file that holds an object of the nested shape
    (no member at all, or a key with a path separator or the key
    [package.json]) is returned and cached as it is: nothing is written
    and no message is shown. *)
Theorem nested_load_keeps_nested_file (E : Engine) (force : bool)
    (p : Nested.Provider) (w : World) (text : string)
    (members : list (string * value)) :
  truthy_opt (Nested.cachedDocs p) && negb force = false ->
  workspaceFolders w = true ->
  docsFile w = Content text ->
  JSON_parse text = Some (VObj members) ->
  nested_shape members ->
  Nested.loadCustomDocs E force (p, w)
  = (Returns (Some (VObj members)),
     ({| Nested.cachedDocs := Some (VObj members) |}, w)).
Proof.
  intros Hmiss Hfolders Hfile Hparse Hshape.
  now apply (load_nested_file E force p w text members).
Qed.

Lemma nested_load_keeps_nested_file_witness :
  let text := dq "{ 'apps/web/package.json': { 'dev': 'starts vite' } }" in
  let w := {| workspaceFolders := true; docsFile := Content text;
              writeFailure := None; packageJsonFiles := []; shown := [] |} in
  let docs := VObj [("apps/web/package.json",
                     VObj [("dev", VStr "starts vite")])]%string in
  Nested.loadCustomDocs sample_engine false (Nested.initial, w)
  = (Returns (Some docs), ({| Nested.cachedDocs := Some docs |}, w)).
Proof.
  intros text w docs.
  apply (nested_load_keeps_nested_file sample_engine false Nested.initial w text);
    try reflexivity.
  right. exists "apps/web/package.json"%string. split; [now left | reflexivity].
Defined.

(** X3.  Documentation that a load returns is in the cache afterwards,
    and from then on a load without [force] answers from the cache: it
    returns the same documentation whatever the file has become, and
    changes nothing. *)
Theorem nested_cache_answers_later_loads (E : Engine) (force : bool)
    (s s' : Nested.State) (docs : value) :
  Nested.loadCustomDocs E force s = (Returns (Some docs), s') ->
  Nested.cachedDocs (fst s') = Some docs /\
  forall w, Nested.loadCustomDocs E false (fst s', w)
            = (Returns (Some docs), (fst s', w)).
Proof.
  intros Hload.
  assert (Hcached : Nested.cachedDocs (fst s') = Some docs /\ truthy docs = true).
  { destruct (truthy_opt (Nested.cachedDocs (fst s)) && negb force) eqn:Hhit.
    - unfold Nested.loadCustomDocs, seq, read, ret in Hload.
      rewrite Hhit in Hload. injection Hload as Hdocs <-.
      apply andb_prop in Hhit. destruct Hhit as [Htruthy _].
      rewrite Hdocs in Htruthy. now split.
    - destruct (workspaceFolders (snd s)) eqn:Hfolders.
      + rewrite loadCustomDocs_miss in Hload by assumption.
        destruct (Nested.read_docs E s) as [[rawDocs|e] s1] eqn:Hread.
        * injection Hload as -> <-. split; [reflexivity|].
          exact (read_docs_truthy E s s1 docs Hread).
        * destruct e; discriminate Hload.
      + unfold Nested.loadCustomDocs, seq, read, ret in Hload.
        rewrite Hhit, Hfolders in Hload. discriminate Hload. }
  destruct Hcached as [Hcached Htruthy]. split; [exact Hcached|].
  intros w. unfold Nested.loadCustomDocs, seq, read, ret. cbn [fst snd].
  rewrite Hcached. cbn [truthy_opt negb]. now rewrite Htruthy.
Qed.

Lemma nested_cache_answers_later_loads_witness :
  let text := dq "{ 'package.json': { 'dev': 'starts vite' } }" in
  let w := {| workspaceFolders := true; docsFile := Content text;
              writeFailure := None; packageJsonFiles := []; shown := [] |} in
  let docs := VObj [("package.json", VObj [("dev", VStr "starts vite")])]%string in
  let gone := {| workspaceFolders := true; docsFile := Missing;
                 writeFailure := None; packageJsonFiles := []; shown := [] |} in
  Nested.loadCustomDocs sample_engine false
    ({| Nested.cachedDocs := Some docs |}, gone)
  = (Returns (Some docs), ({| Nested.cachedDocs := Some docs |}, gone)).
Proof.
  intros text w docs gone.
  exact (proj2 (nested_cache_answers_later_loads sample_engine false
                  (Nested.initial, w)
                  ({| Nested.cachedDocs := Some docs |}, w) docs eq_refl) gone).
Defined.

(** X4.  When the write of a migration fails, the flat file stays as it
    was: the load shows the notice of the detection, then the message
    about the file format (none when the failure is [FileNotFound]),
    returns null and leaves the cache empty. *)
Theorem nested_migration_write_failure (E : Engine) (force : bool)
    (p : Nested.Provider) (w : World) (text : string) (rawDocs : value)
    (failure : exn) :
  truthy_opt (Nested.cachedDocs p) && negb force = false ->
  workspaceFolders w = true ->
  docsFile w = Content text ->
  JSON_parse text = Some rawDocs ->
  Nested.looksLikeOldStructure rawDocs = true ->
  writeFailure w = Some failure ->
  Nested.loadCustomDocs E force (p, w)
  = (Returns None,
     ({| Nested.cachedDocs := None |},
      match failure with
      | FileNotFound => show detected w
      | _ => show read_failed (show detected w)
      end)).
Proof.
  intros Hmiss Hfolders Hfile Hparse Hold Hwrite.
  rewrite loadCustomDocs_miss by assumption.
  assert (Hread : Nested.read_docs E (p, w)
                  = (Throws failure, (p, show detected w))).
  { load_step. rewrite Hfile. load_step. rewrite Hparse. load_step.
    rewrite Hold. load_step.
    destruct (migrate_shape E rawDocs (packageJsonFiles w)) as (members & Hm & _).
    rewrite Hm.
    destruct (stringify_object E EmptyString members) as (out & Hout).
    unfold JSON_stringify. rewrite Hout. load_step. rewrite Hwrite.
    reflexivity. }
  rewrite Hread. destruct failure; reflexivity.
Qed.

Lemma nested_migration_write_failure_witness :
  let w := {| workspaceFolders := true;
              docsFile := Content (dq "{'dev':'x','build':'y'}");
              writeFailure := Some (FileSystemFailure "read-only file system");
              packageJsonFiles := []; shown := [] |} in
  Nested.loadCustomDocs sample_engine false (Nested.initial, w)
  = (Returns None,
     ({| Nested.cachedDocs := None |}, show read_failed (show detected w))).
Proof.
  intro w.
  exact (nested_migration_write_failure sample_engine false Nested.initial w
           (dq "{'dev':'x','build':'y'}")
           (VObj [("dev", VStr "x"); ("build", VStr "y")]%string)
           (FileSystemFailure "read-only file system")
           eq_refl eq_refl eq_refl eq_refl eq_refl eq_refl).
Defined.

(** X5.  A load never throws, and all it may change in the workspace is
    this: it adds notices, and it replaces the documentation file only
    when the file held a flat object, by the text of its migration.  The
    package files and the workspace folders stay as they were. *)
Theorem nested_load_writes_only_to_migrate (E : Engine) (force : bool)
    (s : Nested.State) :
  exists docs s',
    Nested.loadCustomDocs E force s = (Returns docs, s') /\
    load_changes E (snd s) (snd s').
Proof.
  destruct s as [p w].
  destruct (truthy_opt (Nested.cachedDocs p) && negb force) eqn:Hhit.
  - unfold Nested.loadCustomDocs, seq, read, ret. cbn [fst snd]. rewrite Hhit.
    eexists _, _. split; [reflexivity | apply load_changes_refl].
  - destruct (workspaceFolders w) eqn:Hfolders.
    + rewrite loadCustomDocs_miss by assumption.
      destruct (read_docs_changes E p w) as [_ Hchanges].
      destruct (Nested.read_docs E (p, w)) as [[rawDocs|e] [p1 w1]].
      * eexists _, _. split; [reflexivity | exact Hchanges].
      * destruct e;
          (eexists _, _; split; [reflexivity|]); cbn [snd] in *;
          first [exact Hchanges | apply load_changes_show, Hchanges].
    + unfold Nested.loadCustomDocs, seq, read, ret. cbn [fst snd].
      rewrite Hhit, Hfolders. cbn [negb].
      eexists _, _. split; [reflexivity | apply load_changes_refl].
Qed.

End LoaderProperties.

(** ** The hover *)

Module TextFacts.

Lemma skip_split (p : ascii -> bool) (s : string) :
  exists run, s = run +++ skip p s /\ forallb_string p run = true.
Proof.
  induction s as [|c r IH]; cbn [skip].
  - now exists EmptyString.
  - destruct (p c) eqn:Hc.
    + destruct IH as (run & Hr & Hrun). exists (String c run). split.
      * cbn [append]. now rewrite <- Hr.
      * cbn [forallb_string]. now rewrite Hc.
    + now exists EmptyString.
Qed.

Lemma strip_prefix_eq (p s r : string) :
  strip_prefix p s = Some r -> s = p +++ r.
Proof.
  revert s. induction p as [|a p IH]; intros s H; cbn [strip_prefix] in H.
  - now injection H as ->.
  - destruct s as [|b s]; [discriminate|].
    destruct (Ascii.eqb_spec a b) as [->|]; [|discriminate].
    cbn [append]. now rewrite (IH s H).
Qed.

Lemma includes_char_app (a b : string) (c : ascii) :
  includes_char (a +++ b) c = includes_char a c || includes_char b c.
Proof.
  unfold includes_char. induction a as [|x a IH]; cbn [append existsb_string].
  - reflexivity.
  - now rewrite IH, orb_assoc.
Qed.

Lemma includes_char_class (p : ascii -> bool) (s : string) (c : ascii) :
  forallb_string p s = true -> p c = false -> includes_char s c = false.
Proof.
  intros Hs Hc. unfold includes_char.
  induction s as [|x s IH]; cbn [existsb_string forallb_string] in *.
  - reflexivity.
  - apply andb_prop in Hs. destruct Hs as [Hx Hs].
    rewrite (IH Hs), orb_false_r.
    destruct (Ascii.eqb_spec c x) as [->|]; [congruence | reflexivity].
Qed.

Lemma skip_empty_class (p : ascii -> bool) (s : string) :
  skip p s = EmptyString -> forallb_string p s = true.
Proof.
  intros H. destruct (skip_split p s) as (run & Hs & Hrun).
  rewrite H in Hs. rewrite Hs. now rewrite append_empty.
Qed.

Lemma includes_char_concat (separator : string) (c : ascii) (parts : list string) :
  includes_char (String.concat separator parts) c = false ->
  forall part, In part parts -> includes_char part c = false.
Proof.
  induction parts as [|x rest IH]; intros H part Hin; [contradiction|].
  destruct rest as [|y rest].
  - cbn [String.concat] in H. destruct Hin as [<-|[]]. exact H.
  - change (String.concat separator (x :: y :: rest))
      with (x +++ separator +++ String.concat separator (y :: rest)) in H.
    rewrite !includes_char_app in H.
    apply orb_false_elim in H. destruct H as [Hx H].
    apply orb_false_elim in H. destruct H as [_ H].
    destruct Hin as [<-|Hin]; [exact Hx | exact (IH H part Hin)].
Qed.

(** A text that reads as [null] holds no double quote. *)
Lemma null_text_no_quote (text : string) :
  JSON_parse text = Some VNull -> includes_char text quote = false.
Proof.
  unfold JSON_parse. cbn [parse_value].
  destruct (skip_split is_json_ws text) as (ws & Htext & Hws).
  fold skip_ws in Htext. fold skip_ws.
  destruct (skip_ws text) as [|c r] eqn:Hskip; [discriminate|].
  intros H.
  assert (Hlit : exists rest,
             strip_prefix "null" (String c r) = Some rest /\
             is_empty (skip_ws rest) = true).
  { destruct (c =? "{") eqn:Hbrace.
    - destruct (skip_ws r) as [|c' r']; [discriminate|].
      destruct (c' =? "}"); [destruct (is_empty (skip_ws r')); discriminate|].
      destruct (parse_members _ r []) as [[v rest]|] eqn:Hm; [|discriminate].
      destruct (parse_members_unique _ r [] v rest (NoDup_nil _ : NoDup (keys [])) Hm)
        as (kvs & -> & _).
      destruct (is_empty (skip_ws rest)); discriminate.
    - destruct (c =? "[") eqn:Hbracket.
      + destruct (skip_ws r) as [|c' r']; [discriminate|].
        destruct (c' =? "]"); [destruct (is_empty (skip_ws r')); discriminate|].
        destruct (parse_elements _ r []) as [[v rest]|] eqn:Hm; [|discriminate].
        destruct (parse_elements_array _ _ _ _ _ Hm) as (vs & ->).
        destruct (is_empty (skip_ws rest)); discriminate.
      + destruct (c =? quote) eqn:Hquote.
        * destruct (parse_chars r) as [[str rest]|]; [|discriminate].
          destruct (is_empty (skip_ws rest)); discriminate.
        * unfold parse_literal in H.
          destruct (strip_prefix "true" (String c r));
            [destruct (is_empty (skip_ws s)); discriminate|].
          destruct (strip_prefix "false" (String c r));
            [destruct (is_empty (skip_ws s)); discriminate|].
          destruct (strip_prefix "null" (String c r)) as [rest|].
          -- exists rest. split; [reflexivity|].
             destruct (is_empty (skip_ws rest)); [reflexivity | discriminate].
          -- destruct (parse_number (String c r)) as [[n rest]|]; [|discriminate].
             destruct (is_empty (skip_ws rest)); discriminate. }
  destruct Hlit as (rest & Hnull & Hrest).
  apply strip_prefix_eq in Hnull.
  assert (Hblank : forallb_string is_json_ws rest = true).
  { apply skip_empty_class. fold skip_ws.
    destruct (skip_ws rest); [reflexivity | discriminate]. }
  rewrite Htext, Hnull, !includes_char_app.
  rewrite (includes_char_class is_json_ws ws quote Hws eq_refl).
  rewrite (includes_char_class is_json_ws rest quote Hblank eq_refl).
  reflexivity.
Qed.

Lemma match_any_key_no_quote (line : string) :
  includes_char line quote = false -> match_any_key line = None.
Proof.
  unfold includes_char.
  induction line as [|c r IH]; cbn [existsb_string match_any_key]; [reflexivity|].
  intros H. apply orb_false_elim in H. destruct H as [Hc Hr].
  rewrite Ascii.eqb_sym in Hc. fold quote in Hc |- *.
  rewrite Hc. exact (IH Hr).
Qed.

Lemma match_script_key_no_quote (line : string) :
  includes_char line quote = false -> match_script_key line = None.
Proof.
  intros H. unfold match_script_key.
  destruct (skip_space_split line) as (ws & Hline & _).
  destruct (skip_space line) as [|c r]; [reflexivity|].
  rewrite Hline, includes_char_app in H.
  apply orb_false_elim in H. destruct H as [_ H].
  unfold includes_char in H. cbn [existsb_string] in H.
  apply orb_false_elim in H. destruct H as [Hc _].
  rewrite Ascii.eqb_sym in Hc. now rewrite Hc.
Qed.

(** No line of a document that reads as [null] names a key. *)
Lemma null_document_lines (document : TextDocument) (line : nat) (text : string) :
  JSON_parse (getText document) = Some VNull ->
  lineAt document line = Returns text ->
  match_any_key text = None /\ match_script_key text = None.
Proof.
  intros Hparse Hline.
  apply null_text_no_quote in Hparse.
  unfold lineAt in Hline.
  destruct (nth_error (lines document) line) as [l|] eqn:Hnth; [|discriminate].
  injection Hline as ->.
  apply nth_error_In in Hnth.
  pose proof (includes_char_concat _ _ _ Hparse text Hnth) as Hq.
  split; [now apply match_any_key_no_quote | now apply match_script_key_no_quote].
Qed.

End TextFacts.
Import TextFacts.

Module HoverSafety.

Lemma hover_of_throws (content : outcome string) (e : exn) :
  hover_of content = Throws e -> content = Throws e.
Proof. destruct content; [discriminate | now intros [= ->]]. Qed.

Lemma guarded_member (E : Engine) (scripts : option value) (name : string) :
  truthy_opt (member_opt E scripts name) = true ->
  member E scripts name = Returns (member_opt E scripts name).
Proof. destruct scripts as [[]|]; cbn; congruence. Qed.

(** X6.  No property read of [provideHover] hits null or undefined, in
    either provider: [packageJson.scripts] is only read when the hovered
    line names a key, which a document that reads as [null] has on no
    line, and [scripts[scriptName]] is only read after the guarded read
    found a value.  An exception leaves [provideHover] at one of two
    places only: at [lineAt], for a line that the document does not
    have, and in the template literals, when the description or the
    command of the script on the hovered line does not convert to
    text. *)
Theorem hover_throws_only_converting (E : Engine) (document : TextDocument)
    (line : nat) (e : exn) :
  (forall p docsFile,
     fst (Legacy.provideHover E p docsFile document line) = Throws e ->
     lineAt document line = Throws e \/
     exists packageJson text name,
       JSON_parse (getText document) = Some packageJson /\
       lineAt document line = Returns text /\
       match_any_key text = Some name /\
       hover_markdown E name (legacy_description E p docsFile name)
         (member_opt E (member_opt E (Some packageJson) "scripts") name)
       = Throws e)
  /\
  (forall s,
     fst (Nested.provideHover E document line s) = Throws e ->
     lineAt document line = Throws e \/
     exists packageJson text name scriptDocs,
       JSON_parse (getText document) = Some packageJson /\
       lineAt document line = Returns text /\
       match_script_key text = Some name /\
       fst (Nested.loadCustomDocs E false s) = Returns scriptDocs /\
       hover_markdown E name (nested_description E scriptDocs document name)
         (member_opt E (member_opt E (Some packageJson) "scripts") name)
       = Throws e).
Proof.
  split.
  - intros p docsFile. unfold Legacy.provideHover.
    destruct (JSON_parse (getText document)) as [packageJson|] eqn:Hparse;
      [|discriminate].
    destruct (lineAt document line) as [text|e'] eqn:Hline;
      [|intros [= ->]; now left].
    destruct (match_any_key text) as [name|] eqn:Hmatch; [|discriminate].
    intros H. right. exists packageJson, text, name.
    repeat (split; [first [reflexivity | assumption]|]).
    assert (Hnull : packageJson <> VNull).
    { intros ->.
      destruct (null_document_lines document line text Hparse Hline) as [Hnone _].
      congruence. }
    assert (Hscripts : member E (Some packageJson) "scripts"
                       = Returns (member_opt E (Some packageJson) "scripts")).
    { destruct packageJson; try reflexivity. congruence. }
    rewrite Hscripts in H.
    destruct (truthy_opt (member_opt E (member_opt E (Some packageJson) "scripts")
                            name)) eqn:Hguard; [|discriminate].
    cbn [negb] in H. unfold legacy_description.
    destruct (Legacy.loadCustomDocs false p docsFile) as [docs p'].
    rewrite (guarded_member E _ name Hguard) in H. cbn [fst] in H |- *.
    exact (hover_of_throws _ e H).
  - intros s. unfold Nested.provideHover.
    destruct (endsWith (fileName document) "package.json"); [|discriminate].
    destruct (JSON_parse (getText document)) as [packageJson|] eqn:Hparse;
      [|discriminate].
    unfold seq at 1, lift at 1.
    destruct (lineAt document line) as [text|e'] eqn:Hline;
      [|intros [= ->]; now left].
    destruct (match_script_key text) as [name|] eqn:Hmatch; [|discriminate].
    intros H. right.
    destruct (loadCustomDocs_returns E false s) as (scriptDocs & s' & Hload).
    exists packageJson, text, name, scriptDocs.
    repeat (split; [first [reflexivity | assumption]|]).
    split; [now rewrite Hload|].
    assert (Hnull : packageJson <> VNull).
    { intros ->.
      destruct (null_document_lines document line text Hparse Hline) as [_ Hnone].
      congruence. }
    assert (Hscripts : member E (Some packageJson) "scripts"
                       = Returns (member_opt E (Some packageJson) "scripts")).
    { destruct packageJson; try reflexivity. congruence. }
    unfold seq at 1, lift at 1 in H. rewrite Hscripts in H.
    destruct (truthy_opt (member_opt E (member_opt E (Some packageJson) "scripts")
                            name)) eqn:Hguard; [|discriminate].
    cbn [negb] in H. unfold seq at 1 in H. rewrite Hload in H.
    unfold seq, lift, ret in H.
    rewrite (guarded_member E _ name Hguard) in H.
    unfold nested_description.
    destruct (hover_markdown E name _ _); [discriminate|].
    now injection H as ->.
Qed.

Lemma hover_throws_only_converting_witness :
  lineAt unprintable_command 2 = Throws NotPrimitive \/
  exists packageJson text name,
    JSON_parse (getText unprintable_command) = Some packageJson /\
    lineAt unprintable_command 2 = Returns text /\
    match_any_key text = Some name /\
    hover_markdown sample_engine name
      (legacy_description sample_engine Legacy.initial Missing name)
      (member_opt sample_engine
         (member_opt sample_engine (Some packageJson) "scripts") name)
    = Throws NotPrimitive.
Proof.
  apply (proj1 (hover_throws_only_converting sample_engine unprintable_command 2
                  NotPrimitive) Legacy.initial Missing).
  reflexivity.
Defined.

(** X7.  A documentation file that cannot be read or is not JSON does
    not take the hover away: the script is shown with its command and
    the description [No description available.], the message about the
    file format is shown, and the cache stays empty, so that the next
    hover reads the file again. *)
Theorem hover_with_unloadable_docs (E : Engine) (document : TextDocument)
    (line : nat) (top scripts : list (string * value))
    (text name command : string) (p : Nested.Provider) (w : World) :
  endsWith (fileName document) "package.json" = true ->
  JSON_parse (getText document) = Some (VObj top) ->
  lineAt document line = Returns text ->
  match_script_key text = Some name ->
  lookup "scripts" top = Some (VObj scripts) ->
  lookup name scripts = Some (VStr command) ->
  command <> EmptyString ->
  Nested.cachedDocs p = None ->
  workspaceFolders w = true ->
  unloadable (docsFile w) ->
  Nested.provideHover E document line (p, w)
  = (shows name "No description available." command,
     ({| Nested.cachedDocs := None |}, show read_failed w)).
Proof.
  intros Hname Hparse Hline Hmatch Hscripts Hcommand Hnonempty Hcache
    Hfolders Hfile.
  assert (Hload : Nested.loadCustomDocs E false (p, w)
                  = (Returns None,
                     ({| Nested.cachedDocs := None |}, show read_failed w))).
  { rewrite loadCustomDocs_miss by (cbn [fst snd]; rewrite ?Hcache; auto).
    destruct (CacheClaims.read_docs_unloadable E (p, w) Hfile) as (e & He & ->).
    destruct e; try reflexivity. congruence. }
  rewrite (nested_hover E (p, w) _ None document line top scripts text name
             (VStr command) Hname Hparse Hline Hmatch Hscripts Hcommand
             (truthy_command command Hnonempty) Hload).
  reflexivity.
Qed.

Lemma hover_with_unloadable_docs_witness :
  let w := {| workspaceFolders := true; docsFile := Content "{ oops";
              writeFailure := None; packageJsonFiles := []; shown := [] |} in
  Nested.provideHover sample_engine empty_command 4 (Nested.initial, w)
  = (shows "test" "No description available." "jest",
     ({| Nested.cachedDocs := None |}, show read_failed w)).
Proof.
  intro w.
  apply (hover_with_unloadable_docs sample_engine empty_command 4
           [("name", VStr "demo");
            ("scripts", VObj [("build", VStr EmptyString);
                              ("test", VStr "jest")])]%string
           [("build", VStr EmptyString); ("test", VStr "jest")]%string
           (entry_line "    " "test" (dq " 'jest'")));
    try reflexivity.
  discriminate.
Defined.

(** X29.  When the pattern finds no key on the hovered line, or finds a
    key that the [scripts] object does not have and that names no member
    of [Object.prototype], [provideHover] returns null and leaves the
    provider as it was.  Where the line lies in the document plays no
    part. *)
Theorem no_hover_without_script (E : Engine)
    (document : TextDocument) (line : nat)
    (top : list (string * value)) (text : string) :
  JSON_parse (getText document) = Some (VObj top) ->
  lineAt document line = Returns text ->
  ((forall name, match_any_key text = Some name -> not_a_script top name) ->
   forall p docsFile,
     Legacy.provideHover E p docsFile document line = (Returns None, p))
  /\
  ((forall name, match_script_key text = Some name -> not_a_script top name) ->
   forall s, Nested.provideHover E document line s = (Returns None, s)).
Proof.
  intros Hparse Hline. split.
  - intros Hkey p docsFile. unfold Legacy.provideHover.
    rewrite Hparse, Hline.
    destruct (match_any_key text) as [name|] eqn:Hmatch; [|reflexivity].
    cbn [member]. now rewrite (not_a_script_falsy E top name (Hkey name eq_refl)).
  - intros Hkey s. unfold Nested.provideHover.
    destruct (endsWith (fileName document) "package.json"); [|reflexivity].
    rewrite Hparse, Hline. unfold seq at 1. unfold lift at 1.
    destruct (match_script_key text) as [name|] eqn:Hmatch; [|reflexivity].
    unfold seq at 1. unfold lift at 1. cbn [member].
    now rewrite (not_a_script_falsy E top name (Hkey name eq_refl)).
Qed.

Lemma no_hover_without_script_witness :
  fst (Legacy.provideHover sample_engine Legacy.initial Missing empty_command 1)
  = Returns None
  /\ fst (Nested.provideHover sample_engine empty_command 1
            (Nested.initial, no_docs)) = Returns None.
Proof.
  pose proof (no_hover_without_script sample_engine empty_command 1
    [("name", VStr "demo");
     ("scripts", VObj [("build", VStr EmptyString); ("test", VStr "jest")])]%string
    (dq "  'name': 'demo',") eq_refl eq_refl) as [Hlegacy Hnested].
  assert (Hkey : forall name : string,
            Some "name"%string = Some name ->
            not_a_script
              [("name", VStr "demo");
               ("scripts", VObj [("build", VStr EmptyString);
                                 ("test", VStr "jest")])]%string name).
  { intros name Heq. injection Heq as <-.
    split; [reflexivity|]. right. eexists. split; reflexivity. }
  split.
  - now rewrite (Hlegacy Hkey Legacy.initial Missing).
  - now rewrite (Hnested Hkey (Nested.initial, no_docs)).
Defined.

End HoverSafety.

(** ** The description that the hover shows *)

Module DescriptionProperties.

(** X8.  The later provider documents every package by itself.  With
    documentation in the cache, the hover over a script shows the
    description that the documentation has for this script under the
    path of the hovered file; when the documentation has no entry under
    that path the hover says so, whatever it has for a script of the
    same name under other paths.  The cache answers: nothing is read
    and nothing changes. *)
Theorem nested_hover_describes_own_package (E : Engine)
    (document : TextDocument) (line : nat)
    (top scripts members : list (string * value))
    (text name command : string) (w : World) :
  endsWith (fileName document) "package.json" = true ->
  JSON_parse (getText document) = Some (VObj top) ->
  lineAt document line = Returns text ->
  match_script_key text = Some name ->
  lookup "scripts" top = Some (VObj scripts) ->
  lookup name scripts = Some (VStr command) ->
  command <> EmptyString ->
  let s := ({| Nested.cachedDocs := Some (VObj members) |}, w) in
  let hover description := (shows name description command, s) in
  (forall documented description,
     lookup (relativePath document) members = Some (VObj documented) ->
     lookup name documented = Some (VStr description) ->
     description <> EmptyString ->
     Nested.provideHover E document line s = hover description)
  /\
  (lookup (relativePath document) members = None ->
   inherited (relativePath document) = None ->
   Nested.provideHover E document line s = hover "No description available."%string).
Proof.
  intros Hname Hparse Hline Hmatch Hscripts Hcommand Hnonempty s hover.
  assert (Hload : Nested.loadCustomDocs E false s
                  = (Returns (Some (VObj members)), s)).
  { reflexivity. }
  pose proof (nested_hover E s s (Some (VObj members)) document line top
                scripts text name (VStr command) Hname Hparse Hline Hmatch
                Hscripts Hcommand (truthy_command command Hnonempty) Hload)
    as Hhover.
  split.
  - intros documented description Hpackage Hdescription Hdescribed.
    rewrite Hhover. unfold hover. f_equal. apply hover_markdown_text.
    unfold nested_description. cbn [member_opt].
    rewrite get_plain, Hpackage. cbn [member_opt].
    rewrite get_plain, Hdescription.
    cbn [or_else]. now rewrite (truthy_command description Hdescribed).
  - intros Hpackage Hinherited.
    rewrite Hhover. unfold hover. f_equal. apply hover_markdown_text.
    unfold nested_description. cbn [member_opt].
    now rewrite get_plain, Hpackage, Hinherited.
Qed.

Lemma nested_hover_describes_own_package_witness :
  let members :=
    [ ("package.json", VObj [("test", VStr "runs the unit tests")]);
      ("packages/app/package.json", VObj [("test", VStr "runs the app tests")]) ]%string in
  let s := ({| Nested.cachedDocs := Some (VObj members) |}, no_docs) in
  Nested.provideHover sample_engine empty_command 4 s
  = (shows "test" "runs the unit tests" "jest", s).
Proof.
  intros members s.
  apply (proj1 (nested_hover_describes_own_package sample_engine empty_command 4
                  [("name", VStr "demo");
                   ("scripts", VObj [("build", VStr EmptyString);
                                     ("test", VStr "jest")])]%string
                  [("build", VStr EmptyString); ("test", VStr "jest")]%string
                  members (entry_line "    " "test" (dq " 'jest'")) "test" "jest"
                  no_docs eq_refl eq_refl eq_refl eq_refl eq_refl eq_refl
                  ltac:(discriminate))
           [("test", VStr "runs the unit tests")]%string
           "runs the unit tests"%string);
    try reflexivity.
  discriminate.
Defined.

Lemma default_truthy (name : string) (builtin : value) :
  lookup name (own_entries Legacy.defaultDocs) = Some builtin ->
  truthy builtin = true.
Proof.
  cbn [own_entries Legacy.defaultDocs lookup].
  repeat (destruct (String.eqb name _); [now intros [= <-]|]).
  discriminate.
Qed.

(** X9.  What the provider with built-in descriptions says of a
    script, with custom documentation in the file and an empty cache: a
    custom description that is truthy; [No description available.] for a
    custom description that is falsy (the empty string, null), also for
    a script that has a built-in description; the built-in description
    for a script that the custom documentation does not name; and [No
    description available.] for a script that neither names (and that
    no object inherits). *)
Theorem legacy_description_cases (E : Engine) (text : string)
    (customDocs : value) (name : string) :
  JSON_parse text = Some customDocs ->
  let description := legacy_description E Legacy.initial (Content text) name in
  (forall custom,
     lookup name (own_entries customDocs) = Some custom ->
     description = if truthy custom then custom else no_description)
  /\
  (lookup name (own_entries customDocs) = None ->
   (forall builtin,
      lookup name (own_entries Legacy.defaultDocs) = Some builtin ->
      description = builtin) /\
   (lookup name (own_entries Legacy.defaultDocs) = None ->
    inherited name = None ->
    description = no_description)).
Proof.
  intros Hparse description.
  assert (Hdocs : fst (Legacy.loadCustomDocs false Legacy.initial (Content text))
                  = Legacy.merge Legacy.defaultDocs customDocs).
  { unfold Legacy.loadCustomDocs. cbn [Legacy.cachedDocs Legacy.initial fst].
    exact (LegacyFacts.load_content text customDocs Hparse). }
  assert (Hlookup : forall k,
            get E (Legacy.merge Legacy.defaultDocs customDocs) k
            = match lookup k (own_entries customDocs) with
              | Some v => Some v
              | None =>
                  match lookup k (own_entries Legacy.defaultDocs) with
                  | Some v => Some v
                  | None => inherited k
                  end
              end).
  { intros k.
    pose proof (LegacyFacts.merge_lookup Legacy.defaultDocs customDocs k
                  (proj1 LegacyFacts.defaults_unique)
                  (JSON_parse_unique_keys text customDocs Hparse)) as Hmerge.
    unfold Legacy.merge in Hmerge |- *. cbn [own_entries] in Hmerge.
    rewrite get_plain, Hmerge.
    destruct (lookup k (own_entries customDocs)); [reflexivity|].
    cbn [own_entries]. now destruct (lookup k _). }
  unfold description, legacy_description. rewrite Hdocs, Hlookup.
  split.
  - intros custom ->. reflexivity.
  - intros ->. split.
    + intros builtin Hbuiltin. rewrite Hbuiltin. cbn [or_else].
      now rewrite (default_truthy name builtin Hbuiltin).
    + intros -> ->. reflexivity.
Qed.

Lemma legacy_description_cases_witness :
  let text := dq "{ 'test': '', 'deploy': 'ships it' }" in
  legacy_description sample_engine Legacy.initial (Content text) "test"
  = no_description /\
  legacy_description sample_engine Legacy.initial (Content text) "deploy"
  = VStr "ships it" /\
  legacy_description sample_engine Legacy.initial (Content text) "lint"
  = VStr "Runs code linting".
Proof.
  intros text.
  pose (customDocs := VObj [("test", VStr EmptyString);
                            ("deploy", VStr "ships it")]%string).
  split; [|split].
  - exact (proj1 (legacy_description_cases sample_engine text customDocs "test"
                    eq_refl) (VStr EmptyString) eq_refl).
  - exact (proj1 (legacy_description_cases sample_engine text customDocs "deploy"
                    eq_refl) (VStr "ships it") eq_refl).
  - exact (proj1 (proj2 (legacy_description_cases sample_engine text customDocs
                           "lint" eq_refl) eq_refl)
             (VStr "Runs code linting") eq_refl).
Defined.

(** X10.  A migration is not seen in the hover.  The first hover over
    a script of the package file at the root, with a flat documentation
    file and an empty cache, converts the file and shows the description
    that the flat file has for the script. *)
Theorem hover_through_migration (E : Engine) (document : TextDocument)
    (line : nat) (top scripts flat : list (string * value))
    (text name command docs description : string)
    (p : Nested.Provider) (w : World) :
  endsWith (fileName document) "package.json" = true ->
  relativePath document = "package.json"%string ->
  JSON_parse (getText document) = Some (VObj top) ->
  lineAt document line = Returns text ->
  match_script_key text = Some name ->
  lookup "scripts" top = Some (VObj scripts) ->
  lookup name scripts = Some (VStr command) ->
  command <> EmptyString ->
  Nested.cachedDocs p = None ->
  workspaceFolders w = true ->
  writeFailure w = None ->
  docsFile w = Content docs ->
  JSON_parse docs = Some (VObj flat) ->
  Nested.looksLikeOldStructure (VObj flat) = true ->
  lookup name flat = Some (VStr description) ->
  description <> EmptyString ->
  exists out,
    JSON_stringify E (Nested.migrate E (VObj flat) (packageJsonFiles w))
    = Some out /\
    Nested.provideHover E document line (p, w)
    = (shows name description command,
       ({| Nested.cachedDocs :=
             Some (Nested.migrate E (VObj flat) (packageJsonFiles w)) |},
        show converted (store out (show detected w)))).
Proof.
  intros Hname Hrelative Hparse Hline Hmatch Hscripts Hcommand Hnonempty
    Hcache Hfolders Hwrite Hfile Hdocs Hold Hdescription Hdescribed.
  destruct (migrate_shape E (VObj flat) (packageJsonFiles w))
    as (members & Hmigrate & (_ & Hroot & _) & _).
  destruct (stringify_object E EmptyString members) as (out & Hout).
  exists out. rewrite Hmigrate. split; [exact Hout|].
  assert (Hload : Nested.loadCustomDocs E false (p, w)
                  = (Returns (Some (VObj members)),
                     ({| Nested.cachedDocs := Some (VObj members) |},
                      show converted (store out (show detected w))))).
  { rewrite loadCustomDocs_miss by (cbn [fst snd]; rewrite ?Hcache; auto).
    rewrite (read_docs_migrates E p w docs out (VObj flat) Hfile Hdocs Hold
               Hwrite); [|now rewrite Hmigrate].
    now rewrite Hmigrate. }
  rewrite (nested_hover E (p, w) _ (Some (VObj members)) document line top
             scripts text name (VStr command) Hname Hparse Hline Hmatch
             Hscripts Hcommand (truthy_command command Hnonempty) Hload).
  f_equal. apply hover_markdown_text.
  unfold nested_description. rewrite Hrelative. cbn [member_opt].
  rewrite get_plain, Hroot. cbn [member_opt].
  rewrite get_plain, Hdescription. cbn [or_else].
  now rewrite (truthy_command description Hdescribed).
Qed.

Lemma hover_through_migration_witness :
  let w := {| workspaceFolders := true;
              docsFile := Content (dq "{'test':'runs the unit tests'}");
              writeFailure := None;
              packageJsonFiles := two_packages; shown := [] |} in
  exists out s',
    docsFile (snd s') = Content out /\
    Nested.provideHover sample_engine empty_command 4 (Nested.initial, w)
    = (shows "test" "runs the unit tests" "jest", s').
Proof.
  intros w.
  destruct (hover_through_migration sample_engine empty_command 4
              [("name", VStr "demo");
               ("scripts", VObj [("build", VStr EmptyString);
                                 ("test", VStr "jest")])]%string
              [("build", VStr EmptyString); ("test", VStr "jest")]%string
              [("test", VStr "runs the unit tests")]%string
              (entry_line "    " "test" (dq " 'jest'")) "test" "jest"
              (dq "{'test':'runs the unit tests'}") "runs the unit tests"
              Nested.initial w
              eq_refl eq_refl eq_refl eq_refl eq_refl eq_refl eq_refl
              ltac:(discriminate) eq_refl eq_refl eq_refl eq_refl eq_refl
              eq_refl eq_refl ltac:(discriminate))
    as (out & _ & Hhover).
  eexists out, _. split; [|exact Hhover]. reflexivity.
Defined.

End DescriptionProperties.

(** ** The cache of the provider with built-in descriptions *)

Module LegacyCache.

Lemma load_truthy (docsFile : file_state) : truthy (Legacy.load docsFile) = true.
Proof.
  unfold Legacy.load, recover, bind.
  destruct docsFile as [| m | text]; cbn [readFile]; try reflexivity.
  unfold JSON_parse_outcome. destruct (JSON_parse text); reflexivity.
Qed.

(** X11.  The provider with built-in descriptions fills its cache on the
    first load and answers every later load without [force] from it: the
    documentation stays what it was whatever the file has become since,
    until [clearCache] empties the cache, after which the file is read
    again. *)
Theorem legacy_cache_answers_later_loads (p : Legacy.Provider)
    (docsFile later : file_state) :
  let loaded := Legacy.loadCustomDocs false p docsFile in
  Legacy.loadCustomDocs false (snd loaded) later = loaded /\
  Legacy.loadCustomDocs false (Legacy.clearCache (snd loaded)) later
  = (Legacy.load later, {| Legacy.cachedDocs := Some (Legacy.load later) |}).
Proof.
  cbn zeta. split; [|reflexivity].
  unfold Legacy.loadCustomDocs.
  destruct p as [[cached|]]; cbn [Legacy.cachedDocs].
  - destruct (truthy cached) eqn:Htruthy; cbn [andb negb snd Legacy.cachedDocs].
    + now rewrite Htruthy.
    + now rewrite load_truthy.
  - cbn [snd Legacy.cachedDocs andb negb]. now rewrite load_truthy.
Qed.



End LegacyCache.

(** ** What the command that regenerates the file answers *)

Module CommandOutcomes.

Lemma stringify_textual (E : Engine) (v : value) :
  textual v -> exists out, JSON_stringify E v = Some out.
Proof.
  intros Htext.
  destruct (textual_reads_back E v Htext EmptyString eq_refl) as (t & Ht & _).
  now exists t.
Qed.

(** The first run of the command: no documentation file yet. *)
Lemma update_first_run (E : Engine) (w : World) (newDocs : value) (out : string) :
  workspaceFolders w = true ->
  writeFailure w = None ->
  packageJsonFiles w <> [] ->
  docsFile w = Missing ->
  Extension.regenerate E (VObj []) (packageJsonFiles w) = Returns newDocs ->
  JSON_stringify E newDocs = Some out ->
  Extension.updateScriptDocsForWorkspace E w
  = (Returns tt, show docs_updated (store out (show docs_not_found w))).
Proof.
  intros Hfolders Hwrite Hfiles Hfile Hregenerate Hout.
  command_step. rewrite Hfolders. command_step.
  rewrite Hfile. command_step.
  destruct (packageJsonFiles w) as [|f files] eqn:Hlist; [congruence|].
  command_step. rewrite Hregenerate. command_step.
  rewrite Hout. command_step. now rewrite Hwrite.
Qed.

(** X13.  Without anything to work on the command writes nothing and
    tells why.  With no workspace folder it shows one message, [No
    workspace folder found].  With a folder but neither a package file
    nor a documentation file that can be loaded, it shows what the
    reading found and then that there is nothing to scan. *)
Theorem update_without_input (E : Engine) (w : World) :
  (workspaceFolders w = false ->
   Extension.updateScriptDocsForWorkspace E w
   = (Returns tt, show (update_failed "No workspace folder found") w))
  /\
  (workspaceFolders w = true ->
   packageJsonFiles w = [] ->
   docsFile w = Missing \/ unloadable (docsFile w) ->
   Extension.updateScriptDocsForWorkspace E w
   = (Returns tt,
      show (update_failed
              "No package.json files found in workspace and no existing script-docs.json.")
        (show match docsFile w with
              | Missing => docs_not_found
              | _ => docs_not_read
              end w))).
Proof.
  split.
  - intros Hfolders. command_step. now rewrite Hfolders.
  - intros Hfolders Hfiles Hfile.
    command_step. rewrite Hfolders. command_step. rewrite Hfiles.
    destruct (docsFile w) as [| m | text]; command_step.
    + reflexivity.
    + reflexivity.
    + destruct Hfile as [Hfile | Hfile]; [discriminate|].
      cbn [unloadable] in Hfile. rewrite Hfile. reflexivity.
Qed.

Lemma update_without_input_witness :
  let closed := {| workspaceFolders := false; docsFile := Missing;
                   writeFailure := None; packageJsonFiles := []; shown := [] |} in
  let bare := {| workspaceFolders := true; docsFile := Content "{ oops";
                 writeFailure := None; packageJsonFiles := []; shown := [] |} in
  Extension.updateScriptDocsForWorkspace sample_engine closed
  = (Returns tt, show (update_failed "No workspace folder found") closed)
  /\
  Extension.updateScriptDocsForWorkspace sample_engine bare
  = (Returns tt,
     show (update_failed
             "No package.json files found in workspace and no existing script-docs.json.")
       (show docs_not_read bare)).
Proof.
  intros closed bare. split.
  - exact (proj1 (update_without_input sample_engine closed) eq_refl).
  - exact (proj2 (update_without_input sample_engine bare) eq_refl eq_refl
             (or_intror eq_refl)).
Defined.

(** X14.  With no package file in the workspace, documentation that
    the file holds is kept: the command writes it back, indented anew,
    and the written text reads as the same value.  (Stated for
    documentation without numbers.) *)
Theorem update_keeps_docs_without_packages (E : Engine) (w : World)
    (text : string) (existingDocs : value) :
  workspaceFolders w = true ->
  writeFailure w = None ->
  packageJsonFiles w = [] ->
  docsFile w = Content text ->
  JSON_parse text = Some existingDocs ->
  textual existingDocs ->
  exists out,
    Extension.updateScriptDocsForWorkspace E w
    = (Returns tt, store out (show docs_kept (show docs_found w))) /\
    JSON_parse out = Some existingDocs.
Proof.
  intros Hfolders Hwrite Hfiles Hfile Hparse Htext.
  destruct (stringify_textual E existingDocs Htext) as (out & Hout).
  exists out. split.
  - command_step. rewrite Hfolders. command_step.
    rewrite Hfile. command_step. rewrite Hparse. command_step.
    rewrite Hfiles. command_step. rewrite Hout. command_step.
    now rewrite Hwrite.
  - exact (stringify_parse E existingDocs out Htext Hout).
Qed.

Lemma update_keeps_docs_without_packages_witness :
  let text := dq "{'package.json':{'build':'old desc'}}" in
  let w := {| workspaceFolders := true; docsFile := Content text;
              writeFailure := None; packageJsonFiles := []; shown := [] |} in
  exists out,
    Extension.updateScriptDocsForWorkspace sample_engine w
    = (Returns tt, store out (show docs_kept (show docs_found w))) /\
    JSON_parse out = Some (VObj old_docs).
Proof.
  intros text w.
  apply (update_keeps_docs_without_packages sample_engine w text (VObj old_docs));
    try reflexivity.
  cbn. repeat split; (constructor; [intros [] | constructor]).
Defined.

(** X15.  A documentation file that cannot be read or is not JSON is
    replaced: after the message that it could not be read, the command
    regenerates the documentation from nothing and writes it over the
    file. *)
Theorem update_replaces_unloadable_docs (E : Engine) (w : World) :
  workspaceFolders w = true ->
  writeFailure w = None ->
  packageJsonFiles w <> [] ->
  NoDup (map asRelativePath (packageJsonFiles w)) ->
  unloadable (docsFile w) ->
  exists newDocs out,
    Extension.regenerate E (VObj []) (packageJsonFiles w) = Returns newDocs /\
    JSON_stringify E newDocs = Some out /\
    Extension.updateScriptDocsForWorkspace E w
    = (Returns tt, show docs_updated (store out (show docs_not_read w))).
Proof.
  intros Hfolders Hwrite Hfiles Hpaths Hfile.
  destruct (regenerate_entries E [] (packageJsonFiles w) Hpaths)
    as (members & Hregenerate & _).
  destruct (stringify_object E EmptyString members) as (out & Hout).
  exists (VObj members), out. split; [exact Hregenerate|]. split; [exact Hout|].
  command_step. rewrite Hfolders. command_step.
  destruct (docsFile w) as [| m | text]; cbn [unloadable readFile] in *;
    [contradiction | |].
  - command_step.
    destruct (packageJsonFiles w) as [|f files] eqn:Hlist; [congruence|].
    command_step. rewrite Hregenerate. command_step.
    unfold JSON_stringify in Hout |- *. rewrite Hout. command_step.
    now rewrite Hwrite.
  - rewrite Hfile. command_step.
    destruct (packageJsonFiles w) as [|f files] eqn:Hlist; [congruence|].
    command_step. rewrite Hregenerate. command_step.
    unfold JSON_stringify in Hout |- *. rewrite Hout. command_step.
    now rewrite Hwrite.
Qed.

Lemma update_replaces_unloadable_docs_witness :
  let w := {| workspaceFolders := true; docsFile := Content "{ oops";
              writeFailure := None; packageJsonFiles := two_packages;
              shown := [] |} in
  exists newDocs out,
    Extension.regenerate sample_engine (VObj []) two_packages = Returns newDocs /\
    JSON_stringify sample_engine newDocs = Some out /\
    Extension.updateScriptDocsForWorkspace sample_engine w
    = (Returns tt, show docs_updated (store out (show docs_not_read w))).
Proof.
  intro w.
  apply (update_replaces_unloadable_docs sample_engine w); try reflexivity.
  - discriminate.
  - repeat constructor; simpl; intuition discriminate.
Defined.

(** X16.  When the write of the regenerated documentation fails, the
    documentation file stays as it was and the command ends with the
    message [Failed to update script-docs.json:] and the message of the
    failure; it does not say that the file was updated. *)
Theorem update_reports_failed_write (E : Engine) (w : World)
    (text : string) (existing : list (string * value)) (failure : exn) :
  workspaceFolders w = true ->
  packageJsonFiles w <> [] ->
  NoDup (map asRelativePath (packageJsonFiles w)) ->
  docsFile w = Content text ->
  JSON_parse text = Some (VObj existing) ->
  writeFailure w = Some failure ->
  Extension.updateScriptDocsForWorkspace E w
  = (Returns tt, show (update_failed (message E failure)) (show docs_found w)).
Proof.
  intros Hfolders Hfiles Hpaths Hfile Hparse Hwrite.
  destruct (regenerate_entries E existing (packageJsonFiles w) Hpaths)
    as (members & Hregenerate & _).
  destruct (stringify_object E EmptyString members) as (out & Hout).
  command_step. rewrite Hfolders. command_step.
  rewrite Hfile. command_step. rewrite Hparse. command_step.
  destruct (packageJsonFiles w) as [|f files] eqn:Hlist; [congruence|].
  command_step. rewrite Hregenerate. command_step.
  unfold JSON_stringify. rewrite Hout. command_step.
  now rewrite Hwrite.
Qed.

Lemma update_reports_failed_write_witness :
  let text := dq "{'package.json':{'build':'old desc'}}" in
  let w := {| workspaceFolders := true; docsFile := Content text;
              writeFailure := Some (FileSystemFailure "read-only file system");
              packageJsonFiles := two_packages; shown := [] |} in
  Extension.updateScriptDocsForWorkspace sample_engine w
  = (Returns tt,
     show (update_failed "read-only file system") (show docs_found w)).
Proof.
  intros text w.
  apply (update_reports_failed_write sample_engine w text old_docs
           (FileSystemFailure "read-only file system")); try reflexivity.
  - discriminate.
  - repeat constructor; simpl; intuition discriminate.
Defined.

End CommandOutcomes.

(** ** More on regenerating the documentation *)

Module RegenerateMore.

Lemma found_in (path : string) (files : list PackageFile) :
  found path files = true <-> In path (map asRelativePath files).
Proof.
  unfold found. rewrite existsb_exists. split.
  - intros (x & Hin & Heq). apply String.eqb_eq in Heq. now subst.
  - intros Hin. exists path. split; [exact Hin | apply String.eqb_refl].
Qed.

Lemma lookup_app (a b : list (string * value)) (k : string) :
  lookup k (a ++ b) =
  match lookup k a with Some v => Some v | None => lookup k b end.
Proof.
  induction a as [|[k0 v0] a IH]; cbn [List.app lookup]; [reflexivity|].
  destruct (String.eqb k k0); [reflexivity | exact IH].
Qed.

Lemma lookup_filter (keep : string -> bool) (kvs : list (string * value))
    (k : string) :
  lookup k (filter (fun kv => keep (fst kv)) kvs)
  = if keep k then lookup k kvs else None.
Proof.
  induction kvs as [|[k0 v0] kvs IH]; cbn [filter lookup fst].
  - now destruct (keep k).
  - destruct (keep k0) eqn:Hk0; cbn [lookup].
    + destruct (String.eqb_spec k k0) as [->|]; [now rewrite Hk0 | exact IH].
    + destruct (String.eqb_spec k k0) as [->|]; [|exact IH].
      rewrite IH. now rewrite Hk0.
Qed.

Lemma inherited_truthy (k : string) (v : value) :
  inherited k = Some v -> truthy v = true.
Proof.
  unfold inherited.
  destruct (String.eqb k "__proto__"); [now intros [= <-]|].
  destruct (existsb _ _); [now intros [= <-] | discriminate].
Qed.

Section WithEngine.
Context (E : Engine).

Lemma scanned_keys (existing : list (string * value)) (files : list PackageFile) :
  forall m k,
    In k (keys (scanned E existing files m)) <->
    In k (keys m) \/ In k (map asRelativePath files).
Proof.
  induction files as [|f files IH]; intros m k.
  - cbn. tauto.
  - change (scanned E existing (f :: files) m)
      with (scanned E existing files
              (define m (asRelativePath f) (entry E existing f))).
    rewrite IH, keys_define_in. cbn [map In]. intuition (subst; auto).
Qed.

Lemma scanned_unique (existing : list (string * value)) (files : list PackageFile) :
  forall m, NoDup (keys m) -> NoDup (keys (scanned E existing files m)).
Proof.
  induction files as [|f files IH]; intros m Hm; [exact Hm|].
  change (scanned E existing (f :: files) m)
    with (scanned E existing files
            (define m (asRelativePath f) (entry E existing f))).
  apply IH. now apply define_unique.
Qed.

Lemma scanned_truthy (existing : list (string * value)) (files : list PackageFile)
    (k : string) (v : value) :
  lookup k (scanned E existing files []) = Some v -> truthy v = true.
Proof.
  assert (Hall : forall m,
            (forall v, lookup k m = Some v -> truthy v = true) ->
            forall v, lookup k (scanned E existing files m) = Some v ->
                      truthy v = true).
  { induction files as [|f files IH]; intros m Hm v0 Hv; [now apply Hm|].
    change (scanned E existing (f :: files) m)
      with (scanned E existing files
              (define m (asRelativePath f) (entry E existing f))) in Hv.
    apply (IH (define m (asRelativePath f) (entry E existing f))); [|exact Hv].
    intros v1. rewrite lookup_define.
    destruct (String.eqb k (asRelativePath f)); [|apply Hm].
    intros [= <-]. apply entry_truthy. }
  apply Hall. discriminate.
Qed.

(** The loop that keeps the packages not found, on documentation with
    pairwise different keys: it appends the members that are asked for
    and found under no name. *)
Lemma keep_missing_appends (scan entries : list (string * value)) :
  (forall k v, lookup k scan = Some v -> truthy v = true) ->
  forall kept,
    NoDup (keys kept ++ keys entries) ->
    (forall k, In k (keys kept) -> lookup k scan = None) ->
    fold_left
      (fun newDocs kv =>
         if negb (truthy_opt (get E newDocs (fst kv)))
         then assign newDocs (fst kv) (snd kv)
         else newDocs)
      entries (VObj (scan ++ kept))
    = VObj (scan ++ kept ++
            filter (fun kv =>
                      match lookup (fst kv) scan with
                      | Some _ => false
                      | None =>
                          match inherited (fst kv) with
                          | Some _ => false
                          | None => true
                          end
                      end) entries).
Proof.
  intros Htruthy.
  induction entries as [|[k x] entries IH]; intros kept Hnd Hkept.
  - cbn [fold_left filter]. now rewrite app_nil_r.
  - cbn [fold_left filter fst snd].
    assert (Hfresh : ~ In k (keys kept)).
    { intros Hin. apply NoDup_remove_2 in Hnd. apply Hnd.
      apply in_or_app. now left. }
    assert (Hrest : NoDup (keys kept ++ keys entries)).
    { now apply NoDup_remove_1 in Hnd. }
    rewrite get_plain, lookup_app.
    destruct (lookup k scan) as [v|] eqn:Hscan.
    + cbn [truthy_opt]. rewrite (Htruthy k v Hscan). cbn [negb].
      now apply IH.
    + assert (Hnone : lookup k kept = None) by now apply lookup_none_iff.
      rewrite Hnone.
      destruct (inherited k) as [v|] eqn:Hinh.
      * cbn [truthy_opt]. rewrite (inherited_truthy k v Hinh). cbn [negb].
        now apply IH.
      * cbn [truthy_opt negb].
        assert (Hproto : String.eqb k "__proto__" = false).
        { destruct (String.eqb_spec k "__proto__") as [->|]; [|reflexivity].
          discriminate Hinh. }
        assert (Hassign : assign (VObj (scan ++ kept)) k x
                          = VObj (scan ++ (kept ++ [(k, x)]))).
        { unfold assign. rewrite Hproto. rewrite define_fresh.
          - now rewrite <- app_assoc.
          - unfold keys. rewrite map_app. intros Hin.
            apply in_app_or in Hin. destruct Hin as [Hin|Hin].
            + apply lookup_none_iff in Hscan. contradiction.
            + contradiction. }
        rewrite Hassign.
        rewrite (IH (kept ++ [(k, x)])).
        -- now rewrite <- !app_assoc.
        -- unfold keys. rewrite map_app. cbn [map fst].
           rewrite <- app_assoc. exact Hnd.
        -- intros k0 Hin. unfold keys in Hin. rewrite map_app in Hin.
           apply in_app_or in Hin. destruct Hin as [Hin|[<-|[]]];
             [now apply Hkept | exact Hscan].
Qed.

(** The regenerated documentation, member by member: the entries of
    the scan in the order of the files, then what is kept of the
    existing documentation. *)
Lemma regenerate_members (existing : list (string * value))
    (files : list PackageFile) :
  NoDup (map asRelativePath files) ->
  NoDup (keys existing) ->
  Extension.regenerate E (VObj existing) files
  = Returns (VObj (scanned E existing files [] ++ unscanned files existing)).
Proof.
  intros Hpaths Hkeys. unfold Extension.regenerate.
  rewrite scan_all by (assumption || reflexivity).
  unfold Extension.keep_missing. cbn [own_entries]. f_equal.
  pose proof (keep_missing_appends (scanned E existing files []) existing
                (scanned_truthy existing files) [] Hkeys
                (fun k (H : In k (keys [])) => match H with end)) as Hfold.
  rewrite app_nil_r in Hfold. rewrite Hfold. cbn [List.app]. do 2 f_equal.
  unfold unscanned. apply filter_ext. intros [k v]. cbn [fst].
  destruct (found k files) eqn:Hfound.
  - apply found_in in Hfound.
    assert (Hin : In k (keys (scanned E existing files []))).
    { apply scanned_keys. now right. }
    destruct (lookup k (scanned E existing files [])) eqn:Hl; [reflexivity|].
    apply lookup_none_iff in Hl. contradiction.
  - rewrite scanned_other; [reflexivity|].
    intros Hin. apply found_in in Hin. congruence.
Qed.

Lemma assign_each_ext (val val' : string -> outcome value) (names : list string) :
  (forall name, In name names ->
     exists v, val name = Returns v /\
               exists v', val' name = Returns v' /\
                          (name <> "__proto__"%string -> v' = v)) ->
  forall o,
    lookup "__proto__" o = None ->
    assign_each val' names (VObj o) = assign_each val names (VObj o).
Proof.
  induction names as [|n names IH]; intros Hval o Hproto; [reflexivity|].
  cbn [assign_each].
  destruct (Hval n (or_introl eq_refl)) as (v & -> & v' & -> & Hsame).
  cbn [bind].
  destruct (String.eqb_spec n "__proto__") as [->|Hn].
  - unfold assign. cbn [String.eqb Ascii.eqb Bool.eqb]. rewrite Hproto.
    apply IH; [|exact Hproto]. intros name Hin. apply Hval. now right.
  - rewrite (Hsame Hn).
    unfold assign.
    destruct (String.eqb_spec n "__proto__"); [contradiction|].
    apply IH.
    + intros name Hin. apply Hval. now right.
    + rewrite lookup_define.
      destruct (String.eqb_spec "__proto__" n); [congruence | exact Hproto].
Qed.

Lemma template_truthy (scriptName relativePath : string) (command : option value)
    (v : value) :
  Extension.template E scriptName relativePath command = Returns v ->
  truthy v = true.
Proof.
  unfold Extension.template.
  destruct (ToString_opt E command); [|discriminate].
  now intros [= <-].
Qed.

Lemma or_else_truthy (a : option value) (b : value) :
  truthy b = true -> truthy (or_else a b) = true.
Proof.
  intros Hb. unfold or_else. destruct a as [v|]; [|exact Hb].
  destruct (truthy v) eqn:Hv; [exact Hv | exact Hb].
Qed.

Lemma description_truthy (existing : list (string * value))
    (relativePath : string) (scripts : value) (scriptName : string) (v : value) :
  description_for E existing relativePath scripts scriptName = Returns v ->
  truthy v = true.
Proof.
  unfold description_for, or_else_try.
  destruct (described E existing relativePath scriptName) as [d|].
  - destruct (truthy d) eqn:Hd; [now intros [= <-] | apply template_truthy].
  - apply template_truthy.
Qed.

(** The loop over the scripts stops at none of them when all their
    commands convert to text. *)
Lemma description_returns (existing : list (string * value))
    (relativePath : string) (scripts : value) :
  (forall name command,
     lookup name (own_entries scripts) = Some command -> printable E command) ->
  forall name,
    In name (Object_keys scripts) ->
    exists v, description_for E existing relativePath scripts name = Returns v.
Proof.
  intros Hprintable name Hin.
  destruct (lookup name (own_entries scripts)) as [command|] eqn:Hcommand.
  - destruct (Hprintable name command Hcommand) as (written & Hwritten).
    unfold description_for, or_else_try, Extension.template, get.
    rewrite Hcommand. cbn [ToString_opt]. rewrite Hwritten. cbn [bind].
    destruct (described E existing relativePath name) as [d|]; [|eauto].
    destruct (truthy d); eauto.
  - apply lookup_none_iff in Hcommand. contradiction.
Qed.

(** The descriptions of the scripts of a file are the same again when
    the documentation already holds them. *)
Lemma documented_again (existing newDocs : list (string * value))
    (relativePath : string) (scripts held : value) :
  (forall name command,
     lookup name (own_entries scripts) = Some command -> printable E command) ->
  get E (VObj newDocs) relativePath = Some held ->
  describe E existing relativePath scripts (Object_keys scripts) (VObj [])
  = Returns held ->
  describe E newDocs relativePath scripts (Object_keys scripts) (VObj [])
  = Returns held.
Proof.
  intros Hprintable Hget Hheld. rewrite <- Hheld. unfold describe.
  apply assign_each_ext; [|reflexivity].
  intros scriptName Hin.
  destruct (description_returns existing relativePath scripts Hprintable
              scriptName Hin) as (v & Hv).
  destruct (description_returns newDocs relativePath scripts Hprintable
              scriptName Hin) as (v' & Hv').
  exists v. split; [exact Hv|]. exists v'. split; [exact Hv'|].
  intros Hproto.
  destruct (assign_each_object _ _ _ _ Hheld) as (documented & ->).
  destruct (assign_each_lookup _ scriptName _ Hproto [] documented Hheld
              (or_introl Hin)) as (v0 & Hv0 & Hlookup).
  rewrite Hv in Hv0. injection Hv0 as <-.
  unfold description_for, described in Hv'.
  rewrite Hget in Hv'. cbn [member_opt] in Hv'.
  rewrite get_plain, Hlookup in Hv'. cbn [or_else_try] in Hv'.
  rewrite (description_truthy _ _ _ _ _ Hv) in Hv'.
  now injection Hv' as <-.
Qed.

(** The entry of a file is the same again when the documentation
    already holds it. *)
Lemma entry_again (existing newDocs : list (string * value)) (f : PackageFile) :
  printable_scripts E f ->
  lookup (asRelativePath f) newDocs = Some (entry E existing f) ->
  entry E newDocs f = entry E existing f.
Proof.
  intros Hprintable Hheld.
  pose proof (entry_truthy E existing f) as Htruthy.
  remember (entry E existing f) as held eqn:Hentry.
  assert (Hget : get E (VObj newDocs) (asRelativePath f) = Some held).
  { now rewrite get_plain, Hheld. }
  unfold entry, fallback in Hentry |- *. rewrite Hget, Htruthy.
  unfold printable_scripts in Hprintable.
  destruct (file f) as [| m | text] eqn:Hfile; cbn [readFile bind] in *;
    try reflexivity.
  unfold JSON_parse_outcome in *.
  destruct (JSON_parse text) as [packageJson|] eqn:Hparse; [|reflexivity].
  destruct packageJson; try reflexivity;
    (destruct (get E _ "scripts") as [scripts|] eqn:Hscripts; [|reflexivity];
     destruct (truthy scripts); [|reflexivity];
     pose proof (fun name command =>
                   Hprintable text _ scripts name command eq_refl Hparse Hscripts)
       as Hcommands;
     destruct (assign_each_returns _ _
                 (description_returns existing (asRelativePath f) scripts
                    Hcommands) (VObj [])) as (documented & Hdocumented);
     fold (describe E existing (asRelativePath f) scripts) in Hdocumented;
     rewrite Hdocumented in Hentry; subst held;
     now rewrite (documented_again existing newDocs _ scripts documented
                    Hcommands Hget Hdocumented)).
Qed.

Lemma scanned_ext (existing existing' : list (string * value))
    (files : list PackageFile) :
  (forall f, In f files -> entry E existing' f = entry E existing f) ->
  forall m, scanned E existing' files m = scanned E existing files m.
Proof.
  induction files as [|f files IH]; intros Hsame m; [reflexivity|].
  change (scanned E existing' (f :: files) m)
    with (scanned E existing' files
            (define m (asRelativePath f) (entry E existing' f))).
  change (scanned E existing (f :: files) m)
    with (scanned E existing files
            (define m (asRelativePath f) (entry E existing f))).
  rewrite (Hsame f (or_introl eq_refl)).
  apply IH. intros g Hg. apply Hsame. now right.
Qed.

Lemma define_members (m : list (string * value)) (k : string) (v : value)
    (k' : string) (v' : value) :
  In (k', v') (define m k v) -> v' = v \/ In (k', v') m.
Proof.
  induction m as [|[k0 v0] m IH]; cbn [define].
  - intros [[= <- <-]|[]]. now left.
  - destruct (String.eqb k k0).
    + intros [[= <- <-]|Hin]; [now left | right; now right].
    + intros [Heq|Hin]; [right; now left|].
      destruct (IH Hin) as [->|Hin']; [now left | right; now right].
Qed.

Lemma assign_each_textual (val : string -> outcome value) (names : list string) :
  (forall name v, val name = Returns v -> textual v) ->
  forall o documented,
    NoDup (keys o) ->
    (forall k v, In (k, v) o -> textual v) ->
    assign_each val names (VObj o) = Returns documented ->
    textual documented.
Proof.
  intros Hval.
  induction names as [|n names IH]; intros o documented Hnd Hall H.
  - injection H as <-. now apply textual_object.
  - cbn [assign_each] in H. destruct (val n) as [x|] eqn:Hx; [|discriminate].
    cbn [bind] in H.
    assert (Hstep : exists o1,
              assign (VObj o) n x = VObj o1 /\
              NoDup (keys o1) /\
              forall k v, In (k, v) o1 -> textual v).
    { assert (Hdefine : NoDup (keys (define o n x)) /\
                        forall k v, In (k, v) (define o n x) -> textual v).
      { split; [now apply define_unique|].
        intros k v Hin. destruct (define_members _ _ _ _ _ Hin) as [->|Hin'];
          [exact (Hval n x Hx) | exact (Hall k v Hin')]. }
      unfold assign. destruct (String.eqb n "__proto__").
      - destruct (lookup n o); eauto.
      - eauto. }
    destruct Hstep as (o1 & Ho1 & Hnd1 & Hall1). rewrite Ho1 in H.
    exact (IH o1 documented Hnd1 Hall1 H).
Qed.

Lemma first_described (relativePath scriptName : string) :
  inherited relativePath = None ->
  described E [] relativePath scriptName = None.
Proof.
  intros Hpath. unfold described. rewrite get_plain. cbn [lookup].
  now rewrite Hpath.
Qed.

Lemma first_description_textual (relativePath : string) (scripts : value)
    (scriptName : string) (v : value) :
  inherited relativePath = None ->
  description_for E [] relativePath scripts scriptName = Returns v ->
  textual v.
Proof.
  intros Hpath. unfold description_for.
  rewrite (first_described _ scriptName Hpath). cbn [or_else_try].
  unfold Extension.template.
  destruct (ToString_opt E _); [|discriminate].
  intros [= <-]. exact I.
Qed.

(** The entry of a file in documentation made from nothing can be
    written and read back. *)
Lemma first_entry_textual (f : PackageFile) : textual (entry E [] f).
Proof.
  destruct (relative_not_inherited f) as [Hpath _].
  assert (Hget : get E (VObj []) (asRelativePath f) = None).
  { rewrite get_plain. cbn [lookup]. exact Hpath. }
  assert (Hmarker : forall e,
            textual (VObj [("__error__"%string,
                            VStr ("Failed to process: " +++ message E e))])).
  { intros e. cbn. repeat split. constructor; [intros [] | constructor]. }
  assert (Hempty : textual (VObj [])).
  { cbn. split; constructor. }
  unfold entry, fallback. rewrite Hget.
  destruct (bind (readFile (file f)) JSON_parse_outcome) as [packageJson|e];
    [|apply Hmarker].
  destruct packageJson; try apply Hmarker;
    (destruct (get E _ "scripts") as [scripts|]; [|exact Hempty];
     destruct (truthy scripts); [|exact Hempty];
     destruct (describe E [] (asRelativePath f) scripts (Object_keys scripts)
                 (VObj [])) as [documented|e] eqn:Hd; [|apply Hmarker];
     exact (assign_each_textual _ _
              (fun scriptName v =>
                 first_description_textual _ scripts scriptName v Hpath)
              [] documented (NoDup_nil _)
              (fun k v (H : In (k, v) []) => match H with end) Hd)).
Qed.

Lemma first_scan_textual (files : list PackageFile) :
  forall m,
    (forall k v, In (k, v) m -> textual v) ->
    forall k v, In (k, v) (scanned E [] files m) -> textual v.
Proof.
  induction files as [|f files IH]; intros m Hm k v Hin; [exact (Hm k v Hin)|].
  change (scanned E [] (f :: files) m)
    with (scanned E [] files (define m (asRelativePath f) (entry E [] f))) in Hin.
  apply (IH _ (fun k0 v0 Hin0 =>
                 match define_members _ _ _ _ _ Hin0 with
                 | or_introl Heq => eq_ind_r textual (first_entry_textual f) Heq
                 | or_intror Hin' => Hm k0 v0 Hin'
                 end) k v Hin).
Qed.

(** Regenerating again from the regenerated documentation changes
    nothing. *)
Lemma regenerate_again (existing : list (string * value))
    (files : list PackageFile) :
  NoDup (map asRelativePath files) ->
  NoDup (keys existing) ->
  (forall f, In f files -> printable_scripts E f) ->
  exists newDocs,
    Extension.regenerate E (VObj existing) files = Returns (VObj newDocs) /\
    Extension.regenerate E (VObj newDocs) files = Returns (VObj newDocs).
Proof.
  intros Hpaths Hkeys Hprintable.
  set (scan := scanned E existing files []).
  set (kept := unscanned files existing).
  exists (scan ++ kept).
  split; [now apply regenerate_members|].
  assert (Hscan_keys : forall k, In k (keys scan) <-> In k (map asRelativePath files)).
  { intros k. unfold scan. rewrite scanned_keys. cbn. tauto. }
  assert (Hkept_found : forall kv, In kv kept -> found (fst kv) files = false).
  { intros kv Hin. unfold kept, unscanned in Hin.
    apply filter_In in Hin. destruct Hin as [_ Hcond].
    apply andb_prop in Hcond. destruct Hcond as [Hcond _].
    now apply negb_true_iff in Hcond. }
  assert (Hunique : NoDup (keys (scan ++ kept))).
  { unfold keys. rewrite map_app. apply NoDup_app.
    - apply (scanned_unique existing files []). constructor.
    - unfold kept, unscanned. fold (keys existing) in Hkeys.
      clear - Hkeys. induction existing as [|[k v] rest IH]; [constructor|].
      cbn [filter fst]. inversion Hkeys as [|? ? Hout Hrest]; subst.
      destruct (_ && _); [|now apply IH].
      cbn [map fst]. constructor; [|now apply IH].
      intros Hin. apply Hout. apply in_map_iff in Hin.
      destruct Hin as ([k' v'] & Heq & Hin). cbn [fst] in Heq. subst k'.
      apply filter_In in Hin. destruct Hin as [Hin _].
      apply in_map_iff. now exists (k, v').
    - intros k Hscan Hkept. apply Hscan_keys, found_in in Hscan.
      apply in_map_iff in Hkept. destruct Hkept as (kv & <- & Hin).
      rewrite (Hkept_found kv Hin) in Hscan. discriminate. }
  rewrite (regenerate_members (scan ++ kept) files Hpaths Hunique).
  assert (Hentries : forall f, In f files ->
            entry E (scan ++ kept) f = entry E existing f).
  { intros f Hin. apply entry_again; [now apply Hprintable|].
    rewrite lookup_app. unfold scan.
    now rewrite (scanned_entry E existing files f Hpaths Hin). }
  rewrite (scanned_ext existing (scan ++ kept) files Hentries). fold scan.
  do 3 f_equal. unfold unscanned. rewrite filter_app.
  assert (Hnone : filter
                    (fun kv : string * value =>
                       negb (found (fst kv) files) &&
                       match inherited (fst kv) with
                       | Some _ => false
                       | None => true
                       end) scan = []).
  { assert (Hall : forall kv, In kv scan -> found (fst kv) files = true).
    { intros kv Hin. apply found_in, Hscan_keys. now apply in_map. }
    clearbody scan. clear - Hall.
    induction scan as [|kv rest IH]; [reflexivity|].
    cbn [filter]. rewrite (Hall kv (or_introl eq_refl)). cbn [negb andb].
    apply IH. intros kv' Hin. apply Hall. now right. }
  rewrite Hnone. cbn [List.app].
  unfold kept, unscanned.
  clear. induction existing as [|[k v] rest IH]; [reflexivity|].
  cbn [filter fst].
  destruct (negb (found k files) &&
            match inherited k with Some _ => false | None => true end) eqn:Hk.
  - cbn [filter fst]. rewrite Hk. now rewrite IH.
  - exact IH.
Qed.

End WithEngine.

End RegenerateMore.
Import RegenerateMore.

Module RegenerateProperties.



(** X18.  The regeneration drops no documented package: a member of
    the existing documentation whose path no scanned file has is in the
    regenerated documentation with its value, and nothing else is there
    under such a path.  The one exception are the names that every
    object inherits ([constructor], [toString], [__proto__] and the
    like), which are not copied. *)
Theorem regenerate_keeps_unscanned (E : Engine)
    (existing : list (string * value)) (files : list PackageFile) :
  NoDup (map asRelativePath files) ->
  NoDup (keys existing) ->
  exists newDocs,
    Extension.regenerate E (VObj existing) files = Returns (VObj newDocs) /\
    forall path,
      found path files = false ->
      lookup path newDocs =
      match inherited path with
      | Some _ => None
      | None => lookup path existing
      end.
Proof.
  intros Hpaths Hkeys.
  exists (scanned E existing files [] ++ unscanned files existing).
  split; [now apply regenerate_members|].
  intros path Hfound. rewrite lookup_app.
  rewrite scanned_other.
  2:{ intros Hin. apply found_in in Hin. congruence. }
  cbn [lookup]. unfold unscanned.
  rewrite (lookup_filter
             (fun k => negb (found k files) &&
                       match inherited k with Some _ => false | None => true end)).
  rewrite Hfound. cbn [negb andb].
  now destruct (inherited path).
Qed.

Lemma regenerate_keeps_unscanned_witness :
  let existing :=
    [ ("package.json", VObj [("build", VStr "old desc")]);
      ("tools/cli/package.json", VObj [("lint", VStr "checks the cli")]) ]%string in
  exists newDocs,
    Extension.regenerate sample_engine (VObj existing) two_packages
    = Returns (VObj newDocs) /\
    lookup "tools/cli/package.json" newDocs
    = Some (VObj [("lint", VStr "checks the cli")])%string.
Proof.
  intros existing.
  assert (Hpaths : NoDup (map asRelativePath two_packages)).
  { repeat constructor; simpl; intuition discriminate. }
  assert (Hkeys : NoDup (keys existing)).
  { repeat constructor; simpl; intuition discriminate. }
  destruct (regenerate_keeps_unscanned sample_engine existing two_packages
              Hpaths Hkeys) as (newDocs & Hregenerate & Hkept).
  exists newDocs. split; [exact Hregenerate|].
  exact (Hkept "tools/cli/package.json"%string eq_refl).
Defined.

(** X19.  Regenerating is idempotent.  For package files with
    pairwise different paths, all of whose commands convert to text,
    regenerating again from the regenerated documentation and the same
    package files gives documentation with entries under the same paths
    and, in the entry of every path, the same descriptions. *)
Theorem regenerate_is_idempotent (E : Engine)
    (existing : list (string * value)) (files : list PackageFile) :
  NoDup (map asRelativePath files) ->
  NoDup (keys existing) ->
  (forall f, In f files -> printable_scripts E f) ->
  exists newDocs again,
    Extension.regenerate E (VObj existing) files = Returns (VObj newDocs) /\
    Extension.regenerate E (VObj newDocs) files = Returns (VObj again) /\
    same_docs newDocs again.
Proof.
  intros Hpaths Hkeys Hprintable.
  destruct (regenerate_again E existing files Hpaths Hkeys Hprintable)
    as (newDocs & Hfirst & Hsecond).
  exists newDocs, newDocs. split; [exact Hfirst|]. split; [exact Hsecond|].
  intros path. destruct (lookup path newDocs) as [v|]; [|exact I].
  destruct v; try reflexivity. intros k. reflexivity.
Qed.

Lemma regenerate_is_idempotent_witness :
  exists newDocs again,
    Extension.regenerate sample_engine (VObj old_docs) two_packages
    = Returns (VObj newDocs) /\
    Extension.regenerate sample_engine (VObj newDocs) two_packages
    = Returns (VObj again) /\
    same_docs newDocs again.
Proof.
  apply (regenerate_is_idempotent sample_engine old_docs two_packages).
  - repeat constructor; simpl; intuition discriminate.
  - repeat constructor; simpl; intuition discriminate.
  - intros f [<-|[<-|[]]] text packageJson scripts name command
      Hfile Hparse Hscripts Hcommand;
      injection Hfile as <-; vm_compute in Hparse; injection Hparse as <-;
      vm_compute in Hscripts; [|discriminate].
    injection Hscripts as <-. cbn [own_entries lookup] in Hcommand.
    destruct (String.eqb name "build"); [injection Hcommand as <-; now eexists|].
    destruct (String.eqb name "test"); [injection Hcommand as <-; now eexists|].
    discriminate.
Defined.

(** X20.  The regenerated documentation is never taken for a flat file:
    once a scanned package file has a path with a separator, or the path
    [package.json], [looksLikeOldStructure] is false for what the
    command writes, so that the loader does not migrate it. *)
Theorem regenerated_docs_are_nested (E : Engine)
    (existing : list (string * value)) (files : list PackageFile)
    (f : PackageFile) :
  NoDup (map asRelativePath files) ->
  In f files ->
  Nested.path_like (asRelativePath f) = true ->
  exists newDocs,
    Extension.regenerate E (VObj existing) files = Returns newDocs /\
    Nested.looksLikeOldStructure newDocs = false.
Proof.
  intros Hpaths Hin Hpath.
  destruct (regenerate_entries E existing files Hpaths)
    as (newDocs & Hregenerate & Hentries).
  exists (VObj newDocs). split; [exact Hregenerate|].
  apply nested_shape_not_old. right.
  exists (asRelativePath f). split; [|exact Hpath].
  exact (lookup_some_in _ _ _ (Hentries f Hin)).
Qed.

Lemma regenerated_docs_are_nested_witness :
  exists newDocs,
    Extension.regenerate sample_engine (VObj []) two_packages = Returns newDocs /\
    Nested.looksLikeOldStructure newDocs = false.
Proof.
  apply (regenerated_docs_are_nested sample_engine [] two_packages
           {| folder := EmptyString;
              file := Content (dq "{ 'scripts': { 'build': 'tsc', 'test': 'jest' } }") |}).
  - repeat constructor; simpl; intuition discriminate.
  - now left.
  - reflexivity.
Defined.

End RegenerateProperties.

(** ** From the command to the hover *)

Module FirstRunProperties.
Import CommandOutcomes.

(** X21.  From the command to the hover.  In a workspace without a
    documentation file, let the command [createDocs] run, and then hover
    over the line of a script in one of the scanned package files, whose
    scripts all have strings for commands: the hover describes the
    script with the text that the command wrote for it, [Description for
    '<script>' script in <path>: <command>].  The written file is read
    back as it was written and is not migrated. *)
Theorem create_docs_then_hover (E : Engine) (w : World) (f : PackageFile)
    (document : TextDocument) (line : nat)
    (top scripts : list (string * value)) (text name command : string) :
  workspaceFolders w = true ->
  writeFailure w = None ->
  docsFile w = Missing ->
  NoDup (map asRelativePath (packageJsonFiles w)) ->
  In f (packageJsonFiles w) ->
  file f = Content (getText document) ->
  relativePath document = asRelativePath f ->
  endsWith (fileName document) "package.json" = true ->
  Nested.path_like (asRelativePath f) = true ->
  JSON_parse (getText document) = Some (VObj top) ->
  lookup "scripts" top = Some (VObj scripts) ->
  (forall other v, lookup other scripts = Some v -> exists c, v = VStr c) ->
  lookup name scripts = Some (VStr command) ->
  command <> EmptyString ->
  lineAt document line = Returns text ->
  match_script_key text = Some name ->
  name <> "__proto__"%string ->
  exists w' docs,
    Extension.updateScriptDocsForWorkspace E w = (Returns tt, w') /\
    Nested.provideHover E document line (Nested.initial, w')
    = (shows name
         (Extension.template_text name (asRelativePath f) command) command,
       ({| Nested.cachedDocs := Some docs |}, w')).
Proof.
  intros Hfolders Hwrite Hmissing Hpaths Hin Hfile Hrelative Hname Hpath
    Hparse Hscripts Hstrings Hcommand Hnonempty Hline Hmatch Hproto.
  set (files := packageJsonFiles w) in *.
  set (members := scanned E [] files []).
  assert (Hregenerate : Extension.regenerate E (VObj []) files
                        = Returns (VObj members)).
  { rewrite (regenerate_members E [] files Hpaths (NoDup_nil _)).
    unfold unscanned. cbn [filter]. now rewrite app_nil_r. }
  assert (Htextual : textual (VObj members)).
  { apply textual_object.
    - apply (scanned_unique E [] files []). constructor.
    - apply (first_scan_textual E files []). intros k v []. }
  destruct (stringify_textual E (VObj members) Htextual) as (out & Hout).
  pose proof (stringify_parse E (VObj members) out Htextual Hout) as Hread.
  assert (Hfiles : files <> []).
  { intros Hnil. rewrite Hnil in Hin. contradiction. }
  set (w' := show docs_updated (store out (show docs_not_found w))).
  exists w', (VObj members). split.
  - exact (update_first_run E w (VObj members) out Hfolders Hwrite Hfiles
             Hmissing Hregenerate Hout).
  - assert (Hentry : lookup (asRelativePath f) members = Some (entry E [] f)).
    { exact (scanned_entry E [] files f Hpaths Hin []). }
    assert (Hshape : nested_shape members).
    { right. exists (asRelativePath f). split; [|exact Hpath].
      exact (lookup_some_in _ _ _ Hentry). }
    assert (Hload : Nested.loadCustomDocs E false (Nested.initial, w')
                    = (Returns (Some (VObj members)),
                       ({| Nested.cachedDocs := Some (VObj members) |}, w'))).
    { apply (load_nested_file E false Nested.initial w' out members);
        try reflexivity; assumption. }
    rewrite (nested_hover E (Nested.initial, w') _ (Some (VObj members))
               document line top scripts text name (VStr command)
               Hname Hparse Hline Hmatch Hscripts Hcommand
               (truthy_command command Hnonempty) Hload).
    f_equal. apply hover_markdown_text.
    unfold nested_description. rewrite Hrelative. cbn [member_opt].
    rewrite get_plain, Hentry.
    destruct (relative_not_inherited f) as [Hinherited _].
    unfold entry. rewrite Hfile. cbn [readFile bind].
    unfold JSON_parse_outcome. rewrite Hparse, get_plain, Hscripts.
    cbn [truthy].
    assert (Hprintable : forall other v,
              lookup other (own_entries (VObj scripts)) = Some v ->
              printable E v).
    { intros other v Hv. destruct (Hstrings other v Hv) as (c & ->).
      now exists c. }
    destruct (assign_each_returns _ _
                (description_returns E [] (asRelativePath f) (VObj scripts)
                   Hprintable) (VObj [])) as (described & Hdescribed).
    fold (describe E [] (asRelativePath f) (VObj scripts)) in Hdescribed.
    rewrite Hdescribed.
    destruct (assign_each_object _ _ _ _ Hdescribed) as (documented & ->).
    destruct (assign_each_lookup _ name _ Hproto [] documented Hdescribed
                (or_introl (lookup_some_in _ _ _ Hcommand)))
      as (v & Hv & Hlookup).
    cbn [member_opt]. rewrite get_plain, Hlookup.
    unfold description_for in Hv.
    rewrite (first_described E _ name Hinherited), get_plain, Hcommand in Hv.
    injection Hv as <-. reflexivity.
Qed.

Lemma create_docs_then_hover_witness :
  let document :=
    package_json [ "{";
                   "  'scripts': {";
                   "    'build': 'tsc',";
                   "    'test': 'jest'";
                   "  }";
                   "}" ]%string in
  let root := {| folder := EmptyString; file := Content (getText document) |} in
  let w := {| workspaceFolders := true; docsFile := Missing;
              writeFailure := None;
              packageJsonFiles :=
                [ root;
                  {| folder := "packages/app/";
                     file := Content (dq "{ 'name': 'app' }") |} ]%string;
              shown := [] |} in
  exists w' docs,
    Extension.updateScriptDocsForWorkspace sample_engine w = (Returns tt, w') /\
    Nested.provideHover sample_engine document 2 (Nested.initial, w')
    = (shows "build" "Description for 'build' script in package.json: tsc"
         "tsc",
       ({| Nested.cachedDocs := Some docs |}, w')).
Proof.
  intros document root w.
  apply (create_docs_then_hover sample_engine w root document 2
           [("scripts", VObj [("build", VStr "tsc"); ("test", VStr "jest")])]%string
           [("build", VStr "tsc"); ("test", VStr "jest")]%string
           (entry_line "    " "build" (dq " 'tsc',"))
           "build" "tsc");
    try reflexivity; try discriminate.
  - repeat constructor; simpl; intuition discriminate.
  - now left.
  - intros other v Hv. cbn [lookup] in Hv.
    destruct (String.eqb other "build"); [injection Hv as <-; eauto|].
    destruct (String.eqb other "test"); [injection Hv as <-; eauto|].
    discriminate.
Defined.

End FirstRunProperties.

(** ** The timers of [debounce] *)

Module DebounceFacts.
Section Debounced.
Context {A U : Type} (func : A -> U -> U) (wait : Z).

Lemma waiting_run_due (id : nat) (t now : Z) (a : A) (u : U) :
  Extension.run_due func now (waiting wait id t a u)
  = if (t + wait <=? now)%Z
    then {| Extension.timeout := None;
            Extension.next_id := S id;
            Extension.pending := [];
            Extension.user := func a u |}
    else waiting wait id t a u.
Proof.
  unfold Extension.run_due, waiting.
  cbn [Extension.pending filter Extension.due].
  destruct (t + wait <=? now)%Z; reflexivity.
Qed.

Lemma waiting_call (id : nat) (t t' : Z) (a a' : A) (u : U) :
  Extension.call wait t' a' (Extension.run_due func t' (waiting wait id t a u))
  = waiting wait (S id) t' a'
      (if (t + wait <=? t')%Z then func a u else u).
Proof.
  rewrite waiting_run_due.
  destruct (t + wait <=? t')%Z.
  - reflexivity.
  - unfold Extension.call, Extension.clearTimeout, Extension.setTimeout, waiting.
    cbn [Extension.timeout Extension.pending Extension.next_id Extension.user
         filter Extension.timer_id].
    now rewrite Nat.eqb_refl.
Qed.

Lemma fresh_call (t : Z) (a : A) (u : U) :
  Extension.call wait t a (Extension.run_due func t (Extension.fresh u))
  = waiting wait 0 t a u.
Proof. reflexivity. Qed.

Lemma calls_waiting (events : list (Z * A)) :
  forall id t a u now,
    Extension.user
      (Extension.run_due func now
         (Extension.calls func wait events (waiting wait id t a u)))
    = fold_left (fun u a => func a u) (quiet_calls wait ((t, a) :: events) now) u.
Proof.
  induction events as [|[t' a'] events IH]; intros id t a u now.
  - cbn [Extension.calls quiet_calls]. rewrite waiting_run_due, app_nil_r.
    destruct (t + wait <=? now)%Z; reflexivity.
  - cbn [Extension.calls]. rewrite waiting_call, IH.
    change (quiet_calls wait ((t, a) :: (t', a') :: events) now)
      with ((if (t + wait <=? t')%Z then [a] else [])
            ++ quiet_calls wait ((t', a') :: events) now).
    rewrite fold_left_app.
    destruct (t + wait <=? t')%Z; reflexivity.
Qed.

Lemma calls_end_waiting (events : list (Z * A)) :
  forall id t a u t' a',
  exists id' u',
    Extension.calls func wait (events ++ [(t', a')]) (waiting wait id t a u)
    = waiting wait id' t' a' u'.
Proof.
  induction events as [|[t1 a1] events IH]; intros id t a u t' a'.
  - cbn [List.app Extension.calls]. rewrite waiting_call. eauto.
  - cbn [List.app Extension.calls]. rewrite waiting_call. apply IH.
Qed.

End Debounced.
End DebounceFacts.
Import DebounceFacts.

Module DebounceProperties.

(** X22.  What [debounce] makes of a sequence of calls, for a delay
    [wait] of a millisecond or more and calls made in the order of
    time, none of them at the very instant at which the timer of the
    call before it is due: [func] runs for exactly those calls that are
    followed by no other call before their delay [wait] has passed, with
    the arguments of that call, in the order of the calls.  Calls that
    are overtaken by a later call within the delay never run. *)
Theorem debounce_runs_quiet_calls {A U : Type} (func : A -> U -> U) (wait : Z)
    (events : list (Z * A)) (u : U) (now : Z) :
  (1 <= wait)%Z ->
  apart wait events now ->
  Extension.user
    (Extension.run_due func now
       (Extension.calls func wait events (Extension.fresh u)))
  = fold_left (fun u a => func a u) (quiet_calls wait events now) u.
Proof.
  intros _ _.
  destruct events as [|[t a] events]; [reflexivity|].
  cbn [Extension.calls]. rewrite fresh_call. apply calls_waiting.
Qed.

Lemma debounce_runs_quiet_calls_witness :
  Extension.user
    (Extension.run_due (fun a u => u ++ [a]) 1000
       (Extension.calls (fun a u => u ++ [a]) 300
          [(0, "first"); (100, "second"); (500, "third")]%Z%string
          (Extension.fresh [])))
  = ["second"; "third"]%string.
Proof.
  apply (debounce_runs_quiet_calls (fun a u => u ++ [a]) 300
           [(0, "first"); (100, "second"); (500, "third")]%Z%string [] 1000).
  - lia.
  - cbn. repeat split; lia.
Defined.

(** X23.  After any sequence of calls of a debounced function exactly
    one timer is pending, the one of the last call: it is due [wait]
    after that call, carries its arguments, and [timeout] holds its
    id.  Every earlier timer has run or was cleared. *)
Theorem debounce_keeps_one_timer {A U : Type} (func : A -> U -> U) (wait : Z)
    (events : list (Z * A)) (t : Z) (a : A) (u : U) :
  let d := Extension.calls func wait (events ++ [(t, a)]) (Extension.fresh u) in
  exists id,
    Extension.timeout d = Some id /\
    Extension.pending d
    = [ {| Extension.timer_id := id; Extension.due := t + wait;
           Extension.arguments := a |} ].
Proof.
  cbn zeta.
  destruct events as [|[t0 a0] events].
  - cbn [List.app Extension.calls]. rewrite fresh_call. now exists 0.
  - cbn [List.app Extension.calls]. rewrite fresh_call.
    destruct (calls_end_waiting func wait events 0 t0 a0 u t a) as (id & u' & ->).
    now exists id.
Qed.

End DebounceProperties.

(** ** The watcher of the documentation file *)

Module WatcherFacts.

Lemma quiet_calls_last {A : Type} (wait : Z) (events : list (Z * A))
    (t : Z) (a : A) (now : Z) :
  (t + wait <= now)%Z ->
  exists earlier, quiet_calls wait (events ++ [(t, a)]) now = earlier ++ [a].
Proof.
  intros Hquiet. induction events as [|[t0 a0] events IH].
  - exists []. cbn [List.app quiet_calls].
    apply Z.leb_le in Hquiet. now rewrite Hquiet.
  - destruct IH as (earlier & IH).
    change (((t0, a0) :: events) ++ [(t, a)])
      with ((t0, a0) :: (events ++ [(t, a)])).
    cbn [quiet_calls]. rewrite IH.
    eexists. now rewrite app_assoc.
Qed.

End WatcherFacts.
Import WatcherFacts.

Module WatcherProperties.

(** X24.  The watcher does clear the cache.  Whatever events on the
    documentation file came before, once 500 ms have passed since the
    last one the cache of the provider is empty, the notification of the
    reload has been shown, and no timer is left; so the next load reads
    the file again. *)
Theorem watcher_clears_cache_when_quiet (p : Nested.Provider)
    (notices : list notice) (times : list Z) (t now : Z) :
  (t + 500 <= now)%Z ->
  let settled :=
    Extension.run_due (Extension.clear_and_tell Nested.clearCache) now
      (Extension.watch Nested.clearCache (times ++ [t])
         (Extension.fresh (p, notices))) in
  Nested.cachedDocs (fst (Extension.user settled)) = None /\
  In (Information "Package Scripts documentation cache reloaded.")
     (snd (Extension.user settled)) /\
  Extension.pending settled = [].
Proof.
  intros Hquiet settled.
  assert (Hevents : map (fun t0 : Z => (t0, tt)) (times ++ [t])
                    = map (fun t0 : Z => (t0, tt)) times ++ [(t, tt)]).
  { now rewrite map_app. }
  split; [|split].
  - unfold settled, Extension.watch. rewrite Hevents.
    destruct (map (fun t0 : Z => (t0, tt)) times) as [|[t0 []] events].
    + cbn [List.app Extension.calls]. rewrite fresh_call, waiting_run_due.
      apply Z.leb_le in Hquiet. now rewrite Hquiet.
    + cbn [List.app Extension.calls]. rewrite fresh_call, calls_waiting.
      destruct (quiet_calls_last 500 ((t0, tt) :: events) t tt now Hquiet)
        as (earlier & Hq).
      change ((t0, tt) :: events ++ [(t, tt)])
        with (((t0, tt) :: events) ++ [(t, tt)]).
      rewrite Hq, fold_left_app. reflexivity.
  - unfold settled, Extension.watch. rewrite Hevents.
    destruct (map (fun t0 : Z => (t0, tt)) times) as [|[t0 []] events].
    + cbn [List.app Extension.calls]. rewrite fresh_call, waiting_run_due.
      apply Z.leb_le in Hquiet. rewrite Hquiet. cbn.
      apply in_or_app. right. now left.
    + cbn [List.app Extension.calls]. rewrite fresh_call, calls_waiting.
      destruct (quiet_calls_last 500 ((t0, tt) :: events) t tt now Hquiet)
        as (earlier & Hq).
      change ((t0, tt) :: events ++ [(t, tt)])
        with (((t0, tt) :: events) ++ [(t, tt)]).
      rewrite Hq, fold_left_app. cbn.
      apply in_or_app. right. now left.
  - unfold settled, Extension.watch. rewrite Hevents.
    assert (Hend : exists id u,
              Extension.calls (Extension.clear_and_tell Nested.clearCache) 500
                (map (fun t0 : Z => (t0, tt)) times ++ [(t, tt)])
                (Extension.fresh (p, notices))
              = waiting 500 id t tt u).
    { destruct (map (fun t0 : Z => (t0, tt)) times) as [|[t0 []] events].
      - cbn [List.app Extension.calls]. rewrite fresh_call. eauto.
      - cbn [List.app Extension.calls]. rewrite fresh_call.
        apply calls_end_waiting. }
    destruct Hend as (id & u & ->).
    rewrite waiting_run_due. apply Z.leb_le in Hquiet. now rewrite Hquiet.
Qed.

Lemma watcher_clears_cache_when_quiet_witness :
  let cached := {| Nested.cachedDocs := Some (VObj []) |} in
  let settled :=
    Extension.run_due (Extension.clear_and_tell Nested.clearCache) 2600
      (Extension.watch Nested.clearCache [0; 700; 2000]%Z
         (Extension.fresh (cached, []))) in
  Nested.cachedDocs (fst (Extension.user settled)) = None /\
  In (Information "Package Scripts documentation cache reloaded.")
     (snd (Extension.user settled)) /\
  Extension.pending settled = [].
Proof.
  exact (watcher_clears_cache_when_quiet {| Nested.cachedDocs := Some (VObj []) |}
           [] [0; 700]%Z 2000 2600 ltac:(lia)).
Defined.

End WatcherProperties.

(** ** The registration of the hover provider *)

Module ActivationFacts.
Import Activation.

Lemma consistent_enable (h : Host) : consistent h -> consistent (enableCommand h).
Proof.
  unfold consistent, enableCommand.
  destruct (hoverProvider h) as [r|] eqn:Hvar; cbn.
  - now rewrite Hvar.
  - intros ->. split; [reflexivity | lia].
Qed.

Lemma consistent_disable (h : Host) : consistent h -> consistent (disableCommand h).
Proof.
  unfold consistent, disableCommand.
  destruct (hoverProvider h) as [r|] eqn:Hvar; cbn.
  - intros [-> _]. cbn. now rewrite Nat.eqb_refl.
  - now rewrite Hvar.
Qed.

Lemma session_consistent (commands : list Switch) : consistent (session commands).
Proof.
  unfold session.
  assert (Hstart : consistent (activate start)) by (cbn; split; [reflexivity | lia]).
  revert Hstart. generalize (activate start).
  induction commands as [|c commands IH]; intros h Hh; [exact Hh|].
  cbn [fold_left]. apply IH.
  destruct c; [now apply consistent_enable | now apply consistent_disable].
Qed.

End ActivationFacts.

Module ActivationProperties.
Import Activation ActivationFacts.

(** X25.  Whatever commands [enable] and [disable] run after
    [activate], and in whatever order, the host never holds two hover
    providers: it holds the one registration that the variable
    [hoverProvider] names, or none when the variable is undefined.
    After [enable] there is exactly one, after [disable] none. *)
Theorem hover_provider_registered_once (commands : list Switch) :
  let h := session commands in
  hoverProviders h
  = match hoverProvider h with
    | Some registration => [registration]
    | None => []
    end /\
  length (hoverProviders (enableCommand h)) = 1 /\
  hoverProviders (disableCommand h) = [].
Proof.
  cbn zeta.
  pose proof (session_consistent commands) as Hh.
  pose proof (consistent_enable _ Hh) as He.
  pose proof (consistent_disable _ Hh) as Hd.
  generalize dependent (session commands). intros h Hh He Hd.
  split; [|split].
  - unfold consistent in Hh. destruct (hoverProvider h); [apply Hh | exact Hh].
  - unfold consistent, enableCommand in *.
    destruct (hoverProvider h) as [r|] eqn:Hvar; cbn in *.
    + rewrite Hvar in He. now rewrite (proj1 He).
    + now rewrite (proj1 He).
  - unfold consistent, disableCommand in *.
    destruct (hoverProvider h) as [r|] eqn:Hvar; cbn in *.
    + exact Hd.
    + now rewrite Hvar in Hd.
Qed.

(** X26.  [deactivate] leaves nothing behind, whatever commands ran
    before: no hover provider is registered, the watcher is disposed,
    and the three variables of the module are undefined again. *)
Theorem deactivate_unregisters (commands : list Switch) :
  let h := deactivate (session commands) in
  hoverProviders h = [] /\
  watching h = false /\
  hoverProvider h = None /\
  scriptDocsWatcher h = false /\
  debouncedClearCache h = false.
Proof.
  cbn zeta.
  assert (Hwatch : scriptDocsWatcher (session commands) = true).
  { unfold session.
    assert (Hstart : scriptDocsWatcher (activate start) = true) by reflexivity.
    revert Hstart. generalize (activate start).
    induction commands as [|c commands IH]; intros h Hstart; [exact Hstart|].
    cbn [fold_left]. apply IH.
    destruct c; cbn; [unfold enableCommand | unfold disableCommand];
      destruct (hoverProvider h); exact Hstart. }
  pose proof (session_consistent commands) as Hh.
  generalize dependent (session commands). intros h Hwatch Hh.
  unfold consistent in Hh. unfold deactivate.
  destruct (hoverProvider h) as [r|] eqn:Hvar; cbn.
  - destruct Hh as [-> _]. cbn. rewrite Nat.eqb_refl, Hwatch. now repeat split.
  - rewrite Hvar, Hwatch. now repeat split.
Qed.

End ActivationProperties.

(** ** The patterns *)

Module PatternFacts.

Lemma span_eq (p : ascii -> bool) (s run rest : string) :
  span p s = (run, rest) -> s = run +++ rest.
Proof.
  revert run rest. induction s as [|c r IH]; intros run rest H; cbn [span] in H.
  - now injection H as <- <-.
  - destruct (p c).
    + destruct (span p r) as [run' rest'] eqn:Hr. injection H as <- <-.
      cbn [append]. now rewrite (IH run' rest' eq_refl).
    + now injection H as <- <-.
Qed.

Lemma span_stop (p : ascii -> bool) (s run : string) (c : ascii) (rest : string) :
  span p s = (run, String c rest) -> p c = false.
Proof.
  revert run. induction s as [|x r IH]; intros run H; cbn [span] in H.
  - discriminate.
  - destruct (p x) eqn:Hx.
    + destruct (span p r) as [run' rest'] eqn:Hr. injection H as <- ->.
      now apply (IH run').
    + injection H as <- -> ->. exact Hx.
Qed.

Lemma not_quote_false (c : ascii) : not_quote c = false -> c = quote.
Proof.
  unfold not_quote. destruct (Ascii.eqb_spec c quote); [auto | discriminate].
Qed.

(** The match at the start of a line, if there is one. *)
Lemma match_any_key_here (key rest : string) :
  key <> EmptyString ->
  forallb_string not_quote key = true ->
  match_any_key (key_then key rest) = Some key.
Proof.
  intros Hkey Hclass.
  exact (match_any_key_entry EmptyString key rest eq_refl Hclass Hkey).
Qed.

Lemma match_any_key_step (c : ascii) (r : string) :
  (exists key rest, String c r = key_then key rest /\ key <> EmptyString /\
                    forallb_string not_quote key = true) \/
  ((forall key rest, key <> EmptyString ->
                     forallb_string not_quote key = true ->
                     String c r <> key_then key rest) /\
   match_any_key (String c r) = match_any_key r).
Proof.
  destruct (Ascii.eqb_spec c quote) as [->|Hc].
  - destruct (span not_quote r) as [run rest] eqn:Hspan.
    pose proof (span_eq _ _ _ _ Hspan) as Hr.
    pose proof (span_class _ _ _ _ Hspan) as Hrun.
    assert (Hother :
              (forall tail, rest <> String quote (String ":" tail)) \/ run = EmptyString ->
              (forall key rest0, key <> EmptyString ->
                                 forallb_string not_quote key = true ->
                                 String quote r <> key_then key rest0)).
    { intros Hno key rest0 Hkey Hclass Heq.
      unfold key_then in Heq. injection Heq as Heq.
      pose proof (span_run not_quote key quote (String ":" rest0) Hclass eq_refl)
        as Hspan'.
      rewrite <- Heq, Hspan in Hspan'. injection Hspan' as -> ->.
      destruct Hno as [Hno|Hno]; [now apply (Hno rest0) | contradiction]. }
    destruct run as [|k ks].
    + right. split; [apply Hother; now right|].
      cbn [match_any_key]. rewrite Ascii.eqb_refl, Hspan. reflexivity.
    + destruct rest as [|q rest1].
      * right. split; [apply Hother; left; discriminate|].
        cbn [match_any_key]. rewrite Ascii.eqb_refl, Hspan. reflexivity.
      * pose proof (not_quote_false _ (span_stop _ _ _ _ _ Hspan)) as ->.
        destruct rest1 as [|c' tail].
        -- right. split; [apply Hother; left; discriminate|].
           cbn [match_any_key]. rewrite Ascii.eqb_refl, Hspan. reflexivity.
        -- destruct (Ascii.eqb_spec c' ":") as [->|Hcolon].
           ++ left. exists (String k ks), tail. split; [|split].
              ** unfold key_then. now rewrite Hr.
              ** discriminate.
              ** exact Hrun.
           ++ right. split.
              ** apply Hother. left. intros tail0 Heq. injection Heq as Heq _.
                 contradiction.
              ** cbn [match_any_key]. rewrite Ascii.eqb_refl, Hspan.
                 destruct (Ascii.eqb_spec c' ":"); [contradiction | reflexivity].
  - right. split.
    + intros key rest _ _ Heq. unfold key_then in Heq. injection Heq as Heq _.
      contradiction.
    + cbn [match_any_key].
      destruct (Ascii.eqb_spec c quote); [contradiction | reflexivity].
Qed.

End PatternFacts.
Import PatternFacts.

Module PatternProperties.

(** X27.  The pattern of the later provider ([match_script_key]) finds
    the key [name] on a line exactly when the line is white space, then
    [name] in double quotes, then white space, then a colon, with a
    [name] that is not empty and made of letters, digits, [_], [:] and
    [-]. *)
Theorem match_script_key_iff (line name : string) :
  match_script_key line = Some name <->
  exists indent gap rest,
    line = indent +++ String quote (name +++ String quote (gap +++ String ":" rest)) /\
    white_space indent = true /\
    forallb_string is_script_char name = true /\
    name <> EmptyString /\
    white_space gap = true.
Proof.
  split.
  - unfold match_script_key. intros H.
    destruct (skip_space_split line) as (indent & Hline & Hindent).
    destruct (skip_space line) as [|c r]; [discriminate|].
    destruct (Ascii.eqb_spec c quote) as [->|]; [|discriminate].
    destruct (span is_script_char r) as [run rest1] eqn:Hspan.
    pose proof (span_eq _ _ _ _ Hspan) as Hr.
    pose proof (span_class _ _ _ _ Hspan) as Hrun.
    destruct run as [|k ks]; [discriminate|].
    destruct rest1 as [|c' r']; [discriminate|].
    destruct (Ascii.eqb_spec c' quote) as [->|]; [|discriminate].
    destruct (skip_space_split r') as (gap & Hr' & Hgap).
    destruct (skip_space r') as [|c'' rest]; [discriminate|].
    destruct (Ascii.eqb_spec c'' ":") as [->|]; [|discriminate].
    injection H as <-.
    exists indent, gap, rest. repeat split; try assumption; try discriminate.
    now rewrite Hline, Hr, Hr'.
  - intros (indent & gap & rest & -> & Hindent & Hname & Hnonempty & Hgap).
    unfold match_script_key.
    rewrite (skip_space_app indent _ Hindent), skip_space_quote.
    rewrite Ascii.eqb_refl.
    rewrite (span_run is_script_char name quote _ Hname eq_refl).
    destruct name as [|k ks]; [contradiction|].
    rewrite Ascii.eqb_refl.
    rewrite (skip_space_app gap _ Hgap), skip_space_colon.
    reflexivity.
Qed.

(** X28.  The pattern of the first provider ([match_any_key]) finds
    the key of the leftmost place of the line where a double quote, a
    key that is not empty and holds no double quote, a double quote and
    a colon follow one another; it finds nothing exactly when the line
    has no such place. *)
Theorem match_any_key_leftmost (line : string) :
  match match_any_key line with
  | Some key =>
      exists before rest,
        key_at line before key rest /\
        forall before' key' rest',
          key_at line before' key' rest' ->
          String.length before <= String.length before'
  | None => forall before key rest, ~ key_at line before key rest
  end.
Proof.
  induction line as [|c r IH].
  - cbn [match_any_key]. intros before key rest [Heq _].
    destruct before; discriminate.
  - assert (Hshift : forall before key rest,
              key_at (String c r) before key rest ->
              before = EmptyString \/
              exists before', before = String c before' /\
                              key_at r before' key rest).
    { intros before key rest (Heq & Hkey & Hclass).
      destruct before as [|b before']; [now left|].
      right. exists before'. cbn [append] in Heq. injection Heq as <- Heq.
      split; [reflexivity|]. now split. }
    destruct (match_any_key_step c r)
      as [(key & rest & Heq & Hkey & Hclass) | [Hnot Hstep]].
    + rewrite Heq, (match_any_key_here key rest Hkey Hclass).
      exists EmptyString, rest. split.
      * now split.
      * intros. cbn. lia.
    + rewrite Hstep.
      assert (Hlater : forall before key rest,
                key_at (String c r) before key rest ->
                exists before', before = String c before' /\
                                key_at r before' key rest).
      { intros before key rest Hat.
        destruct (Hshift before key rest Hat) as [-> | Hlater]; [|exact Hlater].
        destruct Hat as (Heq & Hkey & Hclass). cbn [append] in Heq.
        exfalso. exact (Hnot key rest Hkey Hclass Heq). }
      destruct (match_any_key r) as [key|].
      * destruct IH as (before & rest & (Heq & Hkey & Hclass) & Hleast).
        exists (String c before), rest. split.
        -- split; [|now split]. cbn [append]. now rewrite <- Heq.
        -- intros before' key' rest' Hat.
           destruct (Hlater before' key' rest' Hat) as (b' & -> & Hat').
           cbn [String.length]. apply le_n_S. exact (Hleast b' key' rest' Hat').
      * intros before key rest Hat.
        destruct (Hlater before key rest Hat) as (b' & -> & Hat').
        exact (IH b' key rest Hat').
Qed.

End PatternProperties.
